(** * zapmenu: authentication and authorization helpers

    A shallow embedding of [server/src/helpers/auth.helper.ts],
    [server/src/helpers/jwt.helper.ts] and of the middleware in
    [auth.middleware.ts].

    The asynchronous functions of the source talk to a relational store
    through the Prisma client, read the wall clock and write to the
    console.  They are embedded in a small monad [Js] that threads a
    [World] (database, clock, time zone, fault plan, entropy, console)
    and carries JavaScript completions: a mutation made before a [throw]
    stays in the world, exactly as a committed query stays in the
    database.

    What the source leaves to JavaScript is written out where the
    helpers depend on it: Numbers are IEEE 754 doubles (integers are
    exact up to [2 ^ 53] and rounded beyond), [parseInt] and
    [Number.prototype.toString] follow ECMAScript, and [Date] works on
    the fields of local time. *)

From Stdlib Require Import ZArith List String Ascii Bool Lia.
Import ListNotations.
Local Open Scope string_scope.
Local Open Scope list_scope.
Local Open Scope Z_scope.

(** * The embedding *)

(** ** Numbers and strings

    A string is given by its UTF-8 bytes.  The Numbers the helpers
    compute with are integral: identifiers, times in milliseconds and
    what [parseInt] returns, which may also be [NaN] or infinite. *)

Inductive Number :=
| NaN
| Infinity (negative : bool)
| Finite (n : Z).

(** The Number nearest to an integer, as IEEE 754 rounds (ties go to
    the even significand).  Every integer up to [2 ^ 53] is a Number; a
    larger one keeps 53 significant bits; from [2 ^ 1024 - 2 ^ 970] on
    the result is infinite. *)
Definition roundToNumber (n : Z) : Number :=
  let a := Z.abs n in
  if a <=? 2 ^ 53 then Finite n
  else
    let ulp := 2 ^ (Z.log2 a - 52) in
    let q := a / ulp in
    let r := a mod ulp in
    let significand :=
      if 2 * r <? ulp then q
      else if ulp <? 2 * r then q + 1
      else if Z.even q then q else q + 1 in
    if 2 ^ 1024 <=? significand * ulp then Infinity (n <? 0)
    else Finite (Z.sgn n * (significand * ulp)).

(** IEEE 754 addition and multiplication of integral Numbers. *)
Definition Number_add (a b : Number) : Number :=
  match a, b with
  | NaN, _ | _, NaN => NaN
  | Finite x, Finite y => roundToNumber (x + y)
  | Infinity s, Infinity s' => if Bool.eqb s s' then Infinity s else NaN
  | Infinity s, Finite _ | Finite _, Infinity s => Infinity s
  end.

Definition Number_mul (a b : Number) : Number :=
  match a, b with
  | NaN, _ | _, NaN => NaN
  | Finite x, Finite y => roundToNumber (x * y)
  | Infinity s, Infinity s' => Infinity (xorb s s')
  | Infinity s, Finite y | Finite y, Infinity s =>
      if y =? 0 then NaN else Infinity (xorb s (y <? 0))
  end.

(** JavaScript truthiness of a string. *)
Definition truthyString (s : string) : bool := negb (String.eqb s "").

Definition digitChar (d : Z) : ascii := ascii_of_nat (48 + Z.to_nat d).

Fixpoint digitsOf (fuel : nat) (n : Z) (acc : string) : string :=
  match fuel with
  | O => acc
  | S fuel =>
      let acc' := String (digitChar (n mod 10)) acc in
      if n / 10 =? 0 then acc' else digitsOf fuel (n / 10) acc'
  end.

(** The decimal numeral of an integer; a number has no more decimal
    digits than binary ones, which bounds the recursion. *)
Definition decimal (n : Z) : string :=
  if n <? 0 then String "-" (digitsOf (S (Z.to_nat (Z.log2 (- n)))) (- n) "")
  else digitsOf (S (Z.to_nat (Z.log2 n))) n "".

(** The multiple of [p] nearest to [x]; of two equally near, the one
    with the even factor. *)
Definition nearestMultiple (x p : Z) : Z :=
  let q := x / p in
  let r := x mod p in
  if 2 * r <? p then q * p
  else if p <? 2 * r then (q + 1) * p
  else if Z.even q then q * p else (q + 1) * p.

(** [Number::toString] writes the fewest digits that still denote the
    Number [x]: the search goes down from [10 ^ e] to the first power of
    ten with a multiple that rounds to [x], and returns that multiple
    with the exponent. *)
Fixpoint fewestDigits (e : nat) (x : Z) : Z * Z :=
  match e with
  | O => (x, 0)
  | S e' =>
      let c := nearestMultiple x (10 ^ Z.of_nat e) in
      match roundToNumber c with
      | Finite y => if y =? x then (c, Z.of_nat e) else fewestDigits e' x
      | _ => fewestDigits e' x
      end
  end.

(** [Number::toString] on an integral Number beyond [2 ^ 53]: up to 21
    digits are written out, the digits after the significant ones being
    zeros; a longer numeral takes the exponent form [d.ddde+n]. *)
Definition beyondSafe (x : Z) : string :=
  let '(c, e) := fewestDigits (S (Z.to_nat (Z.log2 x / 3))) x in
  let n := Z.of_nat (String.length (decimal c)) in
  if n <=? 21 then decimal c
  else
    match decimal (c / 10 ^ e) with
    | String d EmptyString =>
        String d (String.append "e+" (decimal (n - 1)))
    | String d more =>
        String d (String "." (String.append more (String.append "e+" (decimal (n - 1)))))
    | EmptyString => EmptyString
    end.

(** [Number.prototype.toString] of the Number nearest to [n].  Up to
    [2 ^ 53] every digit of the integer is significant. *)
Definition Number_toString (n : Z) : string :=
  if Z.abs n <=? 2 ^ 53 then decimal n
  else
    match roundToNumber n with
    | Finite x => if x <? 0 then String "-" (beyondSafe (- x)) else beyondSafe x
    | Infinity true => "-Infinity"
    | Infinity false => "Infinity"
    | NaN => "NaN"
    end.

Definition byte (c : ascii) : Z := Z.of_nat (nat_of_ascii c).

Definition isDigit (c : ascii) : bool :=
  let n := Z.of_nat (nat_of_ascii c) in (48 <=? n) && (n <=? 57).

Definition digitValue (c : ascii) : Z := Z.of_nat (nat_of_ascii c) - 48.

(** Tab, line feed, vertical tab, form feed, carriage return, space. *)
Definition isStrWhiteSpace (c : ascii) : bool :=
  let n := Z.of_nat (nat_of_ascii c) in ((9 <=? n) && (n <=? 13)) || (n =? 32).

(** The white space and line terminators beyond ASCII, in UTF-8:
    U+00A0 is [C2 A0]; the three-byte ones are U+1680, U+2000 to U+200A,
    U+2028, U+2029, U+202F, U+205F, U+3000 and U+FEFF. *)
Definition isWhiteSpace2 (b1 b2 : Z) : bool := (b1 =? 194) && (b2 =? 160).

Definition isWhiteSpace3 (b1 b2 b3 : Z) : bool :=
  ((b1 =? 225) && (b2 =? 154) && (b3 =? 128))
  || ((b1 =? 226) && (b2 =? 128)
      && (((128 <=? b3) && (b3 <=? 138)) || (b3 =? 168) || (b3 =? 169) || (b3 =? 175)))
  || ((b1 =? 226) && (b2 =? 129) && (b3 =? 159))
  || ((b1 =? 227) && (b2 =? 128) && (b3 =? 128))
  || ((b1 =? 239) && (b2 =? 187) && (b3 =? 191)).

(** What [parseInt] skips before the numeral. *)
Fixpoint trimStart (s : string) : string :=
  match s with
  | String c1 r1 =>
      if isStrWhiteSpace c1 then trimStart r1
      else if byte c1 <? 128 then s
      else
        match r1 with
        | String c2 r2 =>
            if isWhiteSpace2 (byte c1) (byte c2) then trimStart r2
            else
              match r2 with
              | String c3 r3 =>
                  if isWhiteSpace3 (byte c1) (byte c2) (byte c3) then trimStart r3 else s
              | EmptyString => s
              end
        | EmptyString => s
        end
  | EmptyString => s
  end.

(** Reads the longest prefix of decimal digits; [None] when it is empty. *)
Fixpoint parseDigits (s : string) (acc : option Z) : option Z :=
  match s with
  | String c rest =>
      if isDigit c
      then parseDigits rest
             (Some (10 * match acc with Some a => a | None => 0 end + digitValue c))
      else acc
  | EmptyString => acc
  end.

(** The Number of a sign and the digits read; without a digit, [NaN]. *)
Definition numberOf (negative : bool) (digits : option Z) : Number :=
  match digits with
  | Some m => roundToNumber (if negative then - m else m)
  | None => NaN
  end.

(** [parseInt(s, 10)]: the integer the digits denote, as a Number.  (For
    numerals of more than 20 digits the standard lets an engine read the
    later digits as zeros; Node reads them all.) *)
Definition parseInt (s : string) : Number :=
  match trimStart s with
  | String "-" rest => numberOf true (parseDigits rest None)
  | String "+" rest => numberOf false (parseDigits rest None)
  | t => numberOf false (parseDigits t None)
  end.

(** [^[0-9]{6}$] *)
Definition sixDigits (s : string) : bool :=
  match s with
  | String a (String b (String c (String d (String e (String f EmptyString))))) =>
      isDigit a && isDigit b && isDigit c && isDigit d && isDigit e && isDigit f
  | _ => false
  end.

(** A value found in the route parameters, the parsed body or the query
    string.  The middleware only tests such a value for truthiness and
    converts it to a string.  [JsNumber] is an integral, infinite or
    [NaN] Number; [JsFraction] is a Number with a fractional part, given
    by its string conversion (as in 1.5 or 1e-7); [JsObject] is an object
    or array, given by its string conversion, [None] when the conversion
    throws a TypeError (an object whose [toString] and [valueOf] yield no
    primitive). *)
Inductive JsValue :=
| JsUndefined
| JsNull
| JsBoolean (b : bool)
| JsNumber (x : Number)
| JsFraction (str : string)
| JsString (s : string)
| JsObject (str : option string).

Definition truthyNumber (x : Number) : bool :=
  match x with
  | NaN => false
  | Infinity _ => true
  | Finite n => negb (n =? 0)
  end.

Definition truthy (v : JsValue) : bool :=
  match v with
  | JsUndefined | JsNull => false
  | JsBoolean b => b
  | JsNumber x => truthyNumber x
  | JsFraction _ => true
  | JsString s => truthyString s
  | JsObject _ => true
  end.

(** [ToString]; [None] when it throws. *)
Definition ToString (v : JsValue) : option string :=
  match v with
  | JsUndefined => Some "undefined"
  | JsNull => Some "null"
  | JsBoolean true => Some "true"
  | JsBoolean false => Some "false"
  | JsNumber NaN => Some "NaN"
  | JsNumber (Infinity true) => Some "-Infinity"
  | JsNumber (Infinity false) => Some "Infinity"
  | JsNumber (Finite n) => Some (Number_toString n)
  | JsFraction str => Some str
  | JsString s => Some s
  | JsObject str => str
  end.

(** ** Persisted rows (schema of the migration) *)

Module Admin.
Record t := mk
  { id : Z; name : string; email : string; phone : string; hotelId : Z }.
End Admin.

Module Guest.
Record t := mk { id : Z; name : string; email : string }.
Definition setName (g : t) (n : string) : t := mk (id g) n (email g).
End Guest.

Module AdminVerification.
Record t := mk
  { id : Z; adminId : Z; passcode : string;
    expiresAt : Z; used : bool; createdAt : Z }.
Definition setUsed (v : t) (u : bool) : t :=
  mk (id v) (adminId v) (passcode v) (expiresAt v) u (createdAt v).
End AdminVerification.

Module Order.
Record t := mk { id : Z; guestId : Z; hotelId : Z }.
End Order.

(** The tables the helpers touch.  Rows are kept in insertion order; the
    two counters are the AUTOINCREMENT sequences of the tables the
    helpers insert into. *)
Record Db := mkDb
  { admins : list Admin.t;
    guests : list Guest.t;
    adminVerifications : list AdminVerification.t;
    orders : list Order.t;
    nextGuestId : Z;
    nextVerificationId : Z }.

Definition setGuests (d : Db) (gs : list Guest.t) (n : Z) : Db :=
  mkDb (admins d) gs (adminVerifications d) (orders d) n (nextVerificationId d).

Definition setVerifications (d : Db) (vs : list AdminVerification.t) (n : Z) : Db :=
  mkDb (admins d) (guests d) vs (orders d) (nextGuestId d) n.

(** ** Dates

    The time value of a [Date] is a number of milliseconds since the
    epoch; a date without one is an Invalid Date.  [getMinutes] and
    [setMinutes] work on the fields of local time. *)

Definition msPerSecond : Z := 1000.
Definition msPerMinute : Z := 60000.
Definition msPerHour : Z := 3600000.
Definition msPerDay : Z := 86400000.

Definition Day (t : Z) : Z := t / msPerDay.
Definition HourFromTime (t : Z) : Z := (t / msPerHour) mod 24.
Definition MinFromTime (t : Z) : Z := (t / msPerMinute) mod 60.
Definition SecFromTime (t : Z) : Z := (t / msPerSecond) mod 60.
Definition msFromTime (t : Z) : Z := t mod msPerSecond.

(** The system time zone.  [offsetAt t] is the offset of local time from
    UTC, in milliseconds, at the instant [t]; [offsetOfLocal l] is the
    offset [UTC] subtracts from the local time [l]: where the clocks were
    set back [l] names two instants and the earlier one counts, where
    they were set forward it names none and the offset before the change
    counts. *)
Record TimeZone := mkTimeZone { offsetAt : Z -> Z; offsetOfLocal : Z -> Z }.

Definition LocalTime (tz : TimeZone) (t : Z) : Z := t + offsetAt tz t.

Definition UTC (tz : TimeZone) (t : Number) : Number :=
  match t with
  | Finite l => Number_add (Finite l) (Finite (- offsetOfLocal tz l))
  | _ => NaN
  end.

Definition isFinite (x : Number) : bool :=
  match x with
  | Finite _ => true
  | _ => false
  end.

(** [((hour * msPerHour + min * msPerMinute) + sec * msPerSecond) + ms],
    in IEEE 754 arithmetic. *)
Definition MakeTime (hour min sec ms : Number) : Number :=
  if isFinite hour && isFinite min && isFinite sec && isFinite ms
  then Number_add
         (Number_add
            (Number_add (Number_mul hour (Finite msPerHour))
               (Number_mul min (Finite msPerMinute)))
            (Number_mul sec (Finite msPerSecond)))
         ms
  else NaN.

Definition MakeDate (day time : Number) : Number :=
  if isFinite day && isFinite time
  then match Number_add (Number_mul day (Finite msPerDay)) time with
       | Finite tv => Finite tv
       | _ => NaN
       end
  else NaN.

(** A time value beyond 8.64e15 milliseconds is none: [None] is the
    Invalid Date. *)
Definition TimeClip (time : Number) : option Z :=
  match time with
  | Finite t => if 8640000000000000 <? Z.abs t then None else Some t
  | _ => None
  end.

(** [date.getMinutes()] of a date with time value [t]. *)
Definition Date_getMinutes (tz : TimeZone) (t : Z) : Z := MinFromTime (LocalTime tz t).

(** [date.setMinutes(min)]: the new time value of the date. *)
Definition Date_setMinutes (tz : TimeZone) (t : Z) (min : Number) : option Z :=
  let local := LocalTime tz t in
  TimeClip
    (UTC tz
       (MakeDate (Finite (Day local))
          (MakeTime (Finite (HourFromTime local)) min
             (Finite (SecFromTime local)) (Finite (msFromTime local))))).

(** ** Completions, errors and the world *)

(** The repository calls made by the helpers, one name per Prisma
    delegate method. *)
Inductive PrismaOp :=
| AdminFindUnique
| AdminVerificationCreate
| AdminVerificationFindFirst
| AdminVerificationUpdate
| AdminVerificationDeleteMany
| GuestFindUnique
| GuestCreate
| GuestUpdate
| OrderFindFirst.

Definition PrismaOp_eqb (a b : PrismaOp) : bool :=
  match a, b with
  | AdminFindUnique, AdminFindUnique
  | AdminVerificationCreate, AdminVerificationCreate
  | AdminVerificationFindFirst, AdminVerificationFindFirst
  | AdminVerificationUpdate, AdminVerificationUpdate
  | AdminVerificationDeleteMany, AdminVerificationDeleteMany
  | GuestFindUnique, GuestFindUnique
  | GuestCreate, GuestCreate
  | GuestUpdate, GuestUpdate
  | OrderFindFirst, OrderFindFirst => true
  | _, _ => false
  end.

(** Values that can be thrown.  [TokenExpiredError] and [NotBeforeError]
    are subclasses of [JsonWebTokenError] in the jsonwebtoken package. *)
Inductive JsError :=
| PrismaClientError (op : PrismaOp)
| PrismaKnownRequestError (code : string)
| JsonWebTokenError (msg : string)
| TokenExpiredError (expiredAt : Z)
| NotBeforeError (date : Z)
| OtherError (msg : string).

Inductive Completion (A : Type) :=
| Normal (a : A)
| Throw (e : JsError).
Arguments Normal {A} a.
Arguments Throw {A} e.

(** [faults] lists the repository calls that reject (connection lost,
    timeout, ...); [now] is the clock in milliseconds; [entropy] is the
    tape of accepted samples of the secure random source and [drawn] the
    number of samples consumed; [console] collects what [console.error]
    printed, most recent first; [timeZone] is the time zone of the
    process. *)
Record World := mkWorld
  { db : Db;
    now : Z;
    faults : list PrismaOp;
    entropy : nat -> Z;
    drawn : nat;
    console : list string;
    timeZone : TimeZone }.

Definition setDb (w : World) (d : Db) : World :=
  mkWorld d (now w) (faults w) (entropy w) (drawn w) (console w) (timeZone w).

Definition advance (d : Z) (w : World) : World :=
  mkWorld (db w) (now w + d) (faults w) (entropy w) (drawn w) (console w) (timeZone w).

Definition Js (A : Type) : Type := World -> Completion A * World.

Definition ret {A} (a : A) : Js A := fun w => (Normal a, w).

Definition throw {A} (e : JsError) : Js A := fun w => (Throw e, w).

Definition bind {A B} (m : Js A) (k : A -> Js B) : Js B :=
  fun w =>
    match m w with
    | (Normal a, w') => k a w'
    | (Throw e, w') => (Throw e, w')
    end.

Definition tryCatch {A} (body : Js A) (handler : JsError -> Js A) : Js A :=
  fun w =>
    match body w with
    | (Normal a, w') => (Normal a, w')
    | (Throw e, w') => handler e w'
    end.

Notation "x <- m ;; k" := (bind m (fun x => k))
  (at level 61, m at next level, right associativity).
Notation "m ;;; k" := (bind m (fun _ => k))
  (at level 61, right associativity).

Definition newDate : Js Z := fun w => (Normal (now w), w).

Definition systemTimeZone : Js TimeZone := fun w => (Normal (timeZone w), w).

Definition console_error (line : string) : Js unit :=
  fun w => (Normal tt,
            mkWorld (db w) (now w) (faults w) (entropy w) (drawn w) (line :: console w)
              (timeZone w)).

Definition faulty (op : PrismaOp) (w : World) : bool :=
  existsb (PrismaOp_eqb op) (faults w).

(** A repository call: rejects when the fault plan says so, otherwise
    runs the query against the database. *)
Definition prisma {A} (op : PrismaOp) (query : Db -> Completion A * Db) : Js A :=
  fun w =>
    if faulty op w then (Throw (PrismaClientError op), w)
    else let '(r, d) := query (db w) in (r, setDb w d).

(** ** The Prisma queries used by the helpers *)

Module prisma_admin.
Definition findUnique_id (id : Z) : Js (option Admin.t) :=
  prisma AdminFindUnique
    (fun d => (Normal (find (fun a => Admin.id a =? id) (admins d)), d)).

Definition findUnique_email (email : string) : Js (option Admin.t) :=
  prisma AdminFindUnique
    (fun d => (Normal (find (fun a => String.eqb (Admin.email a) email) (admins d)), d)).
End prisma_admin.

Module prisma_adminVerification.
Import AdminVerification.

(** [where: { adminId, passcode, used: false, expiresAt: { gt } }] *)
Definition unusedUnexpired (aid : Z) (code : string) (gt : Z) (v : t) : bool :=
  (adminId v =? aid) && String.eqb (passcode v) code
  && negb (used v) && (gt <? expiresAt v).

(** [orderBy: { createdAt: "desc" }] followed by taking the first row:
    the row with the greatest [createdAt]; among rows created at the
    same instant the store's row order decides (earliest row here). *)
Definition newest (rows : list t) : option t :=
  fold_left
    (fun best v =>
       match best with
       | None => Some v
       | Some b => if createdAt b <? createdAt v then Some v else Some b
       end)
    rows None.

Definition findFirst (aid : Z) (code : string) (gt : Z) : Js (option t) :=
  prisma AdminVerificationFindFirst
    (fun d => (Normal (newest (filter (unusedUnexpired aid code gt) (adminVerifications d))), d)).

(** [create]: the foreign key to [admins] is enforced by the store. *)
Definition create (aid : Z) (code : string) (exp : Z) (u : bool) (createdNow : Z)
  : Js t :=
  prisma AdminVerificationCreate
    (fun d =>
       if existsb (fun a => Admin.id a =? aid) (admins d) then
         let v := mk (nextVerificationId d) aid code exp u createdNow in
         (Normal v, setVerifications d (adminVerifications d ++ [v]) (nextVerificationId d + 1))
       else (Throw (PrismaKnownRequestError "P2003"), d)).

(** [update({ where: { id }, data: { used } })]: rejects with P2025 when
    no row has that id. *)
Definition update_used (vid : Z) (u : bool) : Js unit :=
  prisma AdminVerificationUpdate
    (fun d =>
       if existsb (fun v => id v =? vid) (adminVerifications d) then
         (Normal tt,
          setVerifications d
            (map (fun v => if id v =? vid then setUsed v u else v) (adminVerifications d))
            (nextVerificationId d))
       else (Throw (PrismaKnownRequestError "P2025"), d)).

(** [where: { adminId, used: true, expiresAt: { lt } }] *)
Definition usedAndOlder (aid : Z) (lt : Z) (v : t) : bool :=
  (adminId v =? aid) && used v && (expiresAt v <? lt).

Definition deleteMany (aid : Z) (lt : Z) : Js unit :=
  prisma AdminVerificationDeleteMany
    (fun d =>
       (Normal tt,
        setVerifications d
          (filter (fun v => negb (usedAndOlder aid lt v)) (adminVerifications d))
          (nextVerificationId d))).
End prisma_adminVerification.

Module prisma_guest.
Definition findUnique_email (email : string) : Js (option Guest.t) :=
  prisma GuestFindUnique
    (fun d => (Normal (find (fun g => String.eqb (Guest.email g) email) (guests d)), d)).

Definition findUnique_id (id : Z) : Js (option Guest.t) :=
  prisma GuestFindUnique
    (fun d => (Normal (find (fun g => Guest.id g =? id) (guests d)), d)).

(** [create]: [email] carries a unique index. *)
Definition create (email name : string) : Js Guest.t :=
  prisma GuestCreate
    (fun d =>
       if existsb (fun g => String.eqb (Guest.email g) email) (guests d) then
         (Throw (PrismaKnownRequestError "P2002"), d)
       else
         let g := Guest.mk (nextGuestId d) name email in
         (Normal g, setGuests d (guests d ++ [g]) (nextGuestId d + 1))).

(** [update({ where: { id }, data: { name } })] returns the updated row. *)
Definition update_name (gid : Z) (name : string) : Js Guest.t :=
  prisma GuestUpdate
    (fun d =>
       match find (fun g => Guest.id g =? gid) (guests d) with
       | Some g =>
           (Normal (Guest.setName g name),
            setGuests d
              (map (fun g => if Guest.id g =? gid then Guest.setName g name else g) (guests d))
              (nextGuestId d))
       | None => (Throw (PrismaKnownRequestError "P2025"), d)
       end).
End prisma_guest.

Module prisma_order.
Definition findFirst (gid hid : Z) : Js (option Order.t) :=
  prisma OrderFindFirst
    (fun d =>
       (Normal (find (fun o => (Order.guestId o =? gid) && (Order.hotelId o =? hid)) (orders d)), d)).
End prisma_order.

(** ** auth.helper.ts: MFA passcode management *)

(** [crypto.randomInt(min, max)] draws 48-bit samples from the secure
    source, discards those that would bias the result and returns
    [(x % (max - min)) + min] for the sample [x] it accepts: an integer
    [n] with [min <= n < max].  The world's entropy tape supplies the
    accepted samples. *)
Definition randomInt_of (min max x : Z) : Z := x mod (max - min) + min.

Definition crypto_randomInt (min max : Z) : Js Z :=
  fun w =>
    (Normal (randomInt_of min max (entropy w (drawn w))),
     mkWorld (db w) (now w) (faults w) (entropy w) (S (drawn w)) (console w)
       (timeZone w)).

Definition generatePasscode : Js string :=
  n <- crypto_randomInt 100000 999999 ;;
  ret (Number_toString n).

Module MFAVerificationResult.
Record t := mk
  { success : bool; passcode : option string; expiresAt : option Z; message : string }.
End MFAVerificationResult.

(** [adminVerification.create] as called by the helper.  The client
    rejects an Invalid Date before it queries the store; [createdAt] is
    left to the column default, the store's current time. *)
Definition createVerificationRow (adminId : Z) (passcode : string) (expiresAt : option Z)
  : Js AdminVerification.t :=
  match expiresAt with
  | None => throw (OtherError "PrismaClientValidationError")
  | Some expiresAt =>
      createdAt <- newDate ;;
      prisma_adminVerification.create adminId passcode expiresAt false createdAt
  end.

(** [expiresAt.setMinutes(expiresAt.getMinutes() + expirationMinutes)]
    on [new Date()], for the date held in [expiresAt] whose time value
    is [t].  [expirationMinutes] is an integral Number. *)
Definition expiryDate (tz : TimeZone) (t expirationMinutes : Z) : option Z :=
  Date_setMinutes tz t
    (Number_add (Finite (Date_getMinutes tz t)) (Finite expirationMinutes)).

(** The callers of the repository leave [expirationMinutes] to its
    default, 10. *)
Definition createAdminVerification (adminId : Z) (expirationMinutes : Z)
  : Js MFAVerificationResult.t :=
  tryCatch
    (admin <- prisma_admin.findUnique_id adminId ;;
     match admin with
     | None => ret (MFAVerificationResult.mk false None None "Admin not found")
     | Some _ =>
         passcode <- generatePasscode ;;
         t <- newDate ;;
         tz <- systemTimeZone ;;
         let expiresAt := expiryDate tz t expirationMinutes in
         verification <- createVerificationRow adminId passcode expiresAt ;;
         ret (MFAVerificationResult.mk true (Some passcode)
                (Some (AdminVerification.expiresAt verification))
                "MFA passcode generated successfully")
     end)
    (fun error =>
       console_error "Error creating admin verification:" ;;;
       ret (MFAVerificationResult.mk false None None "Failed to create verification code")).

Module VerifyPasscodeResult.
Record t := mk
  { success : bool; adminId : option Z; hotelId : option Z; message : string }.
End VerifyPasscodeResult.

Definition verifyAdminPasscode (email passcode : string)
  : Js VerifyPasscodeResult.t :=
  tryCatch
    (admin <- prisma_admin.findUnique_email email ;;
     match admin with
     | None => ret (VerifyPasscodeResult.mk false None None "Admin not found")
     | Some admin =>
         t <- newDate ;;
         verification <- prisma_adminVerification.findFirst (Admin.id admin) passcode t ;;
         match verification with
         | None =>
             ret (VerifyPasscodeResult.mk false None None "Invalid or expired passcode")
         | Some verification =>
             prisma_adminVerification.update_used (AdminVerification.id verification) true ;;;
             t' <- newDate ;;
             prisma_adminVerification.deleteMany (Admin.id admin) (t' - 24 * 60 * 60 * 1000) ;;;
             ret (VerifyPasscodeResult.mk true (Some (Admin.id admin))
                    (Some (Admin.hotelId admin)) "Passcode verified successfully")
         end
     end)
    (fun error =>
       console_error "Error verifying admin passcode:" ;;;
       ret (VerifyPasscodeResult.mk false None None "Failed to verify passcode")).

(** ** auth.helper.ts: guests, lookups and hotel access *)

Module GuestResult.
Record t := mk { success : bool; guestId : option Z; message : string }.
End GuestResult.

Definition findOrCreateGuest (email name : string) : Js GuestResult.t :=
  tryCatch
    (guest <- prisma_guest.findUnique_email email ;;
     match guest with
     | None =>
         guest <- prisma_guest.create email name ;;
         ret (GuestResult.mk true (Some (Guest.id guest)) "Guest created successfully")
     | Some guest =>
         guest <- (if truthyString name && negb (String.eqb (Guest.name guest) name)
                   then prisma_guest.update_name (Guest.id guest) name
                   else ret guest) ;;
         ret (GuestResult.mk true (Some (Guest.id guest)) "Guest found")
     end)
    (fun error =>
       console_error "Error finding/creating guest:" ;;;
       ret (GuestResult.mk false None "Failed to find or create guest")).

Definition getAdminById (adminId : Z) : Js (option Admin.t) :=
  tryCatch
    (prisma_admin.findUnique_id adminId)
    (fun error => console_error "Error getting admin by ID:" ;;; ret None).

Definition getGuestById (guestId : Z) : Js (option Guest.t) :=
  tryCatch
    (prisma_guest.findUnique_id guestId)
    (fun error => console_error "Error getting guest by ID:" ;;; ret None).

(** [admin?.hotelId === hotelId]: [undefined] is not a number, so a
    missing admin compares unequal. *)
Definition verifyAdminHotelAccess (adminId hotelId : Z) : Js bool :=
  tryCatch
    (admin <- prisma_admin.findUnique_id adminId ;;
     ret (match admin with
          | Some a => Admin.hotelId a =? hotelId
          | None => false
          end))
    (fun error => console_error "Error verifying admin hotel access:" ;;; ret false).

Definition verifyGuestHotelAccess (guestId hotelId : Z) : Js bool :=
  tryCatch
    (order <- prisma_order.findFirst guestId hotelId ;;
     ret (match order with Some _ => true | None => false end))
    (fun error => console_error "Error verifying guest hotel access:" ;;; ret false).

(** ** jwt.helper.ts

    The token claims.  [jwt.verify] returns whatever object the token
    carries and the helper casts it to [AuthPayload] unchecked, so a
    decoded payload may carry a [type] that is neither "admin" nor
    "guest". *)
Inductive AuthPayload :=
| AdminAuthPayload (adminId hotelId : Z) (email : string)
| GuestAuthPayload (guestId : Z) (email : string)
| UntypedPayload (type : string).

Record SignOptions := mkSignOptions
  { expiresIn : string; issuer : string; subject : string }.

(** The three entry points of the jsonwebtoken package the helper calls.
    Each either returns or throws; [verify] and [sign] read the clock. *)
Record Jsonwebtoken := mkJsonwebtoken
  { jwt_sign : AuthPayload -> string -> SignOptions -> Z -> Completion string;
    jwt_verify : string -> string -> string -> Z -> Completion AuthPayload;
    jwt_decode : string -> Completion (option AuthPayload) }.

Record ProcessEnv := mkProcessEnv
  { env_JWT_SECRET : option string; env_JWT_EXPIRES_IN : option string }.

(** [process.env.NAME || fallback] *)
Definition envOr (v : option string) (fallback : string) : string :=
  match v with
  | Some s => if truthyString s then s else fallback
  | None => fallback
  end.

(** [error instanceof jwt.JsonWebTokenError] and its two subclasses. *)
Definition instanceof_JsonWebTokenError (e : JsError) : bool :=
  match e with
  | JsonWebTokenError _ | TokenExpiredError _ | NotBeforeError _ => true
  | _ => false
  end.

Definition instanceof_TokenExpiredError (e : JsError) : bool :=
  match e with TokenExpiredError _ => true | _ => false end.

Definition instanceof_NotBeforeError (e : JsError) : bool :=
  match e with NotBeforeError _ => true | _ => false end.

(** [authHeader.startsWith("Bearer ")] then [authHeader.substring(7)] *)
Definition extractTokenFromHeader (authHeader : option string) : option string :=
  match authHeader with
  | None => None
  | Some h =>
      if negb (truthyString h) then None
      else if String.prefix "Bearer " h
           then Some (String.substring 7 (String.length h - 7) h)
           else Some h
  end.

(** ** The jsonwebtoken package

    The package is a dependency of the repository, not part of it.
    [Hs256Contract] states what [jwt.helper.ts] relies on when it signs
    with a secret (HS256) and verifies with [{ issuer }]; [hs256] below
    is a model of the package that meets the contract. *)

(** One character of a string replaced by another. *)
Inductive oneCharChanged : string -> string -> Prop :=
| changed_here (c c' : ascii) (rest : string) :
    c <> c' -> oneCharChanged (String c rest) (String c' rest)
| changed_later (c : ascii) (s s' : string) :
    oneCharChanged s s' -> oneCharChanged (String c s) (String c s').

(** The [exp] claim, in seconds, of a token signed at the instant [t]
    with a time span of [span] milliseconds:
    [Math.floor(Math.floor(t / 1000) + span / 1000)]. *)
Definition expiryOf (t span : Z) : Z := t / 1000 + span / 1000.

(** [ms] is the package's reading of a time span such as "7d", in
    milliseconds.  [sign] returns a token for a non-empty secret and a
    readable time span; [verify] returns the payload of a token signed
    with the same secret for the same issuer, as long as the clock has
    not reached the second of its expiry; and [verify] throws on a
    token that differs in one character from a signed one (the
    integrity the signature is there for). *)
Record Hs256Contract (jwt : Jsonwebtoken) (ms : string -> option Z) : Prop :=
  { sign_returns :
      forall payload secret options t,
        truthyString secret = true ->
        ms (expiresIn options) <> None ->
        exists token, jwt_sign jwt payload secret options t = Normal token;
    verify_signed :
      forall payload secret options t token span t',
        jwt_sign jwt payload secret options t = Normal token ->
        ms (expiresIn options) = Some span ->
        t' / 1000 < expiryOf t span ->
        jwt_verify jwt token secret (issuer options) t' = Normal payload;
    verify_changed :
      forall payload secret options t token token' issuer' t',
        jwt_sign jwt payload secret options t = Normal token ->
        oneCharChanged token token' ->
        exists e, jwt_verify jwt token' secret issuer' t' = Throw e }.

(** *** A model of the package

    A token is [header.claims.signature]: three segments without a dot.
    The claims segment stands for the base64url text of the JSON
    claims and the signature for the base64url text of the MAC; here a
    segment is written with the characters 0 and 1, [_] between the
    fields of the claims and a letter for the kind of payload. *)

Fixpoint split (sep : ascii) (s : string) : list string :=
  match s with
  | EmptyString => [EmptyString]
  | String c rest =>
      if Ascii.eqb c sep then EmptyString :: split sep rest
      else match split sep rest with
           | first :: others => String c first :: others
           | [] => [String c EmptyString]
           end
  end.

Fixpoint join (sep : ascii) (parts : list string) : string :=
  match parts with
  | [] => EmptyString
  | [part] => part
  | part :: rest => String.append part (String sep (join sep rest))
  end.

Definition bitChar (b : bool) : ascii := if b then "1"%char else "0"%char.

Definition charBit (c : ascii) : option bool :=
  if Ascii.eqb c "0" then Some false
  else if Ascii.eqb c "1" then Some true
  else None.

(** The bytes of a string, bit by bit. *)
Fixpoint armor (s : string) : string :=
  match s with
  | EmptyString => EmptyString
  | String (Ascii b0 b1 b2 b3 b4 b5 b6 b7) rest =>
      String (bitChar b0) (String (bitChar b1) (String (bitChar b2) (String (bitChar b3)
        (String (bitChar b4) (String (bitChar b5) (String (bitChar b6) (String (bitChar b7)
          (armor rest))))))))
  end.

Fixpoint unarmor (s : string) : option string :=
  match s with
  | EmptyString => Some EmptyString
  | String c0 (String c1 (String c2 (String c3 (String c4 (String c5 (String c6
      (String c7 rest))))))) =>
      match charBit c0, charBit c1, charBit c2, charBit c3,
            charBit c4, charBit c5, charBit c6, charBit c7, unarmor rest with
      | Some b0, Some b1, Some b2, Some b3, Some b4, Some b5, Some b6, Some b7, Some r =>
          Some (String (Ascii b0 b1 b2 b3 b4 b5 b6 b7) r)
      | _, _, _, _, _, _, _, _, _ => None
      end
  | _ => None
  end.

(** A positive number, lowest bit first; an integer with its sign. *)
Fixpoint bitsOf (p : positive) : string :=
  match p with
  | xH => "1"
  | xO q => String "0" (bitsOf q)
  | xI q => String "1" (bitsOf q)
  end.

Fixpoint ofBits (s : string) : option positive :=
  match s with
  | String c EmptyString => if Ascii.eqb c "1" then Some xH else None
  | String c rest =>
      match charBit c, ofBits rest with
      | Some false, Some q => Some (xO q)
      | Some true, Some q => Some (xI q)
      | _, _ => None
      end
  | EmptyString => None
  end.

Definition encodeZ (z : Z) : string :=
  match z with
  | Z0 => EmptyString
  | Zpos p => String "0" (bitsOf p)
  | Zneg p => String "1" (bitsOf p)
  end.

Definition decodeZ (s : string) : option Z :=
  match s with
  | EmptyString => Some 0
  | String c rest =>
      match charBit c, ofBits rest with
      | Some false, Some p => Some (Zpos p)
      | Some true, Some p => Some (Zneg p)
      | _, _ => None
      end
  end.

(** The claims of a token: the payload, [exp] and [iss].  ([iat] and
    [sub], which verification does not read, are left out.) *)
Definition encodeClaims (payload : AuthPayload) (exp : Z) (iss : string) : string :=
  join "_"
    (match payload with
     | AdminAuthPayload adminId hotelId email =>
         ["a"; encodeZ adminId; encodeZ hotelId; armor email]
     | GuestAuthPayload guestId email => ["g"; encodeZ guestId; armor email]
     | UntypedPayload type => ["u"; armor type]
     end ++ [encodeZ exp; armor iss]).

Definition decodeClaims (s : string) : option (AuthPayload * Z * string) :=
  match split "_" s with
  | [kind; adminId; hotelId; email; exp; iss] =>
      match decodeZ adminId, decodeZ hotelId, unarmor email, decodeZ exp, unarmor iss with
      | Some a, Some h, Some e, Some x, Some i =>
          if String.eqb kind "a" then Some (AdminAuthPayload a h e, x, i) else None
      | _, _, _, _, _ => None
      end
  | [kind; guestId; email; exp; iss] =>
      match decodeZ guestId, unarmor email, decodeZ exp, unarmor iss with
      | Some g, Some e, Some x, Some i =>
          if String.eqb kind "g" then Some (GuestAuthPayload g e, x, i) else None
      | _, _, _, _ => None
      end
  | [kind; type; exp; iss] =>
      match unarmor type, decodeZ exp, unarmor iss with
      | Some t, Some x, Some i =>
          if String.eqb kind "u" then Some (UntypedPayload t, x, i) else None
      | _, _, _ => None
      end
  | _ => None
  end.

Section Hs256.

(** [mac key message] is the message authentication code, HMAC-SHA256
    in the package; [ms] reads a time span. *)
Variable mac : string -> string -> string.
Variable ms : string -> option Z.

(** The first segment: the base64url text of the header for HS256. *)
Definition hs256_header : string := "eyJhbGciOiJIUzI1NiIsInR5cCI6IkpXVCJ9".

Definition signedPart (header claims : string) : string :=
  String.append header (String "." claims).

Definition hs256_sign (payload : AuthPayload) (secret : string) (options : SignOptions)
  (t : Z) : Completion string :=
  if negb (truthyString secret)
  then Throw (OtherError "secretOrPrivateKey must have a value")
  else
    match ms (expiresIn options) with
    | None => Throw (OtherError "expiresIn should be a time span")
    | Some span =>
        let claims := encodeClaims payload (expiryOf t span) (issuer options) in
        Normal (String.append (signedPart hs256_header claims)
                  (String "." (armor (mac secret (signedPart hs256_header claims)))))
    end.

Definition hs256_verify (token secret issuer : string) (t : Z) : Completion AuthPayload :=
  match split "." token with
  | [header; claims; signature] =>
      if negb (String.eqb header hs256_header)
      then Throw (JsonWebTokenError "invalid algorithm")
      else
        match decodeClaims claims with
        | None => Throw (JsonWebTokenError "invalid token")
        | Some (payload, exp, iss) =>
            if negb (String.eqb signature (armor (mac secret (signedPart header claims))))
            then Throw (JsonWebTokenError "invalid signature")
            else if exp <=? t / 1000 then Throw (TokenExpiredError (exp * 1000))
            else if negb (String.eqb iss issuer)
                 then Throw (JsonWebTokenError "jwt issuer invalid")
                 else Normal payload
        end
  | _ => Throw (JsonWebTokenError "jwt malformed")
  end.

Definition hs256_decode (token : string) : Completion (option AuthPayload) :=
  match split "." token with
  | [header; claims; signature] =>
      match decodeClaims claims with
      | Some (payload, _, _) => Normal (Some payload)
      | None => Normal None
      end
  | _ => Normal None
  end.

Definition hs256 : Jsonwebtoken := mkJsonwebtoken hs256_sign hs256_verify hs256_decode.

End Hs256.

(** ** auth.middleware.ts: the request and what a middleware does with it *)

Module AdminPrincipal.
Record t := mk
  { adminId : Z; hotelId : Z; email : string; id : Z; name : string; phone : string }.
End AdminPrincipal.

Module GuestPrincipal.
Record t := mk { guestId : Z; email : string; id : Z; name : string }.
End GuestPrincipal.

(** The parts of an Express request the middleware reads or writes.
    [body_hotelId] is what reading [req.body.hotelId] gives: [None] when
    [req.body] is [undefined] or [null] (no body parser filled it in),
    where reading a property throws a TypeError; otherwise the value of
    the property, [JsUndefined] when the body has none. *)
Module Request.
Record t := mk
  { authorization : option string;
    params_hotelId : JsValue;
    body_hotelId : option JsValue;
    query_hotelId : JsValue;
    admin : option AdminPrincipal.t;
    guest : option GuestPrincipal.t;
    hotelId : option Number }.
Definition setAdmin (r : t) (a : AdminPrincipal.t) (h : Z) : t :=
  mk (authorization r) (params_hotelId r) (body_hotelId r) (query_hotelId r)
     (Some a) (guest r) (Some (Finite h)).
Definition setGuest (r : t) (g : GuestPrincipal.t) : t :=
  mk (authorization r) (params_hotelId r) (body_hotelId r) (query_hotelId r)
     (admin r) (Some g) (hotelId r).
Definition setHotelId (r : t) (h : Number) : t :=
  mk (authorization r) (params_hotelId r) (body_hotelId r) (query_hotelId r)
     (admin r) (guest r) (Some h).
End Request.

(** How a middleware ends: it calls [next()], or it answers with
    [res.status(code).json({ error })] and returns. *)
Inductive Outcome :=
| Next
| Responded (status : Z) (error : string).

Section TokenService.

Variable jwt : Jsonwebtoken.
Variable env : ProcessEnv.

Definition JWT_SECRET : string :=
  envOr (env_JWT_SECRET env) "your-secret-key-change-in-production".

Definition JWT_EXPIRES_IN : string := envOr (env_JWT_EXPIRES_IN env) "7d".

Definition generateAdminToken (adminId hotelId : Z) (email : string)
  : Js string :=
  fun w =>
    (jwt_sign jwt (AdminAuthPayload adminId hotelId email) JWT_SECRET
       (mkSignOptions JWT_EXPIRES_IN "zapmenu"
          (String.append "admin:" (Number_toString adminId)))
       (now w), w).

Definition generateGuestToken (guestId : Z) (email : string) : Js string :=
  fun w =>
    (jwt_sign jwt (GuestAuthPayload guestId email) JWT_SECRET
       (mkSignOptions JWT_EXPIRES_IN "zapmenu"
          (String.append "guest:" (Number_toString guestId)))
       (now w), w).

Definition verifyToken (token : string) : Js (option AuthPayload) :=
  tryCatch
    (decoded <- (fun w => (jwt_verify jwt token JWT_SECRET "zapmenu" (now w), w)) ;;
     ret (Some decoded))
    (fun error =>
       (if instanceof_JsonWebTokenError error
        then console_error "JWT verification error:"
        else if instanceof_TokenExpiredError error
             then console_error "JWT token expired:"
             else if instanceof_NotBeforeError error
                  then console_error "JWT token not active:"
                  else ret tt) ;;;
       ret None).

Definition decodeToken (token : string) : Js (option AuthPayload) :=
  tryCatch
    (fun w => (jwt_decode jwt token, w))
    (fun error => console_error "JWT decode error:" ;;; ret None).

Definition authenticateAdmin (req : Request.t) : Js (Request.t * Outcome) :=
  tryCatch
    (match extractTokenFromHeader (Request.authorization req) with
     | None => ret (req, Responded 401 "Authentication required")
     | Some token =>
         if negb (truthyString token)
         then ret (req, Responded 401 "Authentication required")
         else
           payload <- verifyToken token ;;
           match payload with
           | Some (AdminAuthPayload adminId hotelId email) =>
               admin <- getAdminById adminId ;;
               match admin with
               | None => ret (req, Responded 401 "Admin not found")
               | Some admin =>
                   ret (Request.setAdmin req
                          (AdminPrincipal.mk adminId hotelId email (Admin.id admin)
                             (Admin.name admin) (Admin.phone admin))
                          hotelId,
                        Next)
               end
           | _ => ret (req, Responded 401 "Invalid token or not an admin token")
           end
     end)
    (fun error =>
       console_error "Admin authentication error:" ;;;
       ret (req, Responded 500 "Authentication failed")).

Definition authenticateGuest (req : Request.t) : Js (Request.t * Outcome) :=
  tryCatch
    (match extractTokenFromHeader (Request.authorization req) with
     | None => ret (req, Responded 401 "Authentication required")
     | Some token =>
         if negb (truthyString token)
         then ret (req, Responded 401 "Authentication required")
         else
           payload <- verifyToken token ;;
           match payload with
           | Some (GuestAuthPayload guestId email) =>
               guest <- getGuestById guestId ;;
               match guest with
               | None => ret (req, Responded 401 "Guest not found")
               | Some guest =>
                   ret (Request.setGuest req
                          (GuestPrincipal.mk guestId email (Guest.id guest)
                             (Guest.name guest)),
                        Next)
               end
           | _ => ret (req, Responded 401 "Invalid token or not a guest token")
           end
     end)
    (fun error =>
       console_error "Guest authentication error:" ;;;
       ret (req, Responded 500 "Authentication failed")).

End TokenService.

(** ** auth.middleware.ts: hotel scoping *)

(** [parseInt(v, 10)] converts [v] to a string first. *)
Definition parseIntOf (v : JsValue) : Completion Number :=
  match ToString v with
  | Some s => Normal (parseInt s)
  | None => Throw (OtherError "TypeError")
  end.

Definition someNumber (c : Completion Number) : Completion (option Number) :=
  match c with
  | Normal n => Normal (Some n)
  | Throw e => Throw e
  end.

(** [req.params.hotelId ? parseInt(req.params.hotelId, 10)
     : req.body.hotelId ? parseInt(req.body.hotelId, 10)
     : req.query.hotelId ? parseInt(req.query.hotelId, 10) : null].
    [None] is [null]. *)
Definition requestedHotelId (req : Request.t) : Completion (option Number) :=
  if truthy (Request.params_hotelId req)
  then someNumber (parseIntOf (Request.params_hotelId req))
  else
    match Request.body_hotelId req with
    | None => Throw (OtherError "TypeError")
    | Some inBody =>
        if truthy inBody
        then someNumber (parseIntOf inBody)
        else if truthy (Request.query_hotelId req)
             then someNumber (parseIntOf (Request.query_hotelId req))
             else Normal None
    end.

(** A synchronous expression inside an [async] function. *)
Definition complete {A} (c : Completion A) : Js A := fun w => (c, w).

(** Truthiness of a number-or-null: [null], [NaN] and [0] are falsy. *)
Definition truthyHotelId (h : option Number) : option Number :=
  match h with
  | Some n => if truthyNumber n then Some n else None
  | None => None
  end.

(** [hotelId || fallback] *)
Definition orElse (h : option Number) (fallback : Z) : Number :=
  match truthyHotelId h with
  | Some n => n
  | None => Finite fallback
  end.

(** The access predicates as the middleware calls them, with the Number
    it resolved.  [parseInt] yields an integer or, for a numeral past
    the range of Numbers, an infinity; an infinity is strictly equal to
    no stored id, and the client rejects it as a filter value. *)
Definition adminHotelAccess (adminId : Z) (hotelId : Number) : Js bool :=
  match hotelId with
  | Finite h => verifyAdminHotelAccess adminId h
  | _ =>
      tryCatch
        (admin <- prisma_admin.findUnique_id adminId ;; ret false)
        (fun error => console_error "Error verifying admin hotel access:" ;;; ret false)
  end.

Definition guestHotelAccess (guestId : Z) (hotelId : Number) : Js bool :=
  match hotelId with
  | Finite h => verifyGuestHotelAccess guestId h
  | _ =>
      tryCatch
        (throw (OtherError "PrismaClientValidationError"))
        (fun error => console_error "Error verifying guest hotel access:" ;;; ret false)
  end.

Definition authorizeAdminHotel (req : Request.t) : Js (Request.t * Outcome) :=
  tryCatch
    (match Request.admin req with
     | None => ret (req, Responded 401 "Authentication required")
     | Some admin =>
         hotelId <- complete (requestedHotelId req) ;;
         let targetHotelId := orElse hotelId (AdminPrincipal.hotelId admin) in
         hasAccess <- adminHotelAccess (AdminPrincipal.adminId admin) targetHotelId ;;
         if negb hasAccess
         then ret (req, Responded 403 "Access denied to this hotel")
         else ret (Request.setHotelId req targetHotelId, Next)
     end)
    (fun error =>
       console_error "Hotel authorization error:" ;;;
       ret (req, Responded 500 "Authorization failed")).

Definition authorizeGuestHotel (req : Request.t) : Js (Request.t * Outcome) :=
  tryCatch
    (match Request.guest req with
     | None => ret (req, Responded 401 "Authentication required")
     | Some guest =>
         hotelId <- complete (requestedHotelId req) ;;
         match truthyHotelId hotelId with
         | None => ret (req, Responded 400 "Hotel ID required")
         | Some hotelId =>
             hasAccess <- guestHotelAccess (GuestPrincipal.guestId guest) hotelId ;;
             if negb hasAccess
             then ret (req, Responded 403 "Access denied to this hotel")
             else ret (Request.setHotelId req hotelId, Next)
         end
     end)
    (fun error =>
       console_error "Guest hotel authorization error:" ;;;
       ret (req, Responded 500 "Authorization failed")).

(** ** verifyAdminPasscode as a task resumed at its awaits

    An [async] function runs synchronously up to an [await], hands the
    awaited repository call to the store and is resumed with its
    outcome; other requests run in between.  [VerifyTask] is the state
    of one call of [verifyAdminPasscode] between two resumptions: the
    call it is waiting for and the locals still live. *)

Inductive VerifyTask :=
| AwaitFindAdmin (email passcode : string)
| AwaitFindVerification (admin : Admin.t) (passcode : string) (gt : Z)
| AwaitMarkUsed (admin : Admin.t) (verification : AdminVerification.t)
| AwaitCleanup (admin : Admin.t) (lt : Z)
| Settled (result : VerifyPasscodeResult.t).

(** The [catch] block of [verifyAdminPasscode]. *)
Definition verifyCaught (w : World) : VerifyTask * World :=
  (Settled (VerifyPasscodeResult.mk false None None "Failed to verify passcode"),
   snd (console_error "Error verifying admin passcode:" w)).

(** One resumption: the store performs the awaited call, then the
    function runs to its next [await] or to its [return]. *)
Definition resume (t : VerifyTask) (w : World) : VerifyTask * World :=
  match t with
  | AwaitFindAdmin email passcode =>
      match prisma_admin.findUnique_email email w with
      | (Normal None, w') =>
          (Settled (VerifyPasscodeResult.mk false None None "Admin not found"), w')
      | (Normal (Some admin), w') => (AwaitFindVerification admin passcode (now w'), w')
      | (Throw _, w') => verifyCaught w'
      end
  | AwaitFindVerification admin passcode gt =>
      match prisma_adminVerification.findFirst (Admin.id admin) passcode gt w with
      | (Normal None, w') =>
          (Settled (VerifyPasscodeResult.mk false None None "Invalid or expired passcode"), w')
      | (Normal (Some verification), w') => (AwaitMarkUsed admin verification, w')
      | (Throw _, w') => verifyCaught w'
      end
  | AwaitMarkUsed admin verification =>
      match prisma_adminVerification.update_used (AdminVerification.id verification) true w with
      | (Normal _, w') => (AwaitCleanup admin (now w' - 24 * 60 * 60 * 1000), w')
      | (Throw _, w') => verifyCaught w'
      end
  | AwaitCleanup admin lt =>
      match prisma_adminVerification.deleteMany (Admin.id admin) lt w with
      | (Normal _, w') =>
          (Settled (VerifyPasscodeResult.mk true (Some (Admin.id admin))
                      (Some (Admin.hotelId admin)) "Passcode verified successfully"), w')
      | (Throw _, w') => verifyCaught w'
      end
  | Settled r => (Settled r, w)
  end.

Fixpoint resumeN (n : nat) (t : VerifyTask) (w : World) : VerifyTask * World :=
  match n with
  | O => (t, w)
  | S n => let '(t', w') := resume t w in resumeN n t' w'
  end.

(** Two requests in flight.  The schedule says which of the two is
    resumed next. *)
Inductive Racer := RequestA | RequestB.

Fixpoint race (schedule : list Racer) (a b : VerifyTask) (w : World)
  : VerifyTask * VerifyTask * World :=
  match schedule with
  | [] => (a, b, w)
  | RequestA :: rest => let '(a', w') := resume a w in race rest a' b w'
  | RequestB :: rest => let '(b', w') := resume b w in race rest a b' w'
  end.

(** ** Vocabulary of the statements *)

(** The rows left once row [vid] is marked used and the used rows of
    [aid] that expired before [lt] are deleted. *)
Definition afterMarkAndCleanup (vid aid lt : Z) (rows : list AdminVerification.t)
  : list AdminVerification.t :=
  filter (fun v => negb (prisma_adminVerification.usedAndOlder aid lt v))
    (map (fun v => if AdminVerification.id v =? vid
                   then AdminVerification.setUsed v true else v) rows).

(** The world after the store has performed
    [update({ where: { id: vid }, data: { used: true } })]. *)
Definition markUsedWorld (vid : Z) (w : World) : World :=
  setDb w (setVerifications (db w)
             (map (fun v => if AdminVerification.id v =? vid
                            then AdminVerification.setUsed v true else v)
                (adminVerifications (db w)))
             (nextVerificationId (db w))).

(** The schedule in which both requests read before either writes. *)
Definition bothReadFirst : list Racer :=
  [RequestA; RequestB; RequestA; RequestB; RequestA; RequestB; RequestA; RequestB].

(** The guest stored under an email. *)
Definition guestByEmail (email : string) (d : Db) : option Guest.t :=
  find (fun g => String.eqb (Guest.email g) email) (guests d).

(** A guest logging in again and again under one email. *)
Fixpoint loginAll (email : string) (names : list string) (w : World)
  : list (Completion GuestResult.t) * World :=
  match names with
  | [] => ([], w)
  | name :: rest =>
      let '(r, w') := findOrCreateGuest email name w in
      let '(rs, w'') := loginAll email rest w' in
      (r :: rs, w'')
  end.

(** The fault plan is a parameter of a run: no computation changes it. *)
Definition keepsFaults {A} (m : Js A) : Prop :=
  forall w, faults (snd (m w)) = faults w.

(** ** Sample worlds, a stand-in token library and sample requests *)

Definition sampleDb : Db :=
  mkDb [Admin.mk 1 "Ann" "a@hotel.com" "555" 7]
       [Guest.mk 1 "Alice" "g@x.com"]
       [AdminVerification.mk 1 1 "123456" 600000 false 0]
       [Order.mk 1 1 7]
       2 2.

(** A zone without clock changes, and one whose clocks go back an hour
    at the instant 7200000, from two hours ahead of UTC to one. *)
Definition utc : TimeZone := mkTimeZone (fun _ => 0) (fun _ => 0).

Definition clocksGoBack : TimeZone :=
  mkTimeZone
    (fun t => if t <? 7200000 then 7200000 else 3600000)
    (fun l => if l <? 14400000 then 7200000 else 3600000).

Definition sampleWorld : World :=
  mkWorld sampleDb 1000 [] (fun _ => 23456) 0 [] utc.

Definition cleanupFailsWorld : World :=
  mkWorld sampleDb 1000 [AdminVerificationDeleteMany] (fun _ => 23456) 0 [] utc.

Definition sampleVerify (token secret issuer : string) (t : Z) : Completion AuthPayload :=
  if String.eqb token "admin-1" then Normal (AdminAuthPayload 1 7 "a@hotel.com")
  else if String.eqb token "admin-99" then Normal (AdminAuthPayload 99 7 "gone@hotel.com")
  else if String.eqb token "guest-1" then Normal (GuestAuthPayload 1 "g@x.com")
  else if String.eqb token "guest-99" then Normal (GuestAuthPayload 99 "gone@x.com")
  else if String.eqb token "stale" then Throw (TokenExpiredError 0)
  else Throw (JsonWebTokenError "jwt malformed").

Definition sampleJwt : Jsonwebtoken :=
  mkJsonwebtoken
    (fun payload secret options t =>
       match payload with
       | AdminAuthPayload a _ _ => Normal (String.append "admin-" (Number_toString a))
       | GuestAuthPayload g _ => Normal (String.append "guest-" (Number_toString g))
       | UntypedPayload _ => Throw (OtherError "payload")
       end)
    sampleVerify
    (fun token =>
       match sampleVerify token "" "" 0 with
       | Normal p => Normal (Some p)
       | Throw _ => Normal None
       end).

Definition sampleEnv : ProcessEnv := mkProcessEnv None None.

(** A message authentication code without collisions (and of no use
    as one: it shows its key), and the reading of the default time
    span. *)
Definition sampleMac (key message : string) : string := String.append key message.

Definition sampleMs (span : string) : option Z :=
  if String.eqb span "7d" then Some 604800000 else None.

Definition bearer (token : string) : Request.t :=
  Request.mk (Some (String.append "Bearer " token))
    JsUndefined (Some JsUndefined) JsUndefined None None None.

Definition asAdmin (params body query : JsValue) : Request.t :=
  Request.mk None params (Some body) query
    (Some (AdminPrincipal.mk 1 7 "a@hotel.com" 1 "Ann" "555")) None (Some (Finite 7)).

Definition asGuest (params body query : JsValue) : Request.t :=
  Request.mk None params (Some body) query
    None (Some (GuestPrincipal.mk 1 "g@x.com" 1 "Alice")) None.

(** The same request when no body parser has run. *)
Definition withoutBody (req : Request.t) : Request.t :=
  Request.mk (Request.authorization req) (Request.params_hotelId req) None
    (Request.query_hotelId req) (Request.admin req) (Request.guest req)
    (Request.hotelId req).

(** ** auth.helper.ts: validateAdminEmail

    Its result has the shape of [VerifyPasscodeResult]. *)

Definition validateAdminEmail (email : string) : Js VerifyPasscodeResult.t :=
  tryCatch
    (admin <- prisma_admin.findUnique_email email ;;
     match admin with
     | None =>
         ret (VerifyPasscodeResult.mk false None None "Admin not found with this email")
     | Some admin =>
         ret (VerifyPasscodeResult.mk true (Some (Admin.id admin))
                (Some (Admin.hotelId admin)) "Admin email validated")
     end)
    (fun error =>
       console_error "Error validating admin email:" ;;;
       ret (VerifyPasscodeResult.mk false None None "Failed to validate admin email")).

(** ** auth.middleware.ts: the remaining guards *)

Definition requireAdmin (req : Request.t) : Request.t * Outcome :=
  match Request.admin req with
  | None => (req, Responded 403 "Admin access required")
  | Some _ => (req, Next)
  end.

Definition requireGuest (req : Request.t) : Request.t * Outcome :=
  match Request.guest req with
  | None => (req, Responded 403 "Guest access required")
  | Some _ => (req, Next)
  end.

(** [isNaN(hotelId)]: [null] converts to 0. *)
Definition isNaN (h : option Number) : bool :=
  match h with
  | Some NaN => true
  | _ => false
  end.

(** [if (!hotelId || isNaN(hotelId))].  The function has no [try]: what
    reading the hotel id throws, it throws. *)
Definition requireHotelId (req : Request.t) : Completion (Request.t * Outcome) :=
  match requestedHotelId req with
  | Throw error => Throw error
  | Normal hotelId =>
      match truthyHotelId hotelId with
      | None => Normal (req, Responded 400 "Valid hotel ID required")
      | Some n =>
          if isNaN hotelId then Normal (req, Responded 400 "Valid hotel ID required")
          else Normal (Request.setHotelId req n, Next)
      end
  end.

(** ** auth routes

    What a route answers: [res.status(code).json(body)], the status
    being 200 when the handler calls [res.json] alone. *)

Inductive ResponseBody :=
| ErrorJson (error : string)
| VerificationJson (message : string) (passcode : option string) (expiresAt : option Z)
| AdminSessionJson (message token : string) (adminId hotelId : option Z)
| GuestSessionJson (message token : string) (guestId : option Z)
| AdminProfileJson (id : Z) (name email phone : string) (hotelId : Z)
| GuestProfileJson (id : Z) (name email : string).

Record Response := mkResponse { status : Z; body : ResponseBody }.

(** The fields the auth routes destructure from [req.body]; a field is
    absent or a string. *)
Module AuthBody.
Record t := mk
  { email : option string; passcode : option string; name : option string }.
End AuthBody.

(** [!field] on an absent-or-string field. *)
Definition present (field : option string) : option string :=
  match field with
  | Some s => if truthyString s then Some s else None
  | None => None
  end.

(** Express runs the handlers of a route in order: the next one runs
    when the previous one called [next()]. *)
Definition andThen (first second : Request.t -> Js (Request.t * Outcome))
  (req : Request.t) : Js (Request.t * Outcome) :=
  r <- first req ;;
  match r with
  | (req', Next) => second req'
  | (req', Responded s e) => ret (req', Responded s e)
  end.

Definition guarded (guard : Request.t -> Js (Request.t * Outcome))
  (handler : Request.t -> Js Response) (req : Request.t) : Js Response :=
  r <- guard req ;;
  match r with
  | (req', Next) => handler req'
  | (_, Responded s e) => ret (mkResponse s (ErrorJson e))
  end.

(** The handler of [GET /admin/me]; [req.admin!] throws a TypeError when
    no admin is attached. *)
Definition adminMeHandler (req : Request.t) : Js Response :=
  tryCatch
    (match Request.admin req with
     | Some a =>
         ret (mkResponse 200
                (AdminProfileJson (AdminPrincipal.id a) (AdminPrincipal.name a)
                   (AdminPrincipal.email a) (AdminPrincipal.phone a)
                   (AdminPrincipal.hotelId a)))
     | None => throw (OtherError "TypeError")
     end)
    (fun error =>
       console_error "Get admin profile error:" ;;;
       ret (mkResponse 500 (ErrorJson "Failed to get admin profile"))).

Definition guestMeHandler (req : Request.t) : Js Response :=
  tryCatch
    (match Request.guest req with
     | Some g =>
         ret (mkResponse 200
                (GuestProfileJson (GuestPrincipal.id g) (GuestPrincipal.name g)
                   (GuestPrincipal.email g)))
     | None => throw (OtherError "TypeError")
     end)
    (fun error =>
       console_error "Get guest profile error:" ;;;
       ret (mkResponse 500 (ErrorJson "Failed to get guest profile"))).

Section Routes.

Variable jwt : Jsonwebtoken.
Variable env : ProcessEnv.

Definition authenticateUser (req : Request.t) : Js (Request.t * Outcome) :=
  tryCatch
    (match extractTokenFromHeader (Request.authorization req) with
     | None => ret (req, Responded 401 "Authentication required")
     | Some token =>
         if negb (truthyString token)
         then ret (req, Responded 401 "Authentication required")
         else
           payload <- verifyToken jwt env token ;;
           match payload with
           | None => ret (req, Responded 401 "Invalid token")
           | Some (AdminAuthPayload adminId hotelId email) =>
               admin <- getAdminById adminId ;;
               match admin with
               | None => ret (req, Responded 401 "Admin not found")
               | Some admin =>
                   ret (Request.setAdmin req
                          (AdminPrincipal.mk adminId hotelId email (Admin.id admin)
                             (Admin.name admin) (Admin.phone admin))
                          hotelId,
                        Next)
               end
           | Some (GuestAuthPayload guestId email) =>
               guest <- getGuestById guestId ;;
               match guest with
               | None => ret (req, Responded 401 "Guest not found")
               | Some guest =>
                   ret (Request.setGuest req
                          (GuestPrincipal.mk guestId email (Guest.id guest)
                             (Guest.name guest)),
                        Next)
               end
           | Some (UntypedPayload _) => ret (req, Responded 401 "Invalid token type")
           end
     end)
    (fun error =>
       console_error "User authentication error:" ;;;
       ret (req, Responded 500 "Authentication failed")).

(** [POST /auth/admin/request-verification].  [validation.adminId!] is
    set whenever [validation.success] is; without an id the lookup of
    [createAdminVerification] rejects, which that helper reports. *)
Definition requestVerificationRoute (body : AuthBody.t) : Js Response :=
  tryCatch
    (match present (AuthBody.email body) with
     | None => ret (mkResponse 400 (ErrorJson "Email is required"))
     | Some email =>
         validation <- validateAdminEmail email ;;
         if negb (VerifyPasscodeResult.success validation)
         then ret (mkResponse 404 (ErrorJson (VerifyPasscodeResult.message validation)))
         else
           verification <-
             match VerifyPasscodeResult.adminId validation with
             | Some adminId => createAdminVerification adminId 10
             | None =>
                 console_error "Error creating admin verification:" ;;;
                 ret (MFAVerificationResult.mk false None None
                        "Failed to create verification code")
             end ;;
           if negb (MFAVerificationResult.success verification)
           then ret (mkResponse 500 (ErrorJson (MFAVerificationResult.message verification)))
           else ret (mkResponse 200
                       (VerificationJson "Verification code sent"
                          (MFAVerificationResult.passcode verification)
                          (MFAVerificationResult.expiresAt verification)))
     end)
    (fun error =>
       console_error "Admin verification request error:" ;;;
       ret (mkResponse 500 (ErrorJson "Failed to request verification"))).

(** [POST /auth/admin/verify].  [verification.adminId!] and
    [verification.hotelId!] are set whenever [verification.success] is. *)
Definition verifyRoute (body : AuthBody.t) : Js Response :=
  tryCatch
    (match present (AuthBody.email body), present (AuthBody.passcode body) with
     | Some email, Some passcode =>
         verification <- verifyAdminPasscode email passcode ;;
         if negb (VerifyPasscodeResult.success verification)
         then ret (mkResponse 401 (ErrorJson (VerifyPasscodeResult.message verification)))
         else
           match VerifyPasscodeResult.adminId verification,
                 VerifyPasscodeResult.hotelId verification with
           | Some adminId, Some hotelId =>
               token <- generateAdminToken jwt env adminId hotelId email ;;
               ret (mkResponse 200
                      (AdminSessionJson "Authentication successful" token
                         (Some adminId) (Some hotelId)))
           | _, _ => throw (OtherError "TypeError")
           end
     | _, _ => ret (mkResponse 400 (ErrorJson "Email and passcode are required"))
     end)
    (fun error =>
       console_error "Admin verification error:" ;;;
       ret (mkResponse 500 (ErrorJson "Failed to verify passcode"))).

(** [POST /auth/guest/login] *)
Definition guestLoginRoute (body : AuthBody.t) : Js Response :=
  tryCatch
    (match present (AuthBody.email body), present (AuthBody.name body) with
     | Some email, Some name =>
         result <- findOrCreateGuest email name ;;
         if negb (GuestResult.success result)
         then ret (mkResponse 500 (ErrorJson (GuestResult.message result)))
         else
           match GuestResult.guestId result with
           | Some guestId =>
               token <- generateGuestToken jwt env guestId email ;;
               ret (mkResponse 200
                      (GuestSessionJson "Authentication successful" token (Some guestId)))
           | None => throw (OtherError "TypeError")
           end
     | _, _ => ret (mkResponse 400 (ErrorJson "Email and name are required"))
     end)
    (fun error =>
       console_error "Guest login error:" ;;;
       ret (mkResponse 500 (ErrorJson "Failed to authenticate guest"))).

(** [GET /auth/admin/me] and [GET /auth/guest/me] *)
Definition adminMeRoute : Request.t -> Js Response :=
  guarded (authenticateAdmin jwt env) adminMeHandler.

Definition guestMeRoute : Request.t -> Js Response :=
  guarded (authenticateGuest jwt env) guestMeHandler.

End Routes.

(** ** Well-formed stores

    What the schema guarantees of the tables the helpers write: primary
    keys below the sequence, the unique index on guest emails and the
    foreign key of a verification to its admin. *)
Definition wfGuests (d : Db) : Prop :=
  NoDup (map Guest.id (guests d))
  /\ NoDup (map Guest.email (guests d))
  /\ (forall g, In g (guests d) -> Guest.id g < nextGuestId d).

Definition wfVerifications (d : Db) : Prop :=
  NoDup (map AdminVerification.id (adminVerifications d))
  /\ (forall v, In v (adminVerifications d) ->
                AdminVerification.id v < nextVerificationId d)
  /\ (forall v, In v (adminVerifications d) ->
                exists a, In a (admins d) /\ Admin.id a = AdminVerification.adminId v).

Definition wfDb (d : Db) : Prop := wfGuests d /\ wfVerifications d.

(** ** Vocabulary of the further statements *)

(** The world after the [catch] block of [verifyAdminPasscode] ran. *)
Definition verifyLogged (w : World) : World :=
  snd (console_error "Error verifying admin passcode:" w).

(** The world after [generatePasscode] consumed one sample. *)
Definition afterDraw (w : World) : World :=
  mkWorld (db w) (now w) (faults w) (entropy w) (S (drawn w)) (console w) (timeZone w).

(** The record [createAdminVerification] inserts when the date it
    computed is [expiresAt]. *)
Definition newVerification (adminId expiresAt : Z) (w : World) : AdminVerification.t :=
  AdminVerification.mk (nextVerificationId (db w)) adminId
    (Number_toString (randomInt_of 100000 999999 (entropy w (drawn w))))
    expiresAt false (now w).

(** Times for which the arithmetic of [setMinutes] is exact and the
    resulting date valid: the local time and the minutes added are
    within 4e15 milliseconds (some 126000 years), and the zone's offset
    for the resulting local time is within a day. *)
Definition plainTimes (tz : TimeZone) (t minutes : Z) : Prop :=
  Z.abs (LocalTime tz t) <= 4000000000000000
  /\ Z.abs (minutes * 60000) <= 4000000000000000
  /\ Z.abs (offsetOfLocal tz (LocalTime tz t + minutes * 60000)) <= msPerDay.

(** The offset that counts for the local time [minutes] minutes from
    [t] is the one in force at [t]: no change of the clocks is in the
    way. *)
Definition steadyZone (tz : TimeZone) (t minutes : Z) : Prop :=
  offsetOfLocal tz (LocalTime tz t + minutes * 60000) = offsetAt tz t.

(** A computation that leaves the store as it found it. *)
Definition keepsDb {A} (m : Js A) : Prop :=
  forall w, db (snd (m w)) = db w.

(** Text that does not go on with a digit. *)
Definition endsNumeral (rest : string) : bool :=
  match rest with
  | String c _ => negb (isDigit c)
  | EmptyString => true
  end.

(** * Properties *)

(** ** Scenarios *)

Example verify_sample :
  fst (verifyAdminPasscode "a@hotel.com" "123456" sampleWorld)
  = Normal (VerifyPasscodeResult.mk true (Some 1) (Some 7) "Passcode verified successfully").
Proof. reflexivity. Qed.

(** The login scenario: admin 1 of hotel 7 requests a verification,
    receives a six-digit code, verifies with it once and cannot verify
    with it again. *)
Example request_then_verify_scenario :
  let w0 := mkWorld (mkDb [Admin.mk 1 "Ann" "a@hotel.com" "555" 7] [] [] [] 1 1)
              1000 [] (fun _ => 23456) 0 [] utc in
  let '(r1, w1) := createAdminVerification 1 10 w0 in
  let '(r2, w2) := verifyAdminPasscode "a@hotel.com" "123456" w1 in
  let '(r3, w3) := verifyAdminPasscode "a@hotel.com" "123456" w2 in
  r1 = Normal (MFAVerificationResult.mk true (Some "123456") (Some 601000)
                 "MFA passcode generated successfully")
  /\ r2 = Normal (VerifyPasscodeResult.mk true (Some 1) (Some 7)
                    "Passcode verified successfully")
  /\ r3 = Normal (VerifyPasscodeResult.mk false None None "Invalid or expired passcode")
  /\ adminVerifications (db w3) = [AdminVerification.mk 1 1 "123456" 601000 true 1000].
Proof. vm_compute. repeat split. Qed.

(** A passcode presented after its [expiresAt] is refused although it
    was never used. *)
Example expired_passcode_refused :
  fst (verifyAdminPasscode "a@hotel.com" "123456" (advance 600000 sampleWorld))
  = Normal (VerifyPasscodeResult.mk false None None "Invalid or expired passcode").
Proof. reflexivity. Qed.

(** ** Facts about the monad and the queries *)

Lemma prisma_no_fault {A} (op : PrismaOp) (q : Db -> Completion A * Db) (w : World) :
  faults w = [] ->
  prisma op q w = (fst (q (db w)), setDb w (snd (q (db w)))).
Proof.
  intros H. unfold prisma, faulty. rewrite H. simpl.
  destruct (q (db w)); reflexivity.
Qed.

Lemma prisma_fault {A} (op : PrismaOp) (q : Db -> Completion A * Db) (w : World) :
  faulty op w = true ->
  prisma op q w = (Throw (PrismaClientError op), w).
Proof. intros H. unfold prisma. rewrite H. reflexivity. Qed.

Lemma newest_step (rows : list AdminVerification.t) (b : AdminVerification.t) :
  exists b',
    fold_left
      (fun best v =>
         match best with
         | None => Some v
         | Some b =>
             if AdminVerification.createdAt b <? AdminVerification.createdAt v
             then Some v else Some b
         end) rows (Some b) = Some b'
    /\ (b' = b \/ In b' rows).
Proof.
  revert b. induction rows as [|v rows IH]; intros b; simpl.
  - exists b. auto.
  - destruct (AdminVerification.createdAt b <? AdminVerification.createdAt v).
    + destruct (IH v) as [b' [E H]]. exists b'. intuition.
    + destruct (IH b) as [b' [E H]]. exists b'. intuition.
Qed.

Lemma newest_None (rows : list AdminVerification.t) :
  prisma_adminVerification.newest rows = None <-> rows = [].
Proof.
  unfold prisma_adminVerification.newest. destruct rows as [|v rows]; simpl.
  - tauto.
  - destruct (newest_step rows v) as [b' [E _]]. rewrite E.
    split; discriminate.
Qed.

Lemma newest_In (rows : list AdminVerification.t) (v : AdminVerification.t) :
  prisma_adminVerification.newest rows = Some v -> In v rows.
Proof.
  unfold prisma_adminVerification.newest. destruct rows as [|r rows]; simpl.
  - discriminate.
  - destruct (newest_step rows r) as [b' [E H]]. rewrite E.
    intros [= <-]. destruct H as [-> | H]; auto.
Qed.

Lemma unusedUnexpired_later (aid : Z) (code : string) (t d : Z) (v : AdminVerification.t) :
  0 <= d ->
  prisma_adminVerification.unusedUnexpired aid code (t + d) v = true ->
  prisma_adminVerification.unusedUnexpired aid code t v = true.
Proof.
  unfold prisma_adminVerification.unusedUnexpired. intros Hd H.
  apply andb_true_iff in H as [H H4]. rewrite H. simpl.
  apply Z.ltb_lt in H4. apply Z.ltb_lt. lia.
Qed.

Lemma unusedUnexpired_setUsed (aid : Z) (code : string) (t : Z) (v : AdminVerification.t) :
  prisma_adminVerification.unusedUnexpired aid code t (AdminVerification.setUsed v true) = false.
Proof.
  unfold prisma_adminVerification.unusedUnexpired. simpl.
  rewrite andb_false_r. reflexivity.
Qed.

Lemma afterMarkAndCleanup_no_match
  (aid : Z) (code : string) (t d lt : Z) (v : AdminVerification.t)
  (rows : list AdminVerification.t) :
  0 <= d ->
  filter (prisma_adminVerification.unusedUnexpired aid code t) rows = [v] ->
  filter (prisma_adminVerification.unusedUnexpired aid code (t + d))
    (afterMarkAndCleanup (AdminVerification.id v) aid lt rows) = [].
Proof.
  intros Hd Hone.
  destruct (filter _ (afterMarkAndCleanup _ _ _ _)) as [|x xs] eqn:E; [reflexivity|].
  exfalso.
  assert (Hx : In x (x :: xs)) by (left; reflexivity).
  rewrite <- E in Hx. apply filter_In in Hx as [Hx Hvalid].
  unfold afterMarkAndCleanup in Hx. apply filter_In in Hx as [Hx _].
  apply in_map_iff in Hx as [r [Hr Hin]].
  destruct (AdminVerification.id r =? AdminVerification.id v) eqn:Eid.
  - subst x. rewrite unusedUnexpired_setUsed in Hvalid. discriminate.
  - subst x. apply unusedUnexpired_later in Hvalid; [|exact Hd].
    assert (Hrv : In r [v]).
    { rewrite <- Hone. apply filter_In. split; assumption. }
    destruct Hrv as [<- | []]. rewrite Z.eqb_refl in Eid. discriminate.
Qed.

Lemma afterMarkAndCleanup_keeps
  (aid : Z) (code : string) (t lt : Z) (v : AdminVerification.t)
  (rows : list AdminVerification.t) :
  lt <= t ->
  In v rows ->
  prisma_adminVerification.unusedUnexpired aid code t v = true ->
  In (AdminVerification.setUsed v true)
     (afterMarkAndCleanup (AdminVerification.id v) aid lt rows).
Proof.
  intros Hlt Hin Hvalid. unfold afterMarkAndCleanup.
  apply filter_In. split.
  - apply in_map_iff. exists v. rewrite Z.eqb_refl. auto.
  - unfold prisma_adminVerification.unusedUnexpired in Hvalid.
    apply andb_true_iff in Hvalid as [_ H4]. apply Z.ltb_lt in H4.
    unfold prisma_adminVerification.usedAndOlder. simpl.
    apply negb_true_iff. apply andb_false_iff. right.
    apply Z.ltb_ge. lia.
Qed.

Lemma afterMarkAndCleanup_marks
  (vid aid lt : Z) (rows : list AdminVerification.t) (x : AdminVerification.t) :
  In x (afterMarkAndCleanup vid aid lt rows) ->
  AdminVerification.id x = vid ->
  AdminVerification.used x = true.
Proof.
  unfold afterMarkAndCleanup. intros Hx Hid.
  apply filter_In in Hx as [Hx _].
  apply in_map_iff in Hx as [r [Hr _]].
  destruct (AdminVerification.id r =? vid) eqn:E.
  - subst x. reflexivity.
  - subst x. apply Z.eqb_neq in E. contradiction.
Qed.

(** What a fault-free [verifyAdminPasscode] does when the lookup finds
    the admin and the passcode query selects row [v]. *)
Lemma verifyAdminPasscode_match
  (w : World) (email passcode : string) (admin : Admin.t) (v : AdminVerification.t) :
  faults w = [] ->
  find (fun a => String.eqb (Admin.email a) email) (admins (db w)) = Some admin ->
  prisma_adminVerification.newest
    (filter (prisma_adminVerification.unusedUnexpired (Admin.id admin) passcode (now w))
       (adminVerifications (db w))) = Some v ->
  verifyAdminPasscode email passcode w
  = (Normal (VerifyPasscodeResult.mk true (Some (Admin.id admin))
               (Some (Admin.hotelId admin)) "Passcode verified successfully"),
     setDb w (setVerifications (db w)
                (afterMarkAndCleanup (AdminVerification.id v) (Admin.id admin)
                   (now w - 24 * 60 * 60 * 1000) (adminVerifications (db w)))
                (nextVerificationId (db w)))).
Proof.
  intros Hf Ha Hv.
  assert (Hin : In v (adminVerifications (db w))).
  { apply newest_In in Hv. apply filter_In in Hv. tauto. }
  assert (Hex : existsb (fun x => AdminVerification.id x =? AdminVerification.id v)
                  (adminVerifications (db w)) = true).
  { apply existsb_exists. exists v. split; [exact Hin | apply Z.eqb_refl]. }
  unfold verifyAdminPasscode, tryCatch, bind, newDate, ret,
    prisma_admin.findUnique_email, prisma_adminVerification.findFirst,
    prisma_adminVerification.update_used, prisma_adminVerification.deleteMany.
  rewrite prisma_no_fault by exact Hf. simpl. rewrite Ha.
  rewrite prisma_no_fault by exact Hf. simpl. rewrite Hv.
  rewrite prisma_no_fault by exact Hf. simpl. rewrite Hex. simpl.
  rewrite prisma_no_fault by exact Hf. simpl.
  destruct w as [d t f e n c]; destruct d; simpl in *. reflexivity.
Qed.

(** ... and when the passcode query selects nothing. *)
Lemma verifyAdminPasscode_no_match
  (w : World) (email passcode : string) (admin : Admin.t) :
  faults w = [] ->
  find (fun a => String.eqb (Admin.email a) email) (admins (db w)) = Some admin ->
  filter (prisma_adminVerification.unusedUnexpired (Admin.id admin) passcode (now w))
    (adminVerifications (db w)) = [] ->
  verifyAdminPasscode email passcode w
  = (Normal (VerifyPasscodeResult.mk false None None "Invalid or expired passcode"), w).
Proof.
  intros Hf Ha Hv.
  unfold verifyAdminPasscode, tryCatch, bind, newDate, ret,
    prisma_admin.findUnique_email, prisma_adminVerification.findFirst.
  rewrite prisma_no_fault by exact Hf. simpl. rewrite Ha.
  rewrite prisma_no_fault by exact Hf. simpl. rewrite Hv. simpl.
  destruct w as [d t f e n c]; destruct d; reflexivity.
Qed.

(** C1. An admin holding a single valid (unused, unexpired) record with
    the given passcode verifies exactly once: the first call succeeds
    with the admin's [adminId] and [hotelId] and leaves the record
    stored with [used = true]; any later call with the same email and
    passcode answers "Invalid or expired passcode". *)
Theorem verifyAdminPasscode_succeeds_exactly_once
  (w : World) (email passcode : string) (admin : Admin.t) (v : AdminVerification.t) :
  faults w = [] ->
  find (fun a => String.eqb (Admin.email a) email) (admins (db w)) = Some admin ->
  filter (prisma_adminVerification.unusedUnexpired (Admin.id admin) passcode (now w))
    (adminVerifications (db w)) = [v] ->
  let r1 := fst (verifyAdminPasscode email passcode w) in
  let w1 := snd (verifyAdminPasscode email passcode w) in
  r1 = Normal (VerifyPasscodeResult.mk true (Some (Admin.id admin))
                 (Some (Admin.hotelId admin)) "Passcode verified successfully")
  /\ In (AdminVerification.setUsed v true) (adminVerifications (db w1))
  /\ (forall x, In x (adminVerifications (db w1)) ->
                AdminVerification.id x = AdminVerification.id v ->
                AdminVerification.used x = true)
  /\ forall d, 0 <= d ->
       fst (verifyAdminPasscode email passcode (advance d w1))
       = Normal (VerifyPasscodeResult.mk false None None "Invalid or expired passcode").
Proof.
  intros Hf Ha Hone r1 w1. subst r1 w1.
  assert (Hv : In v (filter (prisma_adminVerification.unusedUnexpired (Admin.id admin)
                               passcode (now w)) (adminVerifications (db w)))).
  { rewrite Hone. left. reflexivity. }
  apply filter_In in Hv as [Hin Hvalid].
  rewrite (verifyAdminPasscode_match w email passcode admin v Hf Ha)
    by (rewrite Hone; reflexivity).
  simpl. split; [reflexivity|]. split.
  - apply afterMarkAndCleanup_keeps with (code := passcode) (t := now w);
      [lia | exact Hin | exact Hvalid].
  - split.
    + intros x Hx Hid. eapply afterMarkAndCleanup_marks; eassumption.
    + intros d Hd.
      rewrite verifyAdminPasscode_no_match with (admin := admin); simpl; auto.
      apply afterMarkAndCleanup_no_match; assumption.
Qed.

Lemma verifyAdminPasscode_succeeds_exactly_once_witness :
  let w := sampleWorld in
  let r1 := fst (verifyAdminPasscode "a@hotel.com" "123456" w) in
  let w1 := snd (verifyAdminPasscode "a@hotel.com" "123456" w) in
  r1 = Normal (VerifyPasscodeResult.mk true (Some 1) (Some 7) "Passcode verified successfully")
  /\ In (AdminVerification.mk 1 1 "123456" 600000 true 0) (adminVerifications (db w1))
  /\ (forall x, In x (adminVerifications (db w1)) ->
                AdminVerification.id x = 1 -> AdminVerification.used x = true)
  /\ forall d, 0 <= d ->
       fst (verifyAdminPasscode "a@hotel.com" "123456" (advance d w1))
       = Normal (VerifyPasscodeResult.mk false None None "Invalid or expired passcode").
Proof.
  exact (verifyAdminPasscode_succeeds_exactly_once sampleWorld "a@hotel.com" "123456"
           (Admin.mk 1 "Ann" "a@hotel.com" "555" 7)
           (AdminVerification.mk 1 1 "123456" 600000 false 0)
           eq_refl eq_refl eq_refl).
Defined.

(** ** The task and the function *)

Lemma resumeN_Settled (n : nat) (r : VerifyPasscodeResult.t) (w : World) :
  resumeN n (Settled r) w = (Settled r, w).
Proof. induction n; simpl; auto. Qed.

Lemma now_setDb (w : World) (d : Db) : now (setDb w d) = now w.
Proof. reflexivity. Qed.

Lemma prisma_now {A} (op : PrismaOp) (q : Db -> Completion A * Db) (w : World) :
  now (snd (prisma op q w)) = now w.
Proof.
  unfold prisma. destruct (faulty op w); [reflexivity|].
  destruct (q (db w)). reflexivity.
Qed.

(** Run alone, the task is the function: four resumptions settle it
    with the result and the world of [verifyAdminPasscode]. *)
Lemma verifyAdminPasscode_resumeN (email passcode : string) (w : World) :
  exists r,
    resumeN 4 (AwaitFindAdmin email passcode) w = (Settled r, snd (verifyAdminPasscode email passcode w))
    /\ fst (verifyAdminPasscode email passcode w) = Normal r.
Proof.
  unfold verifyAdminPasscode, tryCatch, bind, ret, newDate.
  unfold resumeN, resume, verifyCaught.
  change (24 * 60 * 60 * 1000) with 86400000.
  destruct (prisma_admin.findUnique_email email w) as [[[admin|]|e] w1] eqn:E1;
    simpl; try (eexists; split; reflexivity).
  assert (N1 : now w1 = now w).
  { unfold prisma_admin.findUnique_email in E1.
    pose proof (prisma_now AdminFindUnique
      (fun d => (Normal (find (fun a => String.eqb (Admin.email a) email) (admins d)), d)) w) as P.
    rewrite E1 in P. exact P. }
  rewrite N1.
  destruct (prisma_adminVerification.findFirst (Admin.id admin) passcode (now w) w1)
    as [[[v|]|e] w2] eqn:E2; simpl; try (eexists; split; reflexivity).
  destruct (prisma_adminVerification.update_used (AdminVerification.id v) true w2)
    as [[u|e] w3] eqn:E3; simpl; try (eexists; split; reflexivity).
  destruct (prisma_adminVerification.deleteMany (Admin.id admin)
              (now w3 - 86400000) w3)
    as [[u'|e] w4] eqn:E4; simpl; eexists; split; reflexivity.
Qed.

Lemma setDb_same (w : World) : setDb w (db w) = w.
Proof. destruct w; reflexivity. Qed.

Lemma setVerifications_same (d : Db) :
  setVerifications d (adminVerifications d) (nextVerificationId d) = d.
Proof. destruct d; reflexivity. Qed.

Lemma prisma_not_faulty {A} (op : PrismaOp) (q : Db -> Completion A * Db) (w : World) :
  faulty op w = false ->
  prisma op q w = (fst (q (db w)), setDb w (snd (q (db w)))).
Proof.
  intros H. unfold prisma. rewrite H. destruct (q (db w)); reflexivity.
Qed.

Lemma resume_findAdmin (w : World) (email passcode : string) (admin : Admin.t) :
  faults w = [] ->
  find (fun a => String.eqb (Admin.email a) email) (admins (db w)) = Some admin ->
  resume (AwaitFindAdmin email passcode) w = (AwaitFindVerification admin passcode (now w), w).
Proof.
  intros Hf Ha. unfold resume, prisma_admin.findUnique_email.
  rewrite prisma_no_fault by exact Hf. simpl. rewrite Ha, setDb_same. reflexivity.
Qed.

Lemma resume_findVerification
  (w : World) (admin : Admin.t) (passcode : string) (gt : Z) (v : AdminVerification.t) :
  faults w = [] ->
  prisma_adminVerification.newest
    (filter (prisma_adminVerification.unusedUnexpired (Admin.id admin) passcode gt)
       (adminVerifications (db w))) = Some v ->
  resume (AwaitFindVerification admin passcode gt) w = (AwaitMarkUsed admin v, w).
Proof.
  intros Hf Hv. unfold resume, prisma_adminVerification.findFirst.
  rewrite prisma_no_fault by exact Hf. simpl. rewrite Hv, setDb_same. reflexivity.
Qed.

Lemma resume_markUsed (w : World) (admin : Admin.t) (v : AdminVerification.t) :
  faults w = [] ->
  (exists x, In x (adminVerifications (db w))
             /\ AdminVerification.id x = AdminVerification.id v) ->
  resume (AwaitMarkUsed admin v) w
  = (AwaitCleanup admin (now w - 24 * 60 * 60 * 1000),
     markUsedWorld (AdminVerification.id v) w).
Proof.
  intros Hf [x [Hin Hid]]. unfold resume, prisma_adminVerification.update_used.
  rewrite prisma_no_fault by exact Hf. simpl.
  assert (Hex : existsb (fun y => AdminVerification.id y =? AdminVerification.id v)
                  (adminVerifications (db w)) = true).
  { apply existsb_exists. exists x. split; [exact Hin | apply Z.eqb_eq; exact Hid]. }
  rewrite Hex. reflexivity.
Qed.

Lemma resume_cleanup (w : World) (admin : Admin.t) (lt : Z) :
  faults w = [] ->
  fst (resume (AwaitCleanup admin lt) w)
  = Settled (VerifyPasscodeResult.mk true (Some (Admin.id admin))
               (Some (Admin.hotelId admin)) "Passcode verified successfully")
  /\ faults (snd (resume (AwaitCleanup admin lt) w)) = [].
Proof.
  intros Hf. unfold resume, prisma_adminVerification.deleteMany.
  rewrite prisma_no_fault by exact Hf. simpl. auto.
Qed.

(** Whenever one request would succeed, two requests sent together and
    resumed in turn both succeed: the second [update] finds the row by
    its id alone and marks it used a second time. *)
Lemma race_both_succeed
  (w : World) (email passcode : string) (admin : Admin.t) (v : AdminVerification.t) :
  faults w = [] ->
  find (fun a => String.eqb (Admin.email a) email) (admins (db w)) = Some admin ->
  prisma_adminVerification.newest
    (filter (prisma_adminVerification.unusedUnexpired (Admin.id admin) passcode (now w))
       (adminVerifications (db w))) = Some v ->
  let ok := Settled (VerifyPasscodeResult.mk true (Some (Admin.id admin))
                       (Some (Admin.hotelId admin)) "Passcode verified successfully") in
  exists w',
    race bothReadFirst (AwaitFindAdmin email passcode) (AwaitFindAdmin email passcode) w
    = (ok, ok, w').
Proof.
  intros Hf Ha Hv ok.
  assert (Hin : In v (adminVerifications (db w))).
  { apply newest_In in Hv. apply filter_In in Hv. tauto. }
  unfold bothReadFirst. cbn [race].
  rewrite (resume_findAdmin w email passcode admin Hf Ha). cbn [race].
  rewrite (resume_findAdmin w email passcode admin Hf Ha). cbn [race].
  rewrite (resume_findVerification w admin passcode (now w) v Hf Hv). cbn [race].
  rewrite (resume_findVerification w admin passcode (now w) v Hf Hv). cbn [race].
  rewrite (resume_markUsed w admin v Hf) by (exists v; auto). cbn [race].
  set (w1 := markUsedWorld (AdminVerification.id v) w).
  assert (Hf1 : faults w1 = []) by exact Hf.
  rewrite (resume_markUsed w1 admin v Hf1).
  2:{ exists (AdminVerification.setUsed v true). split; [|reflexivity].
      unfold w1, markUsedWorld. simpl. apply in_map_iff.
      exists v. rewrite Z.eqb_refl. auto. }
  cbn [race].
  set (w2 := markUsedWorld (AdminVerification.id v) w1).
  assert (Hf2 : faults w2 = []) by exact Hf.
  destruct (resume_cleanup w2 admin (now w - 24 * 60 * 60 * 1000) Hf2) as [R3 Hf3].
  destruct (resume (AwaitCleanup admin (now w - 24 * 60 * 60 * 1000)) w2) as [a3 w3].
  simpl in R3, Hf3. subst a3.
  destruct (resume_cleanup w3 admin (now w1 - 24 * 60 * 60 * 1000) Hf3) as [R4 _].
  destruct (resume (AwaitCleanup admin (now w1 - 24 * 60 * 60 * 1000)) w3) as [a4 w4].
  simpl in R4. subst a4. exists w4. reflexivity.
Qed.

(** What [verifyAdminPasscode] does when the passcode query selects row
    [v] and the clean-up [deleteMany] rejects: the rejection lands in
    the function's single [catch], after the row was marked used. *)
Lemma verifyAdminPasscode_cleanup_fault
  (w : World) (email passcode : string) (admin : Admin.t) (v : AdminVerification.t) :
  faulty AdminFindUnique w = false ->
  faulty AdminVerificationFindFirst w = false ->
  faulty AdminVerificationUpdate w = false ->
  faulty AdminVerificationDeleteMany w = true ->
  find (fun a => String.eqb (Admin.email a) email) (admins (db w)) = Some admin ->
  prisma_adminVerification.newest
    (filter (prisma_adminVerification.unusedUnexpired (Admin.id admin) passcode (now w))
       (adminVerifications (db w))) = Some v ->
  verifyAdminPasscode email passcode w
  = (Normal (VerifyPasscodeResult.mk false None None "Failed to verify passcode"),
     snd (console_error "Error verifying admin passcode:"
            (markUsedWorld (AdminVerification.id v) w))).
Proof.
  intros F1 F2 F3 F4 Ha Hv.
  assert (Hin : In v (adminVerifications (db w))).
  { apply newest_In in Hv. apply filter_In in Hv. tauto. }
  assert (Hex : existsb (fun x => AdminVerification.id x =? AdminVerification.id v)
                  (adminVerifications (db w)) = true).
  { apply existsb_exists. exists v. split; [exact Hin | apply Z.eqb_refl]. }
  unfold verifyAdminPasscode, tryCatch, bind, newDate, ret,
    prisma_admin.findUnique_email, prisma_adminVerification.findFirst,
    prisma_adminVerification.update_used, prisma_adminVerification.deleteMany.
  rewrite prisma_not_faulty by exact F1. simpl. rewrite Ha.
  rewrite prisma_not_faulty by exact F2. simpl. rewrite Hv.
  rewrite prisma_not_faulty by exact F3. simpl. rewrite Hex. simpl.
  rewrite prisma_fault by exact F4.
  rewrite !setDb_same. reflexivity.
Qed.

(** C3 (the code departs from the claim).  Admin 1 holds the valid
    passcode 123456 and the store rejects the clean-up [deleteMany]:
    the call answers [success = false] with "Failed to verify passcode",
    although the matched record has been marked used. *)
Theorem verifyAdminPasscode_cleanup_failure_fails_verification :
  fst (verifyAdminPasscode "a@hotel.com" "123456" cleanupFailsWorld)
  = Normal (VerifyPasscodeResult.mk false None None "Failed to verify passcode")
  /\ adminVerifications (db (snd (verifyAdminPasscode "a@hotel.com" "123456" cleanupFailsWorld)))
     = [AdminVerification.mk 1 1 "123456" 600000 true 0].
Proof. split; reflexivity. Qed.

(** Served one after the other, the same two requests do not both
    succeed: the second finds the row used. *)
Example sequential_verifications_one_succeeds :
  exists w',
    race [RequestA; RequestA; RequestA; RequestA; RequestB; RequestB; RequestB; RequestB]
      (AwaitFindAdmin "a@hotel.com" "123456") (AwaitFindAdmin "a@hotel.com" "123456")
      sampleWorld
    = (Settled (VerifyPasscodeResult.mk true (Some 1) (Some 7)
                  "Passcode verified successfully"),
       Settled (VerifyPasscodeResult.mk false None None "Invalid or expired passcode"),
       w').
Proof. eexists. reflexivity. Qed.

(** C9 (the code departs from the claim).  Two requests with the same
    valid passcode, resumed in turn, both settle with success: the
    [update] that marks the record is keyed by id only, not by
    [used = false]. *)
Theorem concurrent_verifications_both_succeed :
  let ok := Settled (VerifyPasscodeResult.mk true (Some 1) (Some 7)
                       "Passcode verified successfully") in
  exists w',
    race bothReadFirst (AwaitFindAdmin "a@hotel.com" "123456")
      (AwaitFindAdmin "a@hotel.com" "123456") sampleWorld = (ok, ok, w')
    /\ adminVerifications (db w') = [AdminVerification.mk 1 1 "123456" 600000 true 0].
Proof. eexists. split; reflexivity. Qed.

(** ** Guests *)

Lemma find_app_None {A} (p : A -> bool) (l : list A) (x : A) :
  find p l = None -> p x = true -> find p (l ++ [x]) = Some x.
Proof.
  induction l as [|a l IH]; simpl; intros Hn Hx.
  - rewrite Hx. reflexivity.
  - destruct (p a); [discriminate | auto].
Qed.

Lemma find_none_existsb {A} (p : A -> bool) (l : list A) :
  find p l = None -> existsb p l = false.
Proof.
  induction l as [|a l IH]; simpl; intros H; [reflexivity|].
  destruct (p a); [discriminate | auto].
Qed.

Lemma guestByEmail_rename (email name : string) (g : Guest.t) (gs : list Guest.t) :
  find (fun x => String.eqb (Guest.email x) email) gs = Some g ->
  find (fun x => String.eqb (Guest.email x) email)
    (map (fun x => if Guest.id x =? Guest.id g then Guest.setName x name else x) gs)
  = Some (Guest.setName g name).
Proof.
  induction gs as [|a gs IH]; simpl; intros H; [discriminate|].
  destruct (String.eqb (Guest.email a) email) eqn:E.
  - injection H as ->. rewrite Z.eqb_refl. simpl. rewrite E. reflexivity.
  - destruct (Guest.id a =? Guest.id g); simpl; rewrite E; auto.
Qed.

Lemma find_some_id (g : Guest.t) (gs : list Guest.t) (p : Guest.t -> bool) :
  find p gs = Some g ->
  exists g', find (fun x => Guest.id x =? Guest.id g) gs = Some g'.
Proof.
  induction gs as [|a gs IH]; simpl; intros H; [discriminate|].
  destruct (Guest.id a =? Guest.id g) eqn:E; [eauto|].
  destruct (p a).
  - injection H as ->. rewrite Z.eqb_refl in E. discriminate.
  - auto.
Qed.

(** First login under an email: the guest is inserted under the next id
    of the sequence. *)
Lemma findOrCreateGuest_created (w : World) (email name : string) :
  faults w = [] ->
  guestByEmail email (db w) = None ->
  findOrCreateGuest email name w
  = (Normal (GuestResult.mk true (Some (nextGuestId (db w))) "Guest created successfully"),
     setDb w (setGuests (db w)
                (guests (db w) ++ [Guest.mk (nextGuestId (db w)) name email])
                (nextGuestId (db w) + 1))).
Proof.
  unfold guestByEmail. intros Hf Hg.
  unfold findOrCreateGuest, tryCatch, bind, ret,
    prisma_guest.findUnique_email, prisma_guest.create.
  rewrite prisma_no_fault by exact Hf. simpl. rewrite Hg.
  rewrite prisma_no_fault by (rewrite setDb_same; exact Hf).
  rewrite setDb_same. simpl.
  rewrite (find_none_existsb _ _ Hg). reflexivity.
Qed.

(** Later login with the stored name, or with no name: nothing is written. *)
Lemma findOrCreateGuest_found_same (w : World) (email name : string) (g : Guest.t) :
  faulty GuestFindUnique w = false ->
  guestByEmail email (db w) = Some g ->
  name = "" \/ name = Guest.name g ->
  findOrCreateGuest email name w
  = (Normal (GuestResult.mk true (Some (Guest.id g)) "Guest found"), w).
Proof.
  unfold guestByEmail. intros Hf Hg Hn.
  unfold findOrCreateGuest, tryCatch, bind, ret, prisma_guest.findUnique_email.
  rewrite prisma_not_faulty by exact Hf. simpl. rewrite Hg, setDb_same.
  assert (E : truthyString name && negb (String.eqb (Guest.name g) name) = false).
  { destruct Hn as [-> | ->]; [reflexivity|].
    rewrite String.eqb_refl. apply andb_false_r. }
  rewrite E. reflexivity.
Qed.

(** Later login with another name: the row of that guest is renamed. *)
Lemma findOrCreateGuest_found_renamed (w : World) (email name : string) (g : Guest.t) :
  faults w = [] ->
  guestByEmail email (db w) = Some g ->
  name <> "" -> name <> Guest.name g ->
  findOrCreateGuest email name w
  = (Normal (GuestResult.mk true (Some (Guest.id g)) "Guest found"),
     setDb w (setGuests (db w)
                (map (fun x => if Guest.id x =? Guest.id g then Guest.setName x name else x)
                   (guests (db w)))
                (nextGuestId (db w)))).
Proof.
  unfold guestByEmail. intros Hf Hg Hne Hdiff.
  unfold findOrCreateGuest, tryCatch, bind, ret,
    prisma_guest.findUnique_email, prisma_guest.update_name.
  rewrite prisma_no_fault by exact Hf. simpl. rewrite Hg, setDb_same.
  assert (E : truthyString name && negb (String.eqb (Guest.name g) name) = true).
  { unfold truthyString. apply andb_true_iff. split; apply negb_true_iff.
    - apply String.eqb_neq. exact Hne.
    - apply String.eqb_neq. congruence. }
  rewrite E. rewrite prisma_no_fault by exact Hf.
  destruct (find_some_id g (guests (db w)) _ Hg) as [g' Hg'].
  rewrite Hg'. simpl.
  apply find_some in Hg' as [_ Hid]. apply Z.eqb_eq in Hid. simpl in Hid.
  rewrite Hid. reflexivity.
Qed.

Lemma keepsFaults_ret {A} (a : A) : keepsFaults (ret a).
Proof. intros w. reflexivity. Qed.

Lemma keepsFaults_console_error (line : string) : keepsFaults (console_error line).
Proof. intros w. reflexivity. Qed.

Lemma keepsFaults_prisma {A} (op : PrismaOp) (q : Db -> Completion A * Db) :
  keepsFaults (prisma op q).
Proof.
  intros w. unfold prisma. destruct (faulty op w); [reflexivity|].
  destruct (q (db w)). reflexivity.
Qed.

Lemma keepsFaults_bind {A B} (m : Js A) (k : A -> Js B) :
  keepsFaults m -> (forall a, keepsFaults (k a)) -> keepsFaults (bind m k).
Proof.
  intros Hm Hk w. unfold bind. specialize (Hm w).
  destruct (m w) as [[a|e] w']; simpl in *.
  - rewrite Hk. exact Hm.
  - exact Hm.
Qed.

Lemma keepsFaults_tryCatch {A} (m : Js A) (h : JsError -> Js A) :
  keepsFaults m -> (forall e, keepsFaults (h e)) -> keepsFaults (tryCatch m h).
Proof.
  intros Hm Hh w. unfold tryCatch. specialize (Hm w).
  destruct (m w) as [[a|e] w']; simpl in *.
  - exact Hm.
  - rewrite Hh. exact Hm.
Qed.

Create HintDb faults.
#[local] Hint Resolve keepsFaults_ret keepsFaults_console_error keepsFaults_prisma : faults.

Ltac keeps_faults :=
  repeat first
    [ apply keepsFaults_tryCatch
    | apply keepsFaults_bind
    | progress (auto with faults)
    | match goal with
      | |- forall _, _ => intro
      | |- keepsFaults (match ?x with _ => _ end) => destruct x
      end ].

Lemma findOrCreateGuest_faults (w : World) (email name : string) :
  faults (snd (findOrCreateGuest email name w)) = faults w.
Proof.
  revert w. change (keepsFaults (findOrCreateGuest email name)).
  unfold findOrCreateGuest, prisma_guest.findUnique_email, prisma_guest.create,
    prisma_guest.update_name.
  keeps_faults.
Qed.

(** Once a guest is stored under the email, every login answers that
    guest's id and keeps the guest stored under the email. *)
Lemma findOrCreateGuest_found (w : World) (email name : string) (g : Guest.t) :
  faults w = [] ->
  guestByEmail email (db w) = Some g ->
  fst (findOrCreateGuest email name w)
  = Normal (GuestResult.mk true (Some (Guest.id g)) "Guest found")
  /\ exists g', guestByEmail email (db (snd (findOrCreateGuest email name w))) = Some g'
                /\ Guest.id g' = Guest.id g.
Proof.
  intros Hf Hg.
  destruct (string_dec name "") as [E0 | N0].
  - rewrite (findOrCreateGuest_found_same w email name g); auto.
    + simpl. eauto.
    + unfold faulty. rewrite Hf. reflexivity.
  - destruct (string_dec name (Guest.name g)) as [E1 | N1].
    + rewrite (findOrCreateGuest_found_same w email name g); auto.
      * simpl. eauto.
      * unfold faulty. rewrite Hf. reflexivity.
    + rewrite (findOrCreateGuest_found_renamed w email name g); auto.
      simpl. split; [reflexivity|].
      exists (Guest.setName g name). split; [|reflexivity].
      unfold guestByEmail. simpl. apply guestByEmail_rename. exact Hg.
Qed.

Lemma loginAll_same_guest (email : string) (names : list string) :
  forall (w : World) (g : Guest.t),
    faults w = [] ->
    guestByEmail email (db w) = Some g ->
    Forall (fun r => r = Normal (GuestResult.mk true (Some (Guest.id g)) "Guest found"))
      (fst (loginAll email names w)).
Proof.
  induction names as [|name rest IH]; intros w g Hf Hg; simpl.
  - constructor.
  - destruct (findOrCreateGuest_found w email name g Hf Hg) as [R [g' [Hg' Hid]]].
    pose proof (findOrCreateGuest_faults w email name) as Hf'. rewrite Hf in Hf'.
    destruct (findOrCreateGuest email name w) as [r w'] eqn:E. simpl in *.
    specialize (IH w' g' Hf' Hg'). rewrite Hid in IH.
    destruct (loginAll email rest w') as [rs w'']. simpl in *.
    constructor; assumption.
Qed.

(** C8. [findOrCreateGuest] is an upsert keyed by email.  For a
    non-empty name: with no guest stored under the email a guest with
    that email and name is inserted and its id returned; with a guest
    stored, that guest's id is returned, the store is left untouched when
    the name equals the stored one and the stored name is replaced when
    it differs; every later login under the email returns the same id. *)
Theorem findOrCreateGuest_upsert
  (w : World) (email name : string) (later : list string) :
  faults w = [] ->
  name <> "" ->
  let r1 := fst (findOrCreateGuest email name w) in
  let w1 := snd (findOrCreateGuest email name w) in
  exists gid,
    guestByEmail email (db w1) = Some (Guest.mk gid name email)
    /\ match guestByEmail email (db w) with
       | None =>
           r1 = Normal (GuestResult.mk true (Some gid) "Guest created successfully")
           /\ gid = nextGuestId (db w)
           /\ guests (db w1) = guests (db w) ++ [Guest.mk gid name email]
       | Some g =>
           r1 = Normal (GuestResult.mk true (Some gid) "Guest found")
           /\ gid = Guest.id g
           /\ (name = Guest.name g -> w1 = w)
           /\ (name <> Guest.name g ->
               guests (db w1)
               = map (fun x => if Guest.id x =? gid then Guest.setName x name else x)
                   (guests (db w)))
       end
    /\ Forall (fun r => r = Normal (GuestResult.mk true (Some gid) "Guest found"))
         (fst (loginAll email later w1)).
Proof.
  intros Hf Hne r1 w1. subst r1 w1.
  destruct (guestByEmail email (db w)) as [g|] eqn:Hg.
  - assert (Hmail : Guest.email g = email).
    { unfold guestByEmail in Hg. apply find_some in Hg as [_ H].
      apply String.eqb_eq in H. exact H. }
    exists (Guest.id g).
    destruct (string_dec name (Guest.name g)) as [E1 | N1].
    + rewrite (findOrCreateGuest_found_same w email name g); auto.
      2:{ unfold faulty. rewrite Hf. reflexivity. }
      simpl. rewrite Hg. split.
      * subst name. rewrite <- Hmail. destruct g; reflexivity.
      * split; [|apply loginAll_same_guest; assumption].
        repeat split; auto. intros N. contradiction.
    + rewrite (findOrCreateGuest_found_renamed w email name g); auto.
      simpl.
      assert (Hg1 : guestByEmail email
                      (setGuests (db w)
                         (map (fun x => if Guest.id x =? Guest.id g
                                        then Guest.setName x name else x) (guests (db w)))
                         (nextGuestId (db w)))
                    = Some (Guest.mk (Guest.id g) name email)).
      { unfold guestByEmail. simpl. rewrite (guestByEmail_rename email name g _ Hg).
        unfold Guest.setName. rewrite Hmail. reflexivity. }
      split; [exact Hg1|]. split.
      * repeat split; auto. intros E. contradiction.
      * apply (loginAll_same_guest email later _ (Guest.mk (Guest.id g) name email));
          [exact Hf | exact Hg1].
  - exists (nextGuestId (db w)).
    rewrite (findOrCreateGuest_created w email name Hf Hg). simpl.
    assert (Hg1 : guestByEmail email
                    (setGuests (db w)
                       (guests (db w) ++ [Guest.mk (nextGuestId (db w)) name email])
                       (nextGuestId (db w) + 1))
                  = Some (Guest.mk (nextGuestId (db w)) name email)).
    { unfold guestByEmail. simpl. apply find_app_None; [exact Hg|].
      simpl. apply String.eqb_refl. }
    split; [exact Hg1|]. split; [auto|].
    apply (loginAll_same_guest email later _ (Guest.mk (nextGuestId (db w)) name email));
      [exact Hf | exact Hg1].
Qed.

Lemma findOrCreateGuest_upsert_witness :
  let w := sampleWorld in
  let r1 := fst (findOrCreateGuest "g@x.com" "Alicia" w) in
  let w1 := snd (findOrCreateGuest "g@x.com" "Alicia" w) in
  exists gid,
    guestByEmail "g@x.com" (db w1) = Some (Guest.mk gid "Alicia" "g@x.com")
    /\ match guestByEmail "g@x.com" (db w) with
       | None =>
           r1 = Normal (GuestResult.mk true (Some gid) "Guest created successfully")
           /\ gid = nextGuestId (db w)
           /\ guests (db w1) = guests (db w) ++ [Guest.mk gid "Alicia" "g@x.com"]
       | Some g =>
           r1 = Normal (GuestResult.mk true (Some gid) "Guest found")
           /\ gid = Guest.id g
           /\ ("Alicia" = Guest.name g -> w1 = w)
           /\ ("Alicia" <> Guest.name g ->
               guests (db w1)
               = map (fun x => if Guest.id x =? gid then Guest.setName x "Alicia" else x)
                   (guests (db w)))
       end
    /\ Forall (fun r => r = Normal (GuestResult.mk true (Some gid) "Guest found"))
         (fst (loginAll "g@x.com" ["Alice"; "Al"] w1)).
Proof.
  apply (findOrCreateGuest_upsert sampleWorld "g@x.com" "Alicia" ["Alice"; "Al"]).
  - reflexivity.
  - discriminate.
Defined.

(** The scenario of the guest login: created as Alice, found and
    renamed as Alicia under the same id. *)
Example guest_login_scenario :
  let w0 := mkWorld (mkDb [] [] [] [] 1 1) 0 [] (fun _ => 0) 0 [] utc in
  let '(r1, w1) := findOrCreateGuest "g@x.com" "Alice" w0 in
  let '(r2, w2) := findOrCreateGuest "g@x.com" "Alicia" w1 in
  r1 = Normal (GuestResult.mk true (Some 1) "Guest created successfully")
  /\ r2 = Normal (GuestResult.mk true (Some 1) "Guest found")
  /\ guests (db w2) = [Guest.mk 1 "Alicia" "g@x.com"].
Proof. repeat split; reflexivity. Qed.

(** ** Hotel access predicates *)

Lemma find_by_key_unique {A} (key : A -> Z) (k : Z) (l : list A) (a : A) :
  NoDup (map key l) -> In a l -> key a = k ->
  find (fun x => key x =? k) l = Some a.
Proof.
  induction l as [|b l IH]; simpl; intros Hnd Hin Hk; [contradiction|].
  inversion Hnd as [|? ? Hnotin Hnd']; subst.
  destruct Hin as [-> | Hin].
  - rewrite Z.eqb_refl. reflexivity.
  - destruct (key b =? key a) eqn:E.
    + exfalso. apply Hnotin. apply Z.eqb_eq in E. rewrite E.
      apply in_map. exact Hin.
    + auto.
Qed.

Lemma verifyAdminHotelAccess_run (w : World) (adminId hotelId : Z) :
  fst (verifyAdminHotelAccess adminId hotelId w)
  = Normal (if faulty AdminFindUnique w then false
            else match find (fun a => Admin.id a =? adminId) (admins (db w)) with
                 | Some a => Admin.hotelId a =? hotelId
                 | None => false
                 end).
Proof.
  unfold verifyAdminHotelAccess, tryCatch, bind, ret, prisma_admin.findUnique_id, prisma.
  destruct (faulty AdminFindUnique w); reflexivity.
Qed.

Lemma verifyGuestHotelAccess_run (w : World) (guestId hotelId : Z) :
  fst (verifyGuestHotelAccess guestId hotelId w)
  = Normal (if faulty OrderFindFirst w then false
            else existsb (fun o => (Order.guestId o =? guestId) && (Order.hotelId o =? hotelId))
                   (orders (db w))).
Proof.
  unfold verifyGuestHotelAccess, tryCatch, bind, ret, prisma_order.findFirst, prisma.
  destruct (faulty OrderFindFirst w); [reflexivity|]. simpl.
  induction (orders (db w)) as [|o os IH]; simpl; [reflexivity|].
  destruct ((Order.guestId o =? guestId) && (Order.hotelId o =? hotelId)); auto.
Qed.

(** C10. The hotel-access predicates fail closed.  Both always return a
    boolean and never throw.  While the repository answers,
    [verifyAdminHotelAccess] is true exactly when an admin with that id
    is stored with that hotel id, and [verifyGuestHotelAccess] is true
    exactly when an order of that guest at that hotel is stored.  When
    the repository call rejects, both are false. *)
Theorem hotel_access_fails_closed (w : World) (adminId guestId hotelId : Z) :
  NoDup (map Admin.id (admins (db w))) ->
  exists ba bg : bool,
    fst (verifyAdminHotelAccess adminId hotelId w) = Normal ba
    /\ fst (verifyGuestHotelAccess guestId hotelId w) = Normal bg
    /\ (faulty AdminFindUnique w = false ->
        (ba = true <->
         exists a, In a (admins (db w))
                   /\ Admin.id a = adminId /\ Admin.hotelId a = hotelId))
    /\ (faulty OrderFindFirst w = false ->
        (bg = true <->
         exists o, In o (orders (db w))
                   /\ Order.guestId o = guestId /\ Order.hotelId o = hotelId))
    /\ (faulty AdminFindUnique w = true -> ba = false)
    /\ (faulty OrderFindFirst w = true -> bg = false).
Proof.
  intros Hnd.
  rewrite verifyAdminHotelAccess_run, verifyGuestHotelAccess_run.
  eexists. eexists. split; [reflexivity|]. split; [reflexivity|].
  repeat split.
  - rewrite H. intros Hb.
    destruct (find (fun a => Admin.id a =? adminId) (admins (db w))) as [a|] eqn:E;
      [|discriminate].
    apply find_some in E as [Hin Hid]. exists a.
    apply Z.eqb_eq in Hid. apply Z.eqb_eq in Hb. auto.
  - rewrite H. intros [a [Hin [Hid Hh]]].
    rewrite (find_by_key_unique Admin.id adminId _ a Hnd Hin Hid).
    apply Z.eqb_eq. exact Hh.
  - rewrite H. intros Hb. apply existsb_exists in Hb as [o [Hin Ho]].
    apply andb_true_iff in Ho as [Hg Hh].
    apply Z.eqb_eq in Hg. apply Z.eqb_eq in Hh. eauto.
  - rewrite H. intros [o [Hin [Hg Hh]]]. apply existsb_exists. exists o.
    split; [exact Hin|]. apply andb_true_iff. split; apply Z.eqb_eq; assumption.
  - intros ->. reflexivity.
  - intros ->. reflexivity.
Qed.

Lemma hotel_access_fails_closed_witness :
  exists ba bg : bool,
    fst (verifyAdminHotelAccess 1 7 sampleWorld) = Normal ba
    /\ fst (verifyGuestHotelAccess 1 7 sampleWorld) = Normal bg
    /\ (faulty AdminFindUnique sampleWorld = false ->
        (ba = true <->
         exists a, In a (admins (db sampleWorld))
                   /\ Admin.id a = 1 /\ Admin.hotelId a = 7))
    /\ (faulty OrderFindFirst sampleWorld = false ->
        (bg = true <->
         exists o, In o (orders (db sampleWorld))
                   /\ Order.guestId o = 1 /\ Order.hotelId o = 7))
    /\ (faulty AdminFindUnique sampleWorld = true -> ba = false)
    /\ (faulty OrderFindFirst sampleWorld = true -> bg = false).
Proof.
  apply (hotel_access_fails_closed sampleWorld 1 1 7).
  simpl. constructor; [intros [] | constructor].
Defined.

Example access_granted_and_denied :
  fst (verifyAdminHotelAccess 1 7 sampleWorld) = Normal true
  /\ fst (verifyAdminHotelAccess 1 8 sampleWorld) = Normal false
  /\ fst (verifyAdminHotelAccess 2 7 sampleWorld) = Normal false
  /\ fst (verifyGuestHotelAccess 1 7 sampleWorld) = Normal true
  /\ fst (verifyGuestHotelAccess 1 8 sampleWorld) = Normal false
  /\ fst (verifyAdminHotelAccess 1 7
            (mkWorld sampleDb 1000 [AdminFindUnique] (fun _ => 0) 0 [] utc)) = Normal false
  /\ fst (verifyGuestHotelAccess 1 7
            (mkWorld sampleDb 1000 [OrderFindFirst] (fun _ => 0) 0 [] utc)) = Normal false.
Proof. repeat split; reflexivity. Qed.

(** ** Passcodes *)

Example toString_samples :
  Number_toString 0 = "0" /\ Number_toString 7 = "7"
  /\ Number_toString 100000 = "100000" /\ Number_toString 999998 = "999998"
  /\ Number_toString (-42) = "-42"
  /\ Number_toString (2 ^ 53) = "9007199254740992"
  /\ Number_toString (2 ^ 60) = "1152921504606847000"
  /\ Number_toString (10 ^ 21) = "1e+21"
  /\ Number_toString (- 2 ^ 70) = "-1.1805916207174113e+21".
Proof. vm_compute. repeat split. Qed.

Example parseInt_samples :
  parseInt "7" = Finite 7 /\ parseInt "  42abc" = Finite 42 /\ parseInt "abc" = NaN
  /\ parseInt "-15" = Finite (-15) /\ parseInt "" = NaN /\ parseInt "0" = Finite 0
  /\ parseInt "7.9" = Finite 7 /\ parseInt "+3" = Finite 3 /\ parseInt "-" = NaN
  /\ parseInt "1e+21" = Finite 1
  /\ parseInt "9007199254740993" = Finite 9007199254740992
  /\ parseInt (decimal (10 ^ 309)) = Infinity false.
Proof. vm_compute. repeat split. Qed.

(** White space beyond ASCII is skipped as well: U+00A0 and U+2003
    before the numeral, here in UTF-8. *)
Example parseInt_skips_white_space :
  parseInt (String (ascii_of_nat 194) (String (ascii_of_nat 160) "7")) = Finite 7
  /\ parseInt (String (ascii_of_nat 226) (String (ascii_of_nat 128)
                 (String (ascii_of_nat 131) " 15"))) = Finite 15
  /\ parseInt (String (ascii_of_nat 195) (String (ascii_of_nat 160) "7")) = NaN.
Proof. repeat split; reflexivity. Qed.

Example roundToNumber_samples :
  roundToNumber (2 ^ 53 + 1) = Finite (2 ^ 53)
  /\ roundToNumber (2 ^ 53 + 3) = Finite (2 ^ 53 + 4)
  /\ roundToNumber (- (2 ^ 54 + 2)) = Finite (- 2 ^ 54)
  /\ roundToNumber (2 ^ 1024 - 2 ^ 970 - 1) = Finite (2 ^ 1024 - 2 ^ 971)
  /\ roundToNumber (2 ^ 1024 - 2 ^ 970) = Infinity false.
Proof. vm_compute. repeat split. Qed.

Example createAdminVerification_sample :
  fst (createAdminVerification 1 10 sampleWorld)
  = Normal (MFAVerificationResult.mk true (Some "123456") (Some 601000)
              "MFA passcode generated successfully").
Proof. reflexivity. Qed.

Lemma randomInt_of_range (min max x : Z) :
  min < max -> min <= randomInt_of min max x < max.
Proof.
  intros H. unfold randomInt_of.
  pose proof (Z.mod_pos_bound x (max - min)). lia.
Qed.

Lemma digitChar_spec (d : Z) :
  0 <= d < 10 ->
  isDigit (digitChar d) = true /\ digitValue (digitChar d) = d
  /\ isStrWhiteSpace (digitChar d) = false.
Proof.
  intros H.
  assert (C : d = 0 \/ d = 1 \/ d = 2 \/ d = 3 \/ d = 4 \/ d = 5 \/ d = 6
              \/ d = 7 \/ d = 8 \/ d = 9) by lia.
  repeat (destruct C as [-> | C]); try subst d; repeat split; reflexivity.
Qed.

Lemma roundToNumber_safe (n : Z) : Z.abs n <= 2 ^ 53 -> roundToNumber n = Finite n.
Proof.
  intros H. unfold roundToNumber. cbv zeta.
  replace (Z.abs n <=? 2 ^ 53) with true by (symmetry; apply Z.leb_le; exact H).
  reflexivity.
Qed.

Lemma Number_toString_safe (n : Z) : Z.abs n <= 2 ^ 53 -> Number_toString n = decimal n.
Proof.
  intros H. unfold Number_toString.
  replace (Z.abs n <=? 2 ^ 53) with true by (symmetry; apply Z.leb_le; exact H).
  reflexivity.
Qed.

Lemma parseInt_digit_first (d : Z) (rest : string) :
  0 <= d < 10 ->
  parseInt (String (digitChar d) rest)
  = numberOf false (parseDigits (String (digitChar d) rest) None).
Proof.
  intros H.
  assert (C : d = 0 \/ d = 1 \/ d = 2 \/ d = 3 \/ d = 4 \/ d = 5 \/ d = 6
              \/ d = 7 \/ d = 8 \/ d = 9) by lia.
  repeat (destruct C as [-> | C]); try subst d; reflexivity.
Qed.

(** The numeral of a six-digit number, digit by digit. *)
Lemma Number_toString_six (n : Z) :
  100000 <= n <= 999999 ->
  Number_toString n
  = String (digitChar (n / 100000 mod 10))
      (String (digitChar (n / 10000 mod 10))
         (String (digitChar (n / 1000 mod 10))
            (String (digitChar (n / 100 mod 10))
               (String (digitChar (n / 10 mod 10))
                  (String (digitChar (n mod 10)) EmptyString))))).
Proof.
  intros H. rewrite Number_toString_safe by lia. unfold decimal.
  replace (n <? 0) with false by (symmetry; apply Z.ltb_ge; lia).
  assert (L : 16 <= Z.log2 n).
  { change 16 with (Z.log2 65536). apply Z.log2_le_mono. lia. }
  assert (K : exists k, Z.to_nat (Z.log2 n) = (5 + k)%nat).
  { exists (Z.to_nat (Z.log2 n) - 5)%nat. lia. }
  destruct K as [k ->].
  cbn [digitsOf Nat.add].
  assert (E1 : n / 10 / 10 = n / 100) by (rewrite Z.div_div by lia; reflexivity).
  assert (E2 : n / 100 / 10 = n / 1000) by (rewrite Z.div_div by lia; reflexivity).
  assert (E3 : n / 1000 / 10 = n / 10000) by (rewrite Z.div_div by lia; reflexivity).
  assert (E4 : n / 10000 / 10 = n / 100000) by (rewrite Z.div_div by lia; reflexivity).
  replace (n / 10 =? 0) with false by (symmetry; apply Z.eqb_neq; Z.div_mod_to_equations; lia).
  rewrite E1.
  replace (n / 100 =? 0) with false by (symmetry; apply Z.eqb_neq; Z.div_mod_to_equations; lia).
  rewrite E2.
  replace (n / 1000 =? 0) with false by (symmetry; apply Z.eqb_neq; Z.div_mod_to_equations; lia).
  rewrite E3.
  replace (n / 10000 =? 0) with false by (symmetry; apply Z.eqb_neq; Z.div_mod_to_equations; lia).
  rewrite E4.
  replace (n / 100000 =? 0) with false by (symmetry; apply Z.eqb_neq; Z.div_mod_to_equations; lia).
  replace (n / 100000 / 10 =? 0) with true by (symmetry; apply Z.eqb_eq; Z.div_mod_to_equations; lia).
  reflexivity.
Qed.

Lemma Number_toString_sixDigits (n : Z) :
  100000 <= n <= 999999 -> sixDigits (Number_toString n) = true.
Proof.
  intros H. rewrite (Number_toString_six n H). unfold sixDigits.
  repeat (rewrite (proj1 (digitChar_spec _ (Z.mod_pos_bound _ 10 eq_refl)))).
  reflexivity.
Qed.

Lemma parseInt_Number_toString_six (n : Z) :
  100000 <= n <= 999999 -> parseInt (Number_toString n) = Finite n.
Proof.
  intros H. rewrite (Number_toString_six n H).
  rewrite parseInt_digit_first by (apply Z.mod_pos_bound; lia).
  cbn [parseDigits].
  repeat (rewrite (proj1 (digitChar_spec _ (Z.mod_pos_bound _ 10 eq_refl)))).
  repeat (rewrite (proj1 (proj2 (digitChar_spec _ (Z.mod_pos_bound _ 10 eq_refl))))).
  unfold numberOf. rewrite roundToNumber_safe by (Z.div_mod_to_equations; lia).
  f_equal. Z.div_mod_to_equations. lia.
Qed.

Lemma generatePasscode_run (w : World) :
  fst (generatePasscode w)
  = Normal (Number_toString (randomInt_of 100000 999999 (entropy w (drawn w)))).
Proof. reflexivity. Qed.

(** Every number from 100000 to 999998 is the passcode of some draw. *)
Lemma generatePasscode_reaches (n : Z) :
  100000 <= n <= 999998 ->
  fst (generatePasscode (mkWorld sampleDb 0 [] (fun _ => n - 100000) 0 [] utc))
  = Normal (Number_toString n).
Proof.
  intros H. rewrite generatePasscode_run. simpl. unfold randomInt_of.
  rewrite Z.mod_small by lia. f_equal. f_equal. lia.
Qed.

(** C2 (the code departs from the claim).  Every passcode is the
    six-digit numeral of a number from 100000 to 999998: the upper bound
    of [crypto.randomInt] is exclusive, so the passcode 999999 of the
    claimed range is never produced. *)
Theorem generatePasscode_never_999999 (w : World) :
  exists n,
    fst (generatePasscode w) = Normal (Number_toString n)
    /\ 100000 <= n <= 999998
    /\ sixDigits (Number_toString n) = true
    /\ parseInt (Number_toString n) = Finite n
    /\ fst (generatePasscode w) <> Normal "999999".
Proof.
  exists (randomInt_of 100000 999999 (entropy w (drawn w))).
  pose proof (randomInt_of_range 100000 999999 (entropy w (drawn w)) eq_refl) as R.
  set (n := randomInt_of 100000 999999 (entropy w (drawn w))) in *.
  assert (P : parseInt (Number_toString n) = Finite n)
    by (apply parseInt_Number_toString_six; lia).
  rewrite generatePasscode_run. fold n.
  split; [reflexivity|]. split; [lia|].
  split; [apply Number_toString_sixDigits; lia|].
  split; [exact P|].
  intros E. injection E as E. rewrite E in P.
  change (parseInt "999999") with (Finite 999999) in P.
  injection P as P. lia.
Qed.

(** A successful [createAdminVerification] hands out the passcode drawn
    by [generatePasscode]. *)
Lemma createAdminVerification_passcode
  (w : World) (adminId minutes : Z) (r : MFAVerificationResult.t) :
  fst (createAdminVerification adminId minutes w) = Normal r ->
  MFAVerificationResult.success r = true ->
  exists n, MFAVerificationResult.passcode r = Some (Number_toString n)
            /\ 100000 <= n <= 999998
            /\ sixDigits (Number_toString n) = true.
Proof.
  unfold createAdminVerification, createVerificationRow, tryCatch, bind, ret, throw,
    newDate, systemTimeZone, console_error.
  destruct (prisma_admin.findUnique_id adminId w) as [[[a|]|e] w1]; simpl;
    try (intros [= <-]; discriminate).
  pose proof (randomInt_of_range 100000 999999 (entropy w1 (drawn w1)) eq_refl) as R.
  destruct (expiryDate (timeZone w1) (now w1) minutes) as [expiresAt|];
    [|intros [= <-]; discriminate].
  match goal with
  | |- context [prisma_adminVerification.create ?a ?p ?e ?u ?c ?w'] =>
      destruct (prisma_adminVerification.create a p e u c w') as [[v|err] w2]
  end; simpl; intros [= <-]; try discriminate.
  intros _. simpl. eexists. split; [reflexivity|].
  split; [lia | apply Number_toString_sixDigits; lia].
Qed.

(** ** Token verification and the access guard *)

Example authenticate_samples :
  fst (authenticateAdmin sampleJwt sampleEnv (bearer "admin-1") sampleWorld)
  = Normal (Request.setAdmin (bearer "admin-1")
              (AdminPrincipal.mk 1 7 "a@hotel.com" 1 "Ann" "555") 7, Next)
  /\ fst (authenticateAdmin sampleJwt sampleEnv (bearer "admin-99") sampleWorld)
     = Normal (bearer "admin-99", Responded 401 "Admin not found")
  /\ fst (authenticateAdmin sampleJwt sampleEnv (bearer "guest-1") sampleWorld)
     = Normal (bearer "guest-1", Responded 401 "Invalid token or not an admin token")
  /\ fst (authenticateGuest sampleJwt sampleEnv (bearer "guest-99") sampleWorld)
     = Normal (bearer "guest-99", Responded 401 "Guest not found")
  /\ fst (authenticateGuest sampleJwt sampleEnv (bearer "") sampleWorld)
     = Normal (bearer "", Responded 401 "Authentication required").
Proof. repeat split; reflexivity. Qed.

(** What [verifyToken] prints: the two subclass tests come after the
    test for their superclass, so an expired token is reported through
    the first branch. *)
Example verifyToken_samples :
  verifyToken sampleJwt sampleEnv "guest-1" sampleWorld
  = (Normal (Some (GuestAuthPayload 1 "g@x.com")), sampleWorld)
  /\ fst (verifyToken sampleJwt sampleEnv "garbage" sampleWorld) = Normal None
  /\ fst (verifyToken sampleJwt sampleEnv "stale" sampleWorld) = Normal None
  /\ console (snd (verifyToken sampleJwt sampleEnv "stale" sampleWorld))
     = ["JWT verification error:"].
Proof. repeat split; reflexivity. Qed.

Example hotel_scoping_samples :
  requestedHotelId (asGuest (JsString "7") (JsNumber (Finite 8)) (JsString "9"))
  = Normal (Some (Finite 7))
  /\ requestedHotelId (asGuest JsUndefined (JsNumber (Finite 8)) (JsString "9"))
     = Normal (Some (Finite 8))
  /\ requestedHotelId (asGuest JsUndefined JsUndefined (JsString "9"))
     = Normal (Some (Finite 9))
  /\ requestedHotelId (asGuest (JsString "abc") (JsNumber (Finite 8)) JsUndefined)
     = Normal (Some NaN)
  /\ requestedHotelId (asGuest JsUndefined (JsFraction "1.5") JsUndefined)
     = Normal (Some (Finite 1))
  /\ requestedHotelId (asGuest JsUndefined (JsNumber (Finite (10 ^ 21))) JsUndefined)
     = Normal (Some (Finite 1))
  /\ requestedHotelId (asGuest JsUndefined (JsObject (Some "7,8")) JsUndefined)
     = Normal (Some (Finite 7))
  /\ requestedHotelId (asGuest JsUndefined (JsObject None) JsUndefined)
     = Throw (OtherError "TypeError")
  /\ requestedHotelId (withoutBody (asGuest JsUndefined JsUndefined (JsString "9")))
     = Throw (OtherError "TypeError")
  /\ requestedHotelId (withoutBody (asGuest (JsString "7") JsUndefined JsUndefined))
     = Normal (Some (Finite 7))
  /\ fst (authorizeGuestHotel (asGuest (JsString "7") JsUndefined JsUndefined) sampleWorld)
     = Normal (Request.setHotelId (asGuest (JsString "7") JsUndefined JsUndefined)
                 (Finite 7), Next)
  /\ fst (authorizeGuestHotel (asGuest (JsString "8") JsUndefined JsUndefined) sampleWorld)
     = Normal (asGuest (JsString "8") JsUndefined JsUndefined,
               Responded 403 "Access denied to this hotel")
  /\ fst (authorizeGuestHotel (asGuest (JsString "abc") JsUndefined JsUndefined) sampleWorld)
     = Normal (asGuest (JsString "abc") JsUndefined JsUndefined,
               Responded 400 "Hotel ID required")
  /\ fst (authorizeAdminHotel (asAdmin JsUndefined JsUndefined JsUndefined) sampleWorld)
     = Normal (Request.setHotelId (asAdmin JsUndefined JsUndefined JsUndefined)
                 (Finite 7), Next)
  /\ fst (authorizeAdminHotel (asAdmin (JsString "8") JsUndefined JsUndefined) sampleWorld)
     = Normal (asAdmin (JsString "8") JsUndefined JsUndefined,
               Responded 403 "Access denied to this hotel")
  /\ fst (authorizeAdminHotel
            (asAdmin (JsString (decimal (10 ^ 309))) JsUndefined JsUndefined) sampleWorld)
     = Normal (asAdmin (JsString (decimal (10 ^ 309))) JsUndefined JsUndefined,
               Responded 403 "Access denied to this hotel").
Proof. vm_compute. repeat split. Qed.

Lemma verifyToken_run (jwt : Jsonwebtoken) (env : ProcessEnv) (token : string) (w : World) :
  fst (verifyToken jwt env token w)
  = Normal (match jwt_verify jwt token (JWT_SECRET env) "zapmenu" (now w) with
            | Normal payload => Some payload
            | Throw _ => None
            end)
  /\ db (snd (verifyToken jwt env token w)) = db w
  /\ faults (snd (verifyToken jwt env token w)) = faults w.
Proof.
  unfold verifyToken, tryCatch, bind, ret.
  destruct (jwt_verify jwt token (JWT_SECRET env) "zapmenu" (now w)) as [p|e].
  - auto.
  - destruct e; simpl; auto.
Qed.

(** C6. [verifyToken] is total as a nullable result: whatever the
    token, it completes normally; it returns the payload that
    [jwt.verify] (signature, issuer "zapmenu", expiry) returned, and
    [null] whenever [jwt.verify] threw, whatever was thrown. *)
Theorem verifyToken_nullable_result
  (jwt : Jsonwebtoken) (env : ProcessEnv) (token : string) (w : World) :
  match jwt_verify jwt token (JWT_SECRET env) "zapmenu" (now w) with
  | Normal payload => fst (verifyToken jwt env token w) = Normal (Some payload)
  | Throw _ => fst (verifyToken jwt env token w) = Normal None
  end.
Proof.
  destruct (verifyToken_run jwt env token w) as [R _].
  destruct (jwt_verify jwt token (JWT_SECRET env) "zapmenu" (now w)); exact R.
Qed.

Lemma getAdminById_absent (w : World) (adminId : Z) :
  (forall a, In a (admins (db w)) -> Admin.id a <> adminId) ->
  fst (getAdminById adminId w) = Normal None.
Proof.
  intros Habs. unfold getAdminById, tryCatch, bind, ret, prisma_admin.findUnique_id, prisma.
  destruct (faulty AdminFindUnique w); [reflexivity|]. simpl.
  destruct (find (fun a => Admin.id a =? adminId) (admins (db w))) as [a|] eqn:E;
    [|reflexivity].
  apply find_some in E as [Hin Hid]. apply Z.eqb_eq in Hid.
  exfalso. exact (Habs a Hin Hid).
Qed.

Lemma getGuestById_absent (w : World) (guestId : Z) :
  (forall g, In g (guests (db w)) -> Guest.id g <> guestId) ->
  fst (getGuestById guestId w) = Normal None.
Proof.
  intros Habs. unfold getGuestById, tryCatch, bind, ret, prisma_guest.findUnique_id, prisma.
  destruct (faulty GuestFindUnique w); [reflexivity|]. simpl.
  destruct (find (fun g => Guest.id g =? guestId) (guests (db w))) as [g|] eqn:E;
    [|reflexivity].
  apply find_some in E as [Hin Hid]. apply Z.eqb_eq in Hid.
  exfalso. exact (Habs g Hin Hid).
Qed.

(** C4. A token that [verifyToken] accepts as an admin (resp. guest)
    token, but whose [adminId] (resp. [guestId]) names no stored
    principal, is answered with 401 by [authenticateAdmin] (resp.
    [authenticateGuest]); the request is left as it was and [next] is
    not called. *)
Theorem access_guard_rejects_unknown_principal
  (jwt : Jsonwebtoken) (env : ProcessEnv) (req : Request.t) (w : World) (token : string) :
  extractTokenFromHeader (Request.authorization req) = Some token ->
  (forall adminId hotelId email,
      fst (verifyToken jwt env token w) = Normal (Some (AdminAuthPayload adminId hotelId email)) ->
      (forall a, In a (admins (db w)) -> Admin.id a <> adminId) ->
      exists msg,
        fst (authenticateAdmin jwt env req w) = Normal (req, Responded 401 msg)
        /\ (token <> "" -> msg = "Admin not found"))
  /\ (forall guestId email,
      fst (verifyToken jwt env token w) = Normal (Some (GuestAuthPayload guestId email)) ->
      (forall g, In g (guests (db w)) -> Guest.id g <> guestId) ->
      exists msg,
        fst (authenticateGuest jwt env req w) = Normal (req, Responded 401 msg)
        /\ (token <> "" -> msg = "Guest not found")).
Proof.
  intros Htok. split.
  - intros adminId hotelId email Hv Habs.
    unfold authenticateAdmin, tryCatch. rewrite Htok.
    destruct (truthyString token) eqn:Et; simpl.
    + unfold bind at 1. destruct (verifyToken_run jwt env token w) as [_ [Hdb _]].
      destruct (verifyToken jwt env token w) as [r w1]. simpl in Hv, Hdb. subst r.
      unfold bind.
      assert (Habs1 : forall a, In a (admins (db w1)) -> Admin.id a <> adminId)
        by (rewrite Hdb; exact Habs).
      pose proof (getAdminById_absent w1 adminId Habs1) as Hg.
      destruct (getAdminById adminId w1) as [g w2]. simpl in Hg. subst g.
      simpl. eauto.
    + exists "Authentication required". split; [reflexivity|].
      intros Hne. unfold truthyString in Et. apply negb_false_iff in Et.
      apply String.eqb_eq in Et. contradiction.
  - intros guestId email Hv Habs.
    unfold authenticateGuest, tryCatch. rewrite Htok.
    destruct (truthyString token) eqn:Et; simpl.
    + unfold bind at 1. destruct (verifyToken_run jwt env token w) as [_ [Hdb _]].
      destruct (verifyToken jwt env token w) as [r w1]. simpl in Hv, Hdb. subst r.
      unfold bind.
      assert (Habs1 : forall g, In g (guests (db w1)) -> Guest.id g <> guestId)
        by (rewrite Hdb; exact Habs).
      pose proof (getGuestById_absent w1 guestId Habs1) as Hg.
      destruct (getGuestById guestId w1) as [g w2]. simpl in Hg. subst g.
      simpl. eauto.
    + exists "Authentication required". split; [reflexivity|].
      intros Hne. unfold truthyString in Et. apply negb_false_iff in Et.
      apply String.eqb_eq in Et. contradiction.
Qed.

Lemma access_guard_rejects_unknown_principal_witness :
  (exists msg,
      fst (authenticateAdmin sampleJwt sampleEnv (bearer "admin-99") sampleWorld)
      = Normal (bearer "admin-99", Responded 401 msg)
      /\ ("admin-99" <> "" -> msg = "Admin not found"))
  /\ (exists msg,
      fst (authenticateGuest sampleJwt sampleEnv (bearer "guest-99") sampleWorld)
      = Normal (bearer "guest-99", Responded 401 msg)
      /\ ("guest-99" <> "" -> msg = "Guest not found")).
Proof.
  split.
  - apply (proj1 (access_guard_rejects_unknown_principal sampleJwt sampleEnv
                    (bearer "admin-99") sampleWorld "admin-99" eq_refl)
             99 7 "gone@hotel.com" eq_refl).
    intros a [<- | []]. discriminate.
  - apply (proj2 (access_guard_rejects_unknown_principal sampleJwt sampleEnv
                    (bearer "guest-99") sampleWorld "guest-99" eq_refl)
             99 "gone@x.com" eq_refl).
    intros g [<- | []]. discriminate.
Defined.

(** ** Token round trip *)

(** *** The model of the package meets the contract *)

Lemma charBit_bitChar (b : bool) : charBit (bitChar b) = Some b.
Proof. destruct b; reflexivity. Qed.

Lemma unarmor_armor (s : string) : unarmor (armor s) = Some s.
Proof.
  induction s as [|c s IH]; [reflexivity|].
  destruct c as [b0 b1 b2 b3 b4 b5 b6 b7]. cbn [armor unarmor].
  rewrite !charBit_bitChar, IH. reflexivity.
Qed.

Lemma armor_injective (s s' : string) : armor s = armor s' -> s = s'.
Proof.
  intros E. apply (f_equal unarmor) in E. rewrite !unarmor_armor in E.
  injection E as E. exact E.
Qed.

Lemma bitsOf_nonempty (p : positive) : exists c rest, bitsOf p = String c rest.
Proof. destruct p; simpl; eauto. Qed.

Lemma ofBits_bitsOf (p : positive) : ofBits (bitsOf p) = Some p.
Proof.
  induction p as [q IH | q IH |]; [| |reflexivity]; cbn [bitsOf];
    destruct (bitsOf_nonempty q) as [c [rest E]];
    rewrite E in *; cbn [ofBits] in *; rewrite IH; reflexivity.
Qed.

Lemma decodeZ_encodeZ (z : Z) : decodeZ (encodeZ z) = Some z.
Proof. destruct z as [|p|p]; simpl; [reflexivity | |]; rewrite ofBits_bitsOf; reflexivity. Qed.

(** A string without the separator is one segment, and stays one when
    characters other than the separator are put in front. *)
Lemma split_cons (sep c : ascii) (x : string) :
  Ascii.eqb c sep = false -> split sep x = [x] -> split sep (String c x) = [String c x].
Proof. intros Hc Hx. cbn [split]. rewrite Hc, Hx. reflexivity. Qed.

Lemma split_nonempty (sep : ascii) (s : string) : split sep s <> [].
Proof.
  destruct s as [|c s]; cbn [split]; [discriminate|].
  destruct (Ascii.eqb c sep); [discriminate|].
  destruct (split sep s); discriminate.
Qed.

Lemma split_one_head (sep c : ascii) (x : string) :
  split sep (String c x) = [String c x] -> Ascii.eqb c sep = false /\ split sep x = [x].
Proof.
  cbn [split]. destruct (Ascii.eqb c sep); [discriminate|].
  destruct (split sep x) as [|first others] eqn:E;
    [exfalso; exact (split_nonempty sep x E)|].
  intros [= -> ->]. split; reflexivity.
Qed.

Lemma split_append (sep : ascii) (x rest : string) :
  split sep x = [x] ->
  split sep (String.append x (String sep rest)) = x :: split sep rest.
Proof.
  induction x as [|c x IH]; intros Hx.
  - cbn [String.append split]. rewrite Ascii.eqb_refl. reflexivity.
  - apply split_one_head in Hx as [Hc Hx]. cbn [String.append split].
    rewrite Hc, (IH Hx). reflexivity.
Qed.

Lemma split_one_append (sep : ascii) (x y : string) :
  split sep x = [x] -> split sep y = [y] ->
  split sep (String.append x y) = [String.append x y].
Proof.
  induction x as [|c x IH]; intros Hx Hy; [exact Hy|].
  apply split_one_head in Hx as [Hc Hx]. cbn [String.append].
  apply split_cons; [exact Hc | apply IH; assumption].
Qed.

Lemma split_one_armor (sep : ascii) (s : string) :
  Ascii.eqb "0" sep = false -> Ascii.eqb "1" sep = false ->
  split sep (armor s) = [armor s].
Proof.
  intros H0 H1.
  assert (B : forall b, Ascii.eqb (bitChar b) sep = false) by (intros []; assumption).
  induction s as [|c s IH]; [reflexivity|].
  destruct c as [b0 b1 b2 b3 b4 b5 b6 b7]. cbn [armor].
  repeat (apply split_cons; [apply B|]). exact IH.
Qed.

Lemma split_one_bitsOf (sep : ascii) (p : positive) :
  Ascii.eqb "0" sep = false -> Ascii.eqb "1" sep = false ->
  split sep (bitsOf p) = [bitsOf p].
Proof.
  intros H0 H1. induction p as [q IH | q IH |]; cbn [bitsOf].
  - apply split_cons; assumption.
  - apply split_cons; assumption.
  - apply split_cons; [assumption | reflexivity].
Qed.

Lemma split_one_encodeZ (sep : ascii) (z : Z) :
  Ascii.eqb "0" sep = false -> Ascii.eqb "1" sep = false ->
  split sep (encodeZ z) = [encodeZ z].
Proof.
  intros H0 H1. destruct z as [|p|p]; cbn [encodeZ]; [reflexivity | |];
    (apply split_cons; [assumption | apply split_one_bitsOf; assumption]).
Qed.

Lemma decodeClaims_encodeClaims (payload : AuthPayload) (exp : Z) (iss : string) :
  decodeClaims (encodeClaims payload exp iss) = Some (payload, exp, iss).
Proof.
  assert (A : forall s, split "_" (armor s) = [armor s])
    by (intros s; apply split_one_armor; reflexivity).
  assert (Z : forall z, split "_" (encodeZ z) = [encodeZ z])
    by (intros z; apply split_one_encodeZ; reflexivity).
  unfold decodeClaims, encodeClaims.
  destruct payload as [adminId hotelId email | guestId email | type];
    cbn [app join];
    repeat (rewrite split_append by (first [apply A | apply Z | reflexivity]));
    rewrite A; rewrite ?decodeZ_encodeZ, ?unarmor_armor; reflexivity.
Qed.

Lemma encodeClaims_one_segment (payload : AuthPayload) (exp : Z) (iss : string) :
  split "." (encodeClaims payload exp iss) = [encodeClaims payload exp iss].
Proof.
  assert (A : forall s, split "." (armor s) = [armor s])
    by (intros s; apply split_one_armor; reflexivity).
  assert (Z : forall z, split "." (encodeZ z) = [encodeZ z])
    by (intros z; apply split_one_encodeZ; reflexivity).
  assert (S : forall x y, split "." x = [x] -> split "." y = [y] ->
                          split "." (String.append x (String "_" y))
                          = [String.append x (String "_" y)]).
  { intros x y Hx Hy. apply split_one_append; [exact Hx|].
    apply split_cons; [reflexivity | exact Hy]. }
  unfold encodeClaims.
  destruct payload as [adminId hotelId email | guestId email | type];
    cbn [app join];
    repeat (apply S; [first [apply A | apply Z | reflexivity]|]); apply A.
Qed.

(** The three segments of a signed token. *)
Lemma split_signed (claims signature : string) :
  split "." claims = [claims] -> split "." signature = [signature] ->
  split "." (String.append (signedPart hs256_header claims) (String "." signature))
  = [hs256_header; claims; signature].
Proof.
  intros Hc Hs. unfold signedPart.
  replace (String.append (String.append hs256_header (String "." claims))
             (String "." signature))
    with (String.append hs256_header
            (String "." (String.append claims (String "." signature)))).
  - rewrite split_append by reflexivity. rewrite split_append by exact Hc.
    rewrite Hs. reflexivity.
  - unfold hs256_header. cbn [String.append]. reflexivity.
Qed.

(** A change of one character changes the number of segments or
    exactly one segment. *)
Lemma split_changed (sep : ascii) (t t' : string) :
  oneCharChanged t t' ->
  List.length (split sep t) <> List.length (split sep t')
  \/ exists before x x' after,
       split sep t = before ++ x :: after
       /\ split sep t' = before ++ x' :: after
       /\ x <> x'.
Proof.
  induction 1 as [c c' rest Hc | c s s' Hs IH].
  - cbn [split].
    destruct (split sep rest) as [|first others] eqn:E;
      [exfalso; exact (split_nonempty sep rest E)|].
    destruct (Ascii.eqb c sep) eqn:E1; destruct (Ascii.eqb c' sep) eqn:E2.
    + apply Ascii.eqb_eq in E1, E2. congruence.
    + left. simpl. lia.
    + left. simpl. lia.
    + right. exists [], (String c first), (String c' first), others.
      repeat split. congruence.
  - cbn [split]. destruct (Ascii.eqb c sep).
    + destruct IH as [L | [before [x [x' [after [E [E' N]]]]]]].
      * left. simpl. lia.
      * right. exists (EmptyString :: before), x, x', after.
        rewrite E, E'. repeat split. exact N.
    + destruct IH as [L | [before [x [x' [after [E [E' N]]]]]]].
      * left.
        destruct (split sep s) eqn:S1; [exfalso; exact (split_nonempty sep s S1)|].
        destruct (split sep s') eqn:S2; [exfalso; exact (split_nonempty sep s' S2)|].
        simpl in *. lia.
      * right. rewrite E, E'. destruct before as [|b before]; cbn [app].
        -- exists [], (String c x), (String c x'), after. repeat split. congruence.
        -- exists (String c b :: before), x, x', after. repeat split. exact N.
Qed.

(** Of a token of three segments changed in one character. *)
Lemma three_segments_changed (t t' header claims signature : string) :
  oneCharChanged t t' ->
  split "." t = [header; claims; signature] ->
  (forall h c s, split "." t' <> [h; c; s])
  \/ (exists header', header' <> header /\ split "." t' = [header'; claims; signature])
  \/ (exists claims', claims' <> claims /\ split "." t' = [header; claims'; signature])
  \/ (exists signature', signature' <> signature
                         /\ split "." t' = [header; claims; signature']).
Proof.
  intros Hc Ht.
  destruct (split_changed "." t t' Hc) as [L | [before [x [x' [after [E [E' N]]]]]]].
  - left. intros h c s E. rewrite Ht, E in L. apply L. reflexivity.
  - right. rewrite Ht in E. rewrite E'.
    destruct before as [|b1 [|b2 [|b3 before]]]; cbn [app] in *.
    + injection E as -> ->. left. exists x'. split; [congruence | reflexivity].
    + injection E as -> -> ->. right. left. exists x'. split; [congruence | reflexivity].
    + injection E as -> -> -> <-. right. right. exists x'.
      split; [congruence | reflexivity].
    + injection E as _ _ _ E. destruct before; discriminate.
Qed.

(** With a message authentication code free of collisions the model
    meets the contract. *)
Lemma hs256_contract (mac : string -> string -> string) (ms : string -> option Z) :
  (forall key message message', mac key message = mac key message' -> message = message') ->
  Hs256Contract (hs256 mac ms) ms.
Proof.
  intros Hmac.
  assert (Signed : forall payload secret options t token,
             jwt_sign (hs256 mac ms) payload secret options t = Normal token ->
             exists span,
               ms (expiresIn options) = Some span
               /\ token
                  = String.append
                      (signedPart hs256_header
                         (encodeClaims payload (expiryOf t span) (issuer options)))
                      (String "."
                         (armor (mac secret
                                   (signedPart hs256_header
                                      (encodeClaims payload (expiryOf t span)
                                         (issuer options))))))).
  { intros payload secret options t token. cbn [jwt_sign hs256]. unfold hs256_sign.
    destruct (negb (truthyString secret)); [discriminate|].
    destruct (ms (expiresIn options)) as [span|]; [|discriminate].
    intros [= <-]. exists span. split; reflexivity. }
  assert (Segments : forall claims signature payload exp iss,
             claims = encodeClaims payload exp iss ->
             split "." (String.append (signedPart hs256_header claims)
                          (String "." (armor signature)))
             = [hs256_header; claims; armor signature]).
  { intros claims signature payload exp iss ->.
    apply split_signed; [apply encodeClaims_one_segment|].
    apply split_one_armor; reflexivity. }
  constructor.
  - intros payload secret options t Hs Hm. cbn [jwt_sign hs256]. unfold hs256_sign.
    rewrite Hs. cbn [negb].
    destruct (ms (expiresIn options)) as [span|]; [eauto | contradiction].
  - intros payload secret options t token span t' Hsign Hm Ht.
    destruct (Signed _ _ _ _ _ Hsign) as [span' [Hm' ->]].
    rewrite Hm in Hm'. injection Hm' as <-.
    cbn [jwt_verify hs256]. unfold hs256_verify.
    rewrite (Segments _ _ payload (expiryOf t span) (issuer options) eq_refl).
    rewrite String.eqb_refl. cbn [negb].
    rewrite decodeClaims_encodeClaims. rewrite String.eqb_refl. cbn [negb].
    replace (expiryOf t span <=? t' / 1000) with false
      by (symmetry; apply Z.leb_gt; exact Ht).
    rewrite String.eqb_refl. reflexivity.
  - intros payload secret options t token token' issuer' t' Hsign Hc.
    destruct (Signed _ _ _ _ _ Hsign) as [span [Hm ->]].
    set (claims := encodeClaims payload (expiryOf t span) (issuer options)) in *.
    pose proof (Segments claims (mac secret (signedPart hs256_header claims))
                  payload (expiryOf t span) (issuer options) eq_refl) as Hseg.
    cbn [jwt_verify hs256]. unfold hs256_verify.
    destruct (three_segments_changed _ token' _ _ _ Hc Hseg)
      as [None3 | [[h' [N E]] | [[c' [N E]] | [s' [N E]]]]].
    + destruct (split "." token') as [|h [|c [|s [|x rest]]]]; eauto.
      exfalso. exact (None3 h c s eq_refl).
    + rewrite E. replace (String.eqb h' hs256_header) with false
        by (symmetry; apply String.eqb_neq; exact N).
      cbn [negb]. eauto.
    + rewrite E. rewrite String.eqb_refl. cbn [negb].
      destruct (decodeClaims c') as [[[p x] i]|]; [|eauto].
      match goal with
      | |- context [String.eqb ?a ?b] => destruct (String.eqb a b) eqn:Ea
      end; [|cbn [negb]; eauto].
      exfalso. apply String.eqb_eq in Ea.
      apply armor_injective in Ea. apply Hmac in Ea.
      unfold signedPart, hs256_header in Ea. cbn [String.append] in Ea.
      apply N. congruence.
    + rewrite E. rewrite String.eqb_refl. cbn [negb].
      subst claims. rewrite decodeClaims_encodeClaims.
      match goal with
      | |- context [String.eqb ?a ?b] => destruct (String.eqb a b) eqn:Ea
      end; [|cbn [negb]; eauto].
      exfalso. apply String.eqb_eq in Ea. contradiction.
Qed.

Lemma append_same_head (key message message' : string) :
  String.append key message = String.append key message' -> message = message'.
Proof.
  induction key as [|c key IH]; cbn [String.append]; [auto|].
  intros [= E]. exact (IH E).
Qed.

Lemma sample_contract : Hs256Contract (hs256 sampleMac sampleMs) sampleMs.
Proof. apply hs256_contract. intros key. apply append_same_head. Qed.

(** C5. Round trip of an admin token, for a package that keeps the
    contract of HS256, and whatever the payload and the environment
    while the time span [JWT_EXPIRES_IN] can be read: [generateAdminToken]
    returns a token; [verifyToken], under any environment with the same
    secret and until the clock reaches the second of expiry, returns
    the payload of type "admin" with the same [adminId], [hotelId] and
    [email]; and it returns [null] for every token that differs from
    the minted one in one character. *)
Theorem token_round_trip
  (jwt : Jsonwebtoken) (ms : string -> option Z) (env : ProcessEnv)
  (adminId hotelId : Z) (email : string) (span : Z) (w : World) :
  Hs256Contract jwt ms ->
  ms (JWT_EXPIRES_IN env) = Some span ->
  exists token,
    fst (generateAdminToken jwt env adminId hotelId email w) = Normal token
    /\ (forall env' w',
          JWT_SECRET env' = JWT_SECRET env ->
          now w' / 1000 < expiryOf (now w) span ->
          fst (verifyToken jwt env' token w')
          = Normal (Some (AdminAuthPayload adminId hotelId email)))
    /\ (forall env' w' token',
          JWT_SECRET env' = JWT_SECRET env ->
          oneCharChanged token token' ->
          fst (verifyToken jwt env' token' w') = Normal None).
Proof.
  intros C Hms.
  assert (Hsecret : truthyString (JWT_SECRET env) = true).
  { unfold JWT_SECRET, envOr. destruct (env_JWT_SECRET env) as [s|]; [|reflexivity].
    destruct (truthyString s) eqn:E; [exact E | reflexivity]. }
  set (options := mkSignOptions (JWT_EXPIRES_IN env) "zapmenu"
                    (String.append "admin:" (Number_toString adminId))).
  destruct (sign_returns jwt ms C (AdminAuthPayload adminId hotelId email)
              (JWT_SECRET env) options (now w) Hsecret) as [token Hsign].
  { cbn [expiresIn options]. rewrite Hms. discriminate. }
  exists token. split; [exact Hsign|]. split.
  - intros env' w' Hs Ht. rewrite (proj1 (verifyToken_run jwt env' token w')). rewrite Hs.
    pose proof (verify_signed jwt ms C _ _ options (now w) token span (now w')
                  Hsign Hms Ht) as V.
    unfold options in V. cbn [issuer] in V. rewrite V. reflexivity.
  - intros env' w' token' Hs Hc. rewrite (proj1 (verifyToken_run jwt env' token' w')).
    rewrite Hs.
    destruct (verify_changed jwt ms C _ _ options (now w) token token' "zapmenu" (now w')
                Hsign Hc) as [e He].
    rewrite He. reflexivity.
Qed.

Lemma token_round_trip_witness :
  exists token,
    fst (generateAdminToken (hs256 sampleMac sampleMs) sampleEnv 1 7 "a@hotel.com" sampleWorld)
    = Normal token
    /\ (forall env' w',
          JWT_SECRET env' = JWT_SECRET sampleEnv ->
          now w' / 1000 < expiryOf (now sampleWorld) 604800000 ->
          fst (verifyToken (hs256 sampleMac sampleMs) env' token w')
          = Normal (Some (AdminAuthPayload 1 7 "a@hotel.com")))
    /\ (forall env' w' token',
          JWT_SECRET env' = JWT_SECRET sampleEnv ->
          oneCharChanged token token' ->
          fst (verifyToken (hs256 sampleMac sampleMs) env' token' w') = Normal None).
Proof.
  exact (token_round_trip (hs256 sampleMac sampleMs) sampleMs sampleEnv 1 7 "a@hotel.com"
           604800000 sampleWorld sample_contract eq_refl).
Defined.

(** In the model: a token is accepted until it expires, and refused
    under another secret, for another issuer, or with its last
    character changed. *)
Example token_samples :
  let jwt := hs256 sampleMac sampleMs in
  let signed secret issuer :=
    jwt_sign jwt (GuestAuthPayload 1 "g@x.com") secret
      (mkSignOptions "7d" issuer "guest:1") 1000 in
  match signed "k" "zapmenu" with
  | Normal token =>
      jwt_verify jwt token "k" "zapmenu" 604800999 = Normal (GuestAuthPayload 1 "g@x.com")
      /\ jwt_verify jwt token "k" "zapmenu" 604801000 = Throw (TokenExpiredError 604801000)
      /\ jwt_verify jwt token "other" "zapmenu" 1000
         = Throw (JsonWebTokenError "invalid signature")
      /\ jwt_verify jwt token "k" "other" 1000 = Throw (JsonWebTokenError "jwt issuer invalid")
      /\ jwt_verify jwt (String.append token "0") "k" "zapmenu" 1000
         = Throw (JsonWebTokenError "invalid signature")
      /\ jwt_verify jwt "a.b" "k" "zapmenu" 1000 = Throw (JsonWebTokenError "jwt malformed")
  | Throw _ => False
  end
  /\ signed "" "zapmenu" = Throw (OtherError "secretOrPrivateKey must have a value")
  /\ jwt_sign jwt (GuestAuthPayload 1 "g@x.com") "k" (mkSignOptions "soon" "zapmenu" "guest:1")
       1000
     = Throw (OtherError "expiresIn should be a time span").
Proof. vm_compute. repeat split; reflexivity. Qed.

(** ** Hotel scoping *)

Lemma adminHotelAccess_run (w : World) (adminId : Z) (hotelId : Number) :
  match hotelId with
  | Finite h => adminHotelAccess adminId hotelId w = verifyAdminHotelAccess adminId h w
  | _ => fst (adminHotelAccess adminId hotelId w) = Normal false
  end.
Proof.
  destruct hotelId as [|s|h]; [| |reflexivity];
    unfold adminHotelAccess, tryCatch, bind, ret, console_error;
    destruct (prisma_admin.findUnique_id adminId w) as [[a|e] w1]; reflexivity.
Qed.

Lemma guestHotelAccess_run (w : World) (guestId : Z) (hotelId : Number) :
  match hotelId with
  | Finite h => guestHotelAccess guestId hotelId w = verifyGuestHotelAccess guestId h w
  | _ => fst (guestHotelAccess guestId hotelId w) = Normal false
  end.
Proof. destruct hotelId as [|s|h]; reflexivity. Qed.

(** The admin guard once the hotel id has been read. *)
Lemma authorizeAdminHotel_run
  (req : Request.t) (w : World) (admin : AdminPrincipal.t) (hotelId : option Number) :
  Request.admin req = Some admin ->
  requestedHotelId req = Normal hotelId ->
  match orElse hotelId (AdminPrincipal.hotelId admin) with
  | Finite target =>
      exists hasAccess : bool,
        fst (verifyAdminHotelAccess (AdminPrincipal.adminId admin) target w)
        = Normal hasAccess
        /\ fst (authorizeAdminHotel req w)
           = Normal (if hasAccess then (Request.setHotelId req (Finite target), Next)
                     else (req, Responded 403 "Access denied to this hotel"))
  | _ =>
      fst (authorizeAdminHotel req w)
      = Normal (req, Responded 403 "Access denied to this hotel")
  end.
Proof.
  intros Ha Hr. unfold authorizeAdminHotel, tryCatch, bind, complete. rewrite Ha, Hr.
  pose proof (adminHotelAccess_run w (AdminPrincipal.adminId admin)
                (orElse hotelId (AdminPrincipal.hotelId admin))) as R.
  destruct (orElse hotelId (AdminPrincipal.hotelId admin)) as [|s|target].
  - destruct (adminHotelAccess _ _ w) as [[b|e] w1]; simpl in R; [|discriminate].
    injection R as ->. reflexivity.
  - destruct (adminHotelAccess _ _ w) as [[b|e] w1]; simpl in R; [|discriminate].
    injection R as ->. reflexivity.
  - rewrite R.
    pose proof (verifyAdminHotelAccess_run w (AdminPrincipal.adminId admin) target) as V.
    destruct (verifyAdminHotelAccess (AdminPrincipal.adminId admin) target w)
      as [[b|e] w1]; simpl in V; [|discriminate].
    exists b. split; [reflexivity|]. destruct b; reflexivity.
Qed.

(** The guest guard once the hotel id has been read. *)
Lemma authorizeGuestHotel_run
  (req : Request.t) (w : World) (guest : GuestPrincipal.t) (hotelId : option Number) :
  Request.guest req = Some guest ->
  requestedHotelId req = Normal hotelId ->
  match truthyHotelId hotelId with
  | None => fst (authorizeGuestHotel req w) = Normal (req, Responded 400 "Hotel ID required")
  | Some (Finite target) =>
      exists hasAccess : bool,
        fst (verifyGuestHotelAccess (GuestPrincipal.guestId guest) target w)
        = Normal hasAccess
        /\ fst (authorizeGuestHotel req w)
           = Normal (if hasAccess then (Request.setHotelId req (Finite target), Next)
                     else (req, Responded 403 "Access denied to this hotel"))
  | Some _ =>
      fst (authorizeGuestHotel req w)
      = Normal (req, Responded 403 "Access denied to this hotel")
  end.
Proof.
  intros Hg Hr. unfold authorizeGuestHotel, tryCatch, bind, complete. rewrite Hg, Hr.
  destruct (truthyHotelId hotelId) as [[|s|target]|]; try reflexivity.
  cbn [guestHotelAccess].
  pose proof (verifyGuestHotelAccess_run w (GuestPrincipal.guestId guest) target) as V.
  destruct (verifyGuestHotelAccess (GuestPrincipal.guestId guest) target w)
    as [[b|e] w1]; simpl in V; [|discriminate].
  exists b. split; [reflexivity|]. destruct b; reflexivity.
Qed.

(** Both guards when reading the hotel id throws. *)
Lemma authorize_hotel_throws (req : Request.t) (w : World) (e : JsError) :
  requestedHotelId req = Throw e ->
  (forall admin, Request.admin req = Some admin ->
     authorizeAdminHotel req w
     = (Normal (req, Responded 500 "Authorization failed"),
        snd (console_error "Hotel authorization error:" w)))
  /\ (forall guest, Request.guest req = Some guest ->
       authorizeGuestHotel req w
       = (Normal (req, Responded 500 "Authorization failed"),
          snd (console_error "Guest hotel authorization error:" w))).
Proof.
  intros Hr. split.
  - intros admin Ha. unfold authorizeAdminHotel, tryCatch, bind, complete.
    rewrite Ha, Hr. reflexivity.
  - intros guest Hg. unfold authorizeGuestHotel, tryCatch, bind, complete.
    rewrite Hg, Hr. reflexivity.
Qed.




(** * Further properties of the helpers *)

(** ** verifyAdminPasscode, case by case *)

Lemma newest_latest_from (rows : list AdminVerification.t) :
  forall b b',
    fold_left
      (fun best v =>
         match best with
         | None => Some v
         | Some b =>
             if AdminVerification.createdAt b <? AdminVerification.createdAt v
             then Some v else Some b
         end) rows (Some b) = Some b' ->
    AdminVerification.createdAt b <= AdminVerification.createdAt b'
    /\ forall x, In x rows ->
                 AdminVerification.createdAt x <= AdminVerification.createdAt b'.
Proof.
  induction rows as [|v rows IH]; intros b b' H; simpl in H.
  - injection H as <-. split; [lia | intros x []].
  - destruct (AdminVerification.createdAt b <? AdminVerification.createdAt v) eqn:E.
    + apply Z.ltb_lt in E. destruct (IH v b' H) as [H1 H2]. split; [lia|].
      intros x [<- | Hx]; auto.
    + apply Z.ltb_ge in E. destruct (IH b b' H) as [H1 H2]. split; [lia|].
      intros x [<- | Hx]; [lia | auto].
Qed.

Lemma newest_latest (rows : list AdminVerification.t) (v : AdminVerification.t) :
  prisma_adminVerification.newest rows = Some v ->
  forall x, In x rows -> AdminVerification.createdAt x <= AdminVerification.createdAt v.
Proof.
  unfold prisma_adminVerification.newest. destruct rows as [|r rows]; simpl.
  - discriminate.
  - intros H. destruct (newest_latest_from rows r v H) as [H1 H2].
    intros x [<- | Hx]; auto.
Qed.

(** Every run of [verifyAdminPasscode], under every fault plan. *)
Lemma verifyAdminPasscode_run (w : World) (email passcode : string) :
  let failed := Normal (VerifyPasscodeResult.mk false None None "Failed to verify passcode") in
  verifyAdminPasscode email passcode w
  = if faulty AdminFindUnique w then (failed, verifyLogged w)
    else
      match find (fun a => String.eqb (Admin.email a) email) (admins (db w)) with
      | None => (Normal (VerifyPasscodeResult.mk false None None "Admin not found"), w)
      | Some admin =>
          if faulty AdminVerificationFindFirst w then (failed, verifyLogged w)
          else
            match prisma_adminVerification.newest
                    (filter (prisma_adminVerification.unusedUnexpired
                               (Admin.id admin) passcode (now w))
                       (adminVerifications (db w))) with
            | None =>
                (Normal (VerifyPasscodeResult.mk false None None
                           "Invalid or expired passcode"), w)
            | Some v =>
                if faulty AdminVerificationUpdate w then (failed, verifyLogged w)
                else if faulty AdminVerificationDeleteMany w
                     then (failed, verifyLogged (markUsedWorld (AdminVerification.id v) w))
                     else
                       (Normal (VerifyPasscodeResult.mk true (Some (Admin.id admin))
                                  (Some (Admin.hotelId admin))
                                  "Passcode verified successfully"),
                        setDb w
                          (setVerifications (db w)
                             (afterMarkAndCleanup (AdminVerification.id v) (Admin.id admin)
                                (now w - 24 * 60 * 60 * 1000) (adminVerifications (db w)))
                             (nextVerificationId (db w))))
            end
      end.
Proof.
  intros failed. subst failed.
  unfold verifyAdminPasscode, tryCatch, bind, newDate, ret, verifyLogged,
    prisma_admin.findUnique_email, prisma_adminVerification.findFirst,
    prisma_adminVerification.update_used, prisma_adminVerification.deleteMany.
  destruct (faulty AdminFindUnique w) eqn:F1.
  { rewrite prisma_fault by exact F1. reflexivity. }
  rewrite prisma_not_faulty by exact F1. simpl. rewrite setDb_same.
  destruct (find (fun a => String.eqb (Admin.email a) email) (admins (db w)))
    as [admin|] eqn:Ha; [|reflexivity].
  destruct (faulty AdminVerificationFindFirst w) eqn:F2.
  { rewrite prisma_fault by exact F2. reflexivity. }
  rewrite prisma_not_faulty by exact F2. simpl. rewrite setDb_same.
  destruct (prisma_adminVerification.newest _) as [v|] eqn:Hv; [|reflexivity].
  assert (Hin : In v (adminVerifications (db w))).
  { apply newest_In in Hv. apply filter_In in Hv. tauto. }
  assert (Hex : existsb (fun x => AdminVerification.id x =? AdminVerification.id v)
                  (adminVerifications (db w)) = true).
  { apply existsb_exists. exists v. split; [exact Hin | apply Z.eqb_refl]. }
  destruct (faulty AdminVerificationUpdate w) eqn:F3.
  { rewrite prisma_fault by exact F3. reflexivity. }
  rewrite prisma_not_faulty by exact F3. simpl. rewrite Hex. simpl.
  destruct (faulty AdminVerificationDeleteMany w) eqn:F4.
  { rewrite prisma_fault by exact F4. reflexivity. }
  rewrite prisma_not_faulty by exact F4. simpl.
  destruct w as [d t f e n c]; destruct d; reflexivity.
Qed.

Lemma verify_success_holds
  (w : World) (email passcode : string) (r : VerifyPasscodeResult.t) :
  fst (verifyAdminPasscode email passcode w) = Normal r ->
  VerifyPasscodeResult.success r = true ->
  exists admin v,
    find (fun a => String.eqb (Admin.email a) email) (admins (db w)) = Some admin
    /\ r = VerifyPasscodeResult.mk true (Some (Admin.id admin))
             (Some (Admin.hotelId admin)) "Passcode verified successfully"
    /\ In v (adminVerifications (db w))
    /\ AdminVerification.adminId v = Admin.id admin
    /\ AdminVerification.passcode v = passcode
    /\ AdminVerification.used v = false
    /\ now w < AdminVerification.expiresAt v
    /\ (forall x, In x (adminVerifications (db w)) ->
                  prisma_adminVerification.unusedUnexpired
                    (Admin.id admin) passcode (now w) x = true ->
                  AdminVerification.createdAt x <= AdminVerification.createdAt v)
    /\ In (AdminVerification.setUsed v true)
         (adminVerifications (db (snd (verifyAdminPasscode email passcode w)))).
Proof.
  rewrite verifyAdminPasscode_run. cbv zeta.
  destruct (faulty AdminFindUnique w); [intros [= <-]; discriminate|].
  destruct (find _ (admins (db w))) as [admin|] eqn:Ha; [|intros [= <-]; discriminate].
  destruct (faulty AdminVerificationFindFirst w); [intros [= <-]; discriminate|].
  destruct (prisma_adminVerification.newest _) as [v|] eqn:Hv;
    [|intros [= <-]; discriminate].
  destruct (faulty AdminVerificationUpdate w); [intros [= <-]; discriminate|].
  destruct (faulty AdminVerificationDeleteMany w); [intros [= <-]; discriminate|].
  simpl. intros [= <-] _.
  pose proof (newest_In _ _ Hv) as Hin. apply filter_In in Hin as [Hin Hvalid].
  pose proof Hvalid as Hfields.
  unfold prisma_adminVerification.unusedUnexpired in Hfields.
  apply andb_true_iff in Hfields as [Hfields H4].
  apply andb_true_iff in Hfields as [Hfields H3].
  apply andb_true_iff in Hfields as [H1 H2].
  apply Z.eqb_eq in H1. apply String.eqb_eq in H2.
  apply negb_true_iff in H3. apply Z.ltb_lt in H4.
  exists admin, v. repeat split; auto.
  - intros x Hx Hxv. apply (newest_latest _ _ Hv). apply filter_In. auto.
  - apply afterMarkAndCleanup_keeps with (code := passcode) (t := now w);
      [lia | exact Hin | exact Hvalid].
Qed.

(** X1. [verifyAdminPasscode] reports success only for a passcode that
    was stored, unused and unexpired for the admin of that email; the
    record it consumes is the most recently created one of them, and it
    is left in the store marked used.  This holds under every fault
    plan. *)
Theorem verifyAdminPasscode_success_sound
  (w : World) (email passcode : string) (r : VerifyPasscodeResult.t) :
  fst (verifyAdminPasscode email passcode w) = Normal r ->
  VerifyPasscodeResult.success r = true ->
  exists admin v,
    find (fun a => String.eqb (Admin.email a) email) (admins (db w)) = Some admin
    /\ r = VerifyPasscodeResult.mk true (Some (Admin.id admin))
             (Some (Admin.hotelId admin)) "Passcode verified successfully"
    /\ In v (adminVerifications (db w))
    /\ AdminVerification.adminId v = Admin.id admin
    /\ AdminVerification.passcode v = passcode
    /\ AdminVerification.used v = false
    /\ now w < AdminVerification.expiresAt v
    /\ (forall x, In x (adminVerifications (db w)) ->
                  prisma_adminVerification.unusedUnexpired
                    (Admin.id admin) passcode (now w) x = true ->
                  AdminVerification.createdAt x <= AdminVerification.createdAt v)
    /\ In (AdminVerification.setUsed v true)
         (adminVerifications (db (snd (verifyAdminPasscode email passcode w)))).
Proof. intros. apply verify_success_holds; assumption. Qed.

Lemma verifyAdminPasscode_success_sound_witness :
  exists admin v,
    find (fun a => String.eqb (Admin.email a) "a@hotel.com") (admins (db sampleWorld))
    = Some admin
    /\ VerifyPasscodeResult.mk true (Some 1) (Some 7) "Passcode verified successfully"
       = VerifyPasscodeResult.mk true (Some (Admin.id admin))
           (Some (Admin.hotelId admin)) "Passcode verified successfully"
    /\ In v (adminVerifications (db sampleWorld))
    /\ AdminVerification.adminId v = Admin.id admin
    /\ AdminVerification.passcode v = "123456"
    /\ AdminVerification.used v = false
    /\ now sampleWorld < AdminVerification.expiresAt v
    /\ (forall x, In x (adminVerifications (db sampleWorld)) ->
                  prisma_adminVerification.unusedUnexpired
                    (Admin.id admin) "123456" (now sampleWorld) x = true ->
                  AdminVerification.createdAt x <= AdminVerification.createdAt v)
    /\ In (AdminVerification.setUsed v true)
         (adminVerifications
            (db (snd (verifyAdminPasscode "a@hotel.com" "123456" sampleWorld)))).
Proof.
  exact (verifyAdminPasscode_success_sound sampleWorld "a@hotel.com" "123456"
           (VerifyPasscodeResult.mk true (Some 1) (Some 7) "Passcode verified successfully")
           eq_refl eq_refl).
Defined.

(** X2. [verifyAdminPasscode] never throws, under any fault plan; and
    a call that does not report success leaves the store as it was,
    provided the clean-up query itself does not reject. *)
Theorem verifyAdminPasscode_failure_keeps_store
  (w : World) (email passcode : string) :
  exists r,
    fst (verifyAdminPasscode email passcode w) = Normal r
    /\ (faulty AdminVerificationDeleteMany w = false ->
        VerifyPasscodeResult.success r = false ->
        db (snd (verifyAdminPasscode email passcode w)) = db w).
Proof.
  rewrite verifyAdminPasscode_run. cbv zeta.
  destruct (faulty AdminFindUnique w); [eexists; split; reflexivity|].
  destruct (find _ (admins (db w))) as [admin|]; [|eexists; split; reflexivity].
  destruct (faulty AdminVerificationFindFirst w); [eexists; split; reflexivity|].
  destruct (prisma_adminVerification.newest _) as [v|]; [|eexists; split; reflexivity].
  destruct (faulty AdminVerificationUpdate w); [eexists; split; reflexivity|].
  destruct (faulty AdminVerificationDeleteMany w).
  - eexists. split; [reflexivity|]. discriminate.
  - eexists. split; [reflexivity|]. intros _. simpl. discriminate.
Qed.

Lemma verifyAdminPasscode_failure_keeps_store_witness :
  exists r,
    fst (verifyAdminPasscode "a@hotel.com" "000000" sampleWorld) = Normal r
    /\ (faulty AdminVerificationDeleteMany sampleWorld = false ->
        VerifyPasscodeResult.success r = false ->
        db (snd (verifyAdminPasscode "a@hotel.com" "000000" sampleWorld)) = db sampleWorld).
Proof.
  exact (verifyAdminPasscode_failure_keeps_store sampleWorld "a@hotel.com" "000000").
Defined.

(** X3. A passcode whose records for that admin are all used or expired
    is refused with "Invalid or expired passcode", whoever else holds
    the same passcode, and nothing is written. *)
Theorem verifyAdminPasscode_used_or_expired_refused
  (w : World) (email passcode : string) (admin : Admin.t) :
  faults w = [] ->
  find (fun a => String.eqb (Admin.email a) email) (admins (db w)) = Some admin ->
  (forall v, In v (adminVerifications (db w)) ->
             AdminVerification.adminId v = Admin.id admin ->
             AdminVerification.passcode v = passcode ->
             AdminVerification.used v = true
             \/ AdminVerification.expiresAt v <= now w) ->
  verifyAdminPasscode email passcode w
  = (Normal (VerifyPasscodeResult.mk false None None "Invalid or expired passcode"), w).
Proof.
  intros Hf Ha Hall. apply verifyAdminPasscode_no_match with (admin := admin); auto.
  destruct (filter _ (adminVerifications (db w))) as [|x xs] eqn:E; [reflexivity|].
  exfalso.
  assert (Hx : In x (x :: xs)) by (left; reflexivity).
  rewrite <- E in Hx. apply filter_In in Hx as [Hx Hvalid].
  unfold prisma_adminVerification.unusedUnexpired in Hvalid.
  apply andb_true_iff in Hvalid as [Hvalid H4].
  apply andb_true_iff in Hvalid as [Hvalid H3].
  apply andb_true_iff in Hvalid as [H1 H2].
  apply Z.eqb_eq in H1. apply String.eqb_eq in H2.
  apply negb_true_iff in H3. apply Z.ltb_lt in H4.
  destruct (Hall x Hx H1 H2) as [U | X]; [congruence | lia].
Qed.

Lemma verifyAdminPasscode_used_or_expired_refused_witness :
  verifyAdminPasscode "a@hotel.com" "123456" (advance 600000 sampleWorld)
  = (Normal (VerifyPasscodeResult.mk false None None "Invalid or expired passcode"),
     advance 600000 sampleWorld).
Proof.
  apply (verifyAdminPasscode_used_or_expired_refused (advance 600000 sampleWorld)
           "a@hotel.com" "123456" (Admin.mk 1 "Ann" "a@hotel.com" "555" 7)).
  - reflexivity.
  - reflexivity.
  - intros v [<- | []] _ _. right. simpl. lia.
Defined.

Lemma NoDup_key_inj {A} (key : A -> Z) (l : list A) (a b : A) :
  NoDup (map key l) -> In a l -> In b l -> key a = key b -> a = b.
Proof.
  induction l as [|x l IH]; simpl; intros Hnd Ha Hb Hk; [contradiction|].
  inversion Hnd as [|? ? Hnotin Hnd']; subst.
  destruct Ha as [-> | Ha]; destruct Hb as [-> | Hb]; auto.
  - exfalso. apply Hnotin. rewrite Hk. apply in_map. exact Hb.
  - exfalso. apply Hnotin. rewrite <- Hk. apply in_map. exact Ha.
Qed.

Lemma marked_rows_origin (vid : Z) (rows : list AdminVerification.t) (x : AdminVerification.t) :
  In x (map (fun v => if AdminVerification.id v =? vid
                      then AdminVerification.setUsed v true else v) rows) ->
  exists r, In r rows /\ (x = r \/ x = AdminVerification.setUsed r true).
Proof.
  intros H. apply in_map_iff in H as [r [Hr Hin]]. exists r. split; [exact Hin|].
  destruct (AdminVerification.id r =? vid); auto.
Qed.

(** X4. What one call of [verifyAdminPasscode] can do to the table of
    verifications, under every fault plan (ids being the primary key):
    a stored record stays as it is, or it is the unused, unexpired
    record of that passcode and stays with [used] set, or it is a used
    record of that admin that expired more than 24 hours ago and is
    deleted.  No record appears, and no other table changes. *)
Theorem verifyAdminPasscode_touches_only (w : World) (email passcode : string) :
  NoDup (map AdminVerification.id (adminVerifications (db w))) ->
  let d' := db (snd (verifyAdminPasscode email passcode w)) in
  admins d' = admins (db w) /\ guests d' = guests (db w) /\ orders d' = orders (db w)
  /\ nextGuestId d' = nextGuestId (db w)
  /\ nextVerificationId d' = nextVerificationId (db w)
  /\ (forall r, In r (adminVerifications (db w)) ->
        In r (adminVerifications d')
        \/ (AdminVerification.used r = false
            /\ now w < AdminVerification.expiresAt r
            /\ AdminVerification.passcode r = passcode
            /\ In (AdminVerification.setUsed r true) (adminVerifications d'))
        \/ (AdminVerification.used r = true
            /\ AdminVerification.expiresAt r < now w - 86400000
            /\ exists admin,
                 find (fun a => String.eqb (Admin.email a) email) (admins (db w)) = Some admin
                 /\ AdminVerification.adminId r = Admin.id admin))
  /\ (forall x, In x (adminVerifications d') ->
        exists r, In r (adminVerifications (db w))
                  /\ (x = r \/ x = AdminVerification.setUsed r true)).
Proof.
  intros Hnd d'. subst d'. rewrite verifyAdminPasscode_run. cbv zeta.
  assert (Same : forall w0 : World, db w0 = db w ->
            admins (db w0) = admins (db w) /\ guests (db w0) = guests (db w)
            /\ orders (db w0) = orders (db w)
            /\ nextGuestId (db w0) = nextGuestId (db w)
            /\ nextVerificationId (db w0) = nextVerificationId (db w)
            /\ (forall r, In r (adminVerifications (db w)) ->
                  In r (adminVerifications (db w0))
                  \/ (AdminVerification.used r = false
                      /\ now w < AdminVerification.expiresAt r
                      /\ AdminVerification.passcode r = passcode
                      /\ In (AdminVerification.setUsed r true) (adminVerifications (db w0)))
                  \/ (AdminVerification.used r = true
                      /\ AdminVerification.expiresAt r < now w - 86400000
                      /\ exists admin,
                           find (fun a => String.eqb (Admin.email a) email) (admins (db w))
                           = Some admin
                           /\ AdminVerification.adminId r = Admin.id admin))
            /\ (forall x, In x (adminVerifications (db w0)) ->
                  exists r, In r (adminVerifications (db w))
                            /\ (x = r \/ x = AdminVerification.setUsed r true))).
  { intros w0 ->. repeat split; auto. intros x Hx. exists x. auto. }
  destruct (faulty AdminFindUnique w); [apply Same; reflexivity|].
  destruct (find _ (admins (db w))) as [admin|] eqn:Ha; [|apply Same; reflexivity].
  destruct (faulty AdminVerificationFindFirst w); [apply Same; reflexivity|].
  destruct (prisma_adminVerification.newest _) as [v|] eqn:Hv; [|apply Same; reflexivity].
  destruct (faulty AdminVerificationUpdate w); [apply Same; reflexivity|].
  clear Same.
  pose proof (newest_In _ _ Hv) as Hin. apply filter_In in Hin as [Hin Hvalid].
  pose proof Hvalid as Hfields.
  unfold prisma_adminVerification.unusedUnexpired in Hfields.
  apply andb_true_iff in Hfields as [Hfields H4].
  apply andb_true_iff in Hfields as [Hfields H3].
  apply andb_true_iff in Hfields as [H1 H2].
  apply String.eqb_eq in H2. apply negb_true_iff in H3. apply Z.ltb_lt in H4.
  destruct (faulty AdminVerificationDeleteMany w); simpl.
  - repeat split; auto.
    + intros r Hr.
      destruct (AdminVerification.id r =? AdminVerification.id v) eqn:E.
      * apply Z.eqb_eq in E.
        assert (r = v) by (eapply NoDup_key_inj; eauto). subst r.
        right. left. repeat split; auto.
        apply in_map_iff. exists v. rewrite Z.eqb_refl. auto.
      * left. apply in_map_iff. exists r. rewrite E. auto.
    + intros x Hx. eapply marked_rows_origin; eassumption.
  - repeat split; auto.
    + intros r Hr.
      destruct (AdminVerification.id r =? AdminVerification.id v) eqn:E.
      * apply Z.eqb_eq in E.
        assert (r = v) by (eapply NoDup_key_inj; eauto). subst r.
        right. left. repeat split; auto.
        apply afterMarkAndCleanup_keeps with (code := passcode) (t := now w);
          [lia | exact Hin | exact Hvalid].
      * destruct (prisma_adminVerification.usedAndOlder (Admin.id admin)
                    (now w - 86400000) r) eqn:Eold.
        -- right. right.
           unfold prisma_adminVerification.usedAndOlder in Eold.
           apply andb_true_iff in Eold as [Eold O3].
           apply andb_true_iff in Eold as [O1 O2].
           apply Z.eqb_eq in O1. apply Z.ltb_lt in O3.
           split; [exact O2|]. split; [lia|]. exists admin. auto.
        -- left. unfold afterMarkAndCleanup. apply filter_In. split.
           ++ apply in_map_iff. exists r. rewrite E. auto.
           ++ rewrite Eold. reflexivity.
    + intros x Hx. unfold afterMarkAndCleanup in Hx. apply filter_In in Hx as [Hx _].
      eapply marked_rows_origin; eassumption.
Qed.

Lemma verifyAdminPasscode_touches_only_witness :
  let d' := db (snd (verifyAdminPasscode "a@hotel.com" "123456" sampleWorld)) in
  admins d' = admins (db sampleWorld) /\ guests d' = guests (db sampleWorld)
  /\ orders d' = orders (db sampleWorld)
  /\ nextGuestId d' = nextGuestId (db sampleWorld)
  /\ nextVerificationId d' = nextVerificationId (db sampleWorld)
  /\ (forall r, In r (adminVerifications (db sampleWorld)) ->
        In r (adminVerifications d')
        \/ (AdminVerification.used r = false
            /\ now sampleWorld < AdminVerification.expiresAt r
            /\ AdminVerification.passcode r = "123456"
            /\ In (AdminVerification.setUsed r true) (adminVerifications d'))
        \/ (AdminVerification.used r = true
            /\ AdminVerification.expiresAt r < now sampleWorld - 86400000
            /\ exists admin,
                 find (fun a => String.eqb (Admin.email a) "a@hotel.com")
                   (admins (db sampleWorld)) = Some admin
                 /\ AdminVerification.adminId r = Admin.id admin))
  /\ (forall x, In x (adminVerifications d') ->
        exists r, In r (adminVerifications (db sampleWorld))
                  /\ (x = r \/ x = AdminVerification.setUsed r true)).
Proof.
  apply (verifyAdminPasscode_touches_only sampleWorld "a@hotel.com" "123456").
  simpl. constructor; [intros [] | constructor].
Defined.

(** ** Dates *)

Lemma Number_add_safe (a b : Z) :
  Z.abs (a + b) <= 2 ^ 53 -> Number_add (Finite a) (Finite b) = Finite (a + b).
Proof. intros H. simpl. apply roundToNumber_safe. exact H. Qed.

Lemma Number_mul_safe (a b : Z) :
  Z.abs (a * b) <= 2 ^ 53 -> Number_mul (Finite a) (Finite b) = Finite (a * b).
Proof. intros H. simpl. apply roundToNumber_safe. exact H. Qed.

(** The fields of a time value add up to it. *)
Lemma time_fields (t : Z) :
  Day t * msPerDay + HourFromTime t * msPerHour + MinFromTime t * msPerMinute
  + SecFromTime t * msPerSecond + msFromTime t = t
  /\ 0 <= HourFromTime t < 24 /\ 0 <= MinFromTime t < 60
  /\ 0 <= SecFromTime t < 60 /\ 0 <= msFromTime t < 1000.
Proof.
  unfold Day, HourFromTime, MinFromTime, SecFromTime, msFromTime,
    msPerDay, msPerHour, msPerMinute, msPerSecond.
  Z.div_mod_to_equations. lia.
Qed.

Lemma pow53 : 2 ^ 53 = 9007199254740992.
Proof. reflexivity. Qed.

(** Within [plainTimes] the date [setMinutes] leaves is the local time
    moved by the minutes and taken back to UTC with the offset of the
    zone for that local time. *)
Lemma expiryDate_exact (tz : TimeZone) (t n : Z) :
  plainTimes tz t n ->
  expiryDate tz t n
  = Some (t + n * 60000
          + (offsetAt tz t - offsetOfLocal tz (LocalTime tz t + n * 60000))).
Proof.
  intros [Hl [Hn Ho]].
  replace (t + n * 60000 + (offsetAt tz t - offsetOfLocal tz (LocalTime tz t + n * 60000)))
    with (LocalTime tz t + n * 60000 - offsetOfLocal tz (LocalTime tz t + n * 60000))
    by (unfold LocalTime; lia).
  unfold expiryDate, Date_setMinutes, Date_getMinutes.
  set (l := LocalTime tz t) in *.
  destruct (time_fields l) as [E [Hh [Hm [Hs Hms]]]].
  set (d := Day l) in *. set (h := HourFromTime l) in *. set (m := MinFromTime l) in *.
  set (s := SecFromTime l) in *. set (ms := msFromTime l) in *.
  unfold msPerDay, msPerHour, msPerMinute, msPerSecond in *.
  rewrite Number_add_safe by (rewrite pow53; lia).
  unfold MakeTime. cbn [isFinite andb].
  unfold msPerDay, msPerHour, msPerMinute, msPerSecond in *.
  rewrite (Number_mul_safe h) by (rewrite pow53; lia).
  rewrite (Number_mul_safe (m + n)) by (rewrite pow53; lia).
  rewrite (Number_mul_safe s) by (rewrite pow53; lia).
  rewrite Number_add_safe by (rewrite pow53; lia).
  rewrite Number_add_safe by (rewrite pow53; lia).
  rewrite Number_add_safe by (rewrite pow53; lia).
  unfold MakeDate. cbn [isFinite andb]. unfold msPerDay.
  rewrite (Number_mul_safe d) by (rewrite pow53; lia).
  rewrite Number_add_safe by (rewrite pow53; lia).
  replace (d * 86400000 + (h * 3600000 + (m + n) * 60000 + s * 1000 + ms))
    with (l + n * 60000) by lia.
  unfold UTC. rewrite Number_add_safe by (rewrite pow53; lia).
  unfold TimeClip.
  replace (8640000000000000 <? Z.abs (l + n * 60000 + - offsetOfLocal tz (l + n * 60000)))
    with false by (symmetry; apply Z.ltb_ge; lia).
  reflexivity.
Qed.

(** Where no change of the clocks is in the way, that is [n] minutes
    from [t]. *)
Lemma expiryDate_steady (tz : TimeZone) (t n : Z) :
  plainTimes tz t n -> steadyZone tz t n -> expiryDate tz t n = Some (t + n * 60000).
Proof.
  intros P S. rewrite (expiryDate_exact tz t n P). unfold steadyZone in S.
  rewrite S. f_equal. lia.
Qed.

Example expiryDate_samples :
  expiryDate utc 1000 10 = Some 601000
  /\ expiryDate utc 1000 (-10) = Some (-599000)
  /\ expiryDate utc 1000 150000000000 = None
  /\ expiryDate clocksGoBack 9000000 10 = Some 6000000
  /\ expiryDate clocksGoBack 9000000 60 = Some 12600000
  /\ expiryDate utc 8640000000000000 1 = None.
Proof. vm_compute. repeat split. Qed.

(** ** createAdminVerification *)

Lemma find_some_exists {A} (p : A -> bool) (l : list A) (a : A) :
  In a l -> p a = true -> exists a', find p l = Some a'.
Proof.
  intros Hin Hp. destruct (find p l) as [a'|] eqn:E; [eauto|].
  rewrite (find_none p l E a Hin) in Hp. discriminate.
Qed.

(** Every run of [createAdminVerification], under every fault plan. *)
Lemma createAdminVerification_run (w : World) (adminId minutes : Z) :
  let failed := Normal (MFAVerificationResult.mk false None None
                          "Failed to create verification code") in
  let logged w0 := snd (console_error "Error creating admin verification:" w0) in
  createAdminVerification adminId minutes w
  = if faulty AdminFindUnique w then (failed, logged w)
    else
      match find (fun a => Admin.id a =? adminId) (admins (db w)) with
      | None => (Normal (MFAVerificationResult.mk false None None "Admin not found"), w)
      | Some _ =>
          match expiryDate (timeZone w) (now w) minutes with
          | None => (failed, logged (afterDraw w))
          | Some expiresAt =>
              if faulty AdminVerificationCreate w then (failed, logged (afterDraw w))
              else
                (Normal (MFAVerificationResult.mk true
                           (Some (AdminVerification.passcode
                                    (newVerification adminId expiresAt w)))
                           (Some expiresAt)
                           "MFA passcode generated successfully"),
                 setDb (afterDraw w)
                   (setVerifications (db w)
                      (adminVerifications (db w) ++ [newVerification adminId expiresAt w])
                      (nextVerificationId (db w) + 1)))
          end
      end.
Proof.
  intros failed logged. subst failed logged.
  unfold createAdminVerification, createVerificationRow, generatePasscode, crypto_randomInt,
    tryCatch, bind, newDate, systemTimeZone, ret, throw, prisma_admin.findUnique_id,
    prisma_adminVerification.create.
  destruct (faulty AdminFindUnique w) eqn:F1.
  { rewrite prisma_fault by exact F1. reflexivity. }
  rewrite prisma_not_faulty by exact F1. simpl. rewrite setDb_same.
  destruct (find (fun a => Admin.id a =? adminId) (admins (db w))) as [a|] eqn:Ha;
    [|reflexivity].
  assert (Hex : existsb (fun x => Admin.id x =? adminId) (admins (db w)) = true).
  { apply find_some in Ha as [Hin Hid]. apply existsb_exists. eauto. }
  destruct (expiryDate (timeZone w) (now w) minutes) as [expiresAt|]; [|reflexivity].
  destruct (faulty AdminVerificationCreate w) eqn:F2.
  { rewrite prisma_fault by exact F2. reflexivity. }
  rewrite prisma_not_faulty by exact F2. simpl. rewrite Hex. reflexivity.
Qed.

(** The clocks go back while a passcode is requested: the passcode is
    handed out already expired.  And with minutes beyond the range of
    dates nothing is stored. *)
Example createAdminVerification_dates :
  let w0 := mkWorld sampleDb 9000000 [] (fun _ => 23456) 0 [] clocksGoBack in
  let '(r1, w1) := createAdminVerification 1 10 w0 in
  let '(r2, w2) := verifyAdminPasscode "a@hotel.com" "123456" w1 in
  let '(r3, w3) := createAdminVerification 1 150000000000 sampleWorld in
  r1 = Normal (MFAVerificationResult.mk true (Some "123456") (Some 6000000)
                 "MFA passcode generated successfully")
  /\ r2 = Normal (VerifyPasscodeResult.mk false None None "Invalid or expired passcode")
  /\ r3 = Normal (MFAVerificationResult.mk false None None
                    "Failed to create verification code")
  /\ db w3 = db sampleWorld.
Proof. vm_compute. repeat split; reflexivity. Qed.

(** X5. [createAdminVerification] never throws.  When it reports
    success it has appended exactly one record to the table, unused,
    owned by an existing admin, holding the six-digit passcode it
    returns and expiring at the date [setMinutes] left, which is a valid
    one; the earlier records are all kept as they were.  When it does
    not report success, as it does when that date is invalid, the store
    is unchanged.  Within [plainTimes] the date is [expirationMinutes]
    minutes from now, moved by the difference between the offset of the
    time zone now and the one that counts for the local time then. *)
Theorem createAdminVerification_effect (w : World) (adminId minutes : Z) :
  exists r,
    fst (createAdminVerification adminId minutes w) = Normal r
    /\ (MFAVerificationResult.success r = false ->
        db (snd (createAdminVerification adminId minutes w)) = db w)
    /\ (MFAVerificationResult.success r = true ->
        exists n expiresAt,
          100000 <= n <= 999998
          /\ sixDigits (Number_toString n) = true
          /\ MFAVerificationResult.passcode r = Some (Number_toString n)
          /\ expiryDate (timeZone w) (now w) minutes = Some expiresAt
          /\ MFAVerificationResult.expiresAt r = Some expiresAt
          /\ adminVerifications (db (snd (createAdminVerification adminId minutes w)))
             = adminVerifications (db w)
               ++ [AdminVerification.mk (nextVerificationId (db w)) adminId
                     (Number_toString n) expiresAt false (now w)]
          /\ nextVerificationId (db (snd (createAdminVerification adminId minutes w)))
             = nextVerificationId (db w) + 1
          /\ exists a, In a (admins (db w)) /\ Admin.id a = adminId)
    /\ (expiryDate (timeZone w) (now w) minutes = None ->
        MFAVerificationResult.success r = false)
    /\ (plainTimes (timeZone w) (now w) minutes ->
        expiryDate (timeZone w) (now w) minutes
        = Some (now w + minutes * 60000
                + (offsetAt (timeZone w) (now w)
                   - offsetOfLocal (timeZone w)
                       (LocalTime (timeZone w) (now w) + minutes * 60000)))).
Proof.
  rewrite createAdminVerification_run. cbv zeta.
  assert (P : plainTimes (timeZone w) (now w) minutes ->
              expiryDate (timeZone w) (now w) minutes
              = Some (now w + minutes * 60000
                      + (offsetAt (timeZone w) (now w)
                         - offsetOfLocal (timeZone w)
                             (LocalTime (timeZone w) (now w) + minutes * 60000))))
    by apply expiryDate_exact.
  destruct (faulty AdminFindUnique w).
  { eexists. split; [reflexivity|]. split; [reflexivity|].
    split; [discriminate|]. split; [reflexivity | exact P]. }
  destruct (find _ (admins (db w))) as [a|] eqn:Ha.
  2:{ eexists. split; [reflexivity|]. split; [reflexivity|].
      split; [discriminate|]. split; [reflexivity | exact P]. }
  destruct (expiryDate (timeZone w) (now w) minutes) as [expiresAt|] eqn:He.
  2:{ eexists. split; [reflexivity|]. split; [reflexivity|].
      split; [discriminate|]. split; [reflexivity | exact P]. }
  destruct (faulty AdminVerificationCreate w).
  { eexists. split; [reflexivity|]. split; [reflexivity|].
    split; [discriminate|]. split; [discriminate | exact P]. }
  eexists. split; [reflexivity|]. split; [discriminate|].
  split; [|split; [discriminate | exact P]]. intros _.
  pose proof (randomInt_of_range 100000 999999 (entropy w (drawn w)) eq_refl) as R.
  exists (randomInt_of 100000 999999 (entropy w (drawn w))), expiresAt.
  split; [lia|]. split; [apply Number_toString_sixDigits; lia|].
  repeat split.
  apply find_some in Ha as [Hin Hid]. apply Z.eqb_eq in Hid. eauto.
Qed.

Lemma filter_app_last_nonempty {A} (p : A -> bool) (l : list A) (x : A) :
  p x = true -> filter p (l ++ [x]) <> [].
Proof.
  intros Hp E.
  assert (Hin : In x (filter p (l ++ [x]))).
  { apply filter_In. split; [apply in_or_app; right; left; reflexivity | exact Hp]. }
  rewrite E in Hin. contradiction.
Qed.

Lemma create_then_verify_holds
  (w : World) (email : string) (admin : Admin.t) (minutes d : Z) :
  faults w = [] ->
  find (fun a => String.eqb (Admin.email a) email) (admins (db w)) = Some admin ->
  plainTimes (timeZone w) (now w) minutes ->
  steadyZone (timeZone w) (now w) minutes ->
  0 <= d < minutes * 60000 ->
  exists p,
    fst (createAdminVerification (Admin.id admin) minutes w)
    = Normal (MFAVerificationResult.mk true (Some p) (Some (now w + minutes * 60000))
                "MFA passcode generated successfully")
    /\ fst (verifyAdminPasscode email p
              (advance d (snd (createAdminVerification (Admin.id admin) minutes w))))
       = Normal (VerifyPasscodeResult.mk true (Some (Admin.id admin))
                   (Some (Admin.hotelId admin)) "Passcode verified successfully").
Proof.
  intros Hf Ha Hp Hs Hd.
  rewrite createAdminVerification_run. cbv zeta.
  unfold faulty. rewrite Hf. simpl existsb. cbv iota.
  pose proof (find_some _ _ Ha) as [Hin _].
  destruct (find_some_exists (fun a => Admin.id a =? Admin.id admin) _ admin Hin
              (Z.eqb_refl _)) as [a' Ha'].
  rewrite Ha'. rewrite (expiryDate_steady _ _ _ Hp Hs).
  exists (AdminVerification.passcode
            (newVerification (Admin.id admin) (now w + minutes * 60000) w)).
  split; [reflexivity|]. cbn [snd].
  set (w1 := advance d _).
  assert (Hf1 : faults w1 = []) by exact Hf.
  assert (Ha1 : find (fun a => String.eqb (Admin.email a) email) (admins (db w1)) = Some admin)
    by exact Ha.
  destruct (prisma_adminVerification.newest
              (filter (prisma_adminVerification.unusedUnexpired (Admin.id admin)
                         (AdminVerification.passcode
                            (newVerification (Admin.id admin) (now w + minutes * 60000) w))
                         (now w1))
                 (adminVerifications (db w1)))) as [v|] eqn:Hv.
  - rewrite (verifyAdminPasscode_match w1 email _ admin v Hf1 Ha1 Hv). reflexivity.
  - exfalso. apply newest_None in Hv. revert Hv.
    unfold w1. simpl. apply filter_app_last_nonempty.
    unfold prisma_adminVerification.unusedUnexpired. simpl.
    rewrite Z.eqb_refl, String.eqb_refl. simpl. apply Z.ltb_lt. lia.
Qed.

(** X6. Round trip of a passcode.  For an admin known by email, with a
    fault-free repository, times within [plainTimes] and no change of
    the clocks in the way: the passcode handed out by
    [createAdminVerification] expires [expirationMinutes] minutes from
    now and is accepted by [verifyAdminPasscode] for that admin's email
    at any time before, and the call returns that admin's id and
    hotel. *)
Theorem createAdminVerification_then_verify
  (w : World) (email : string) (admin : Admin.t) (minutes d : Z) :
  faults w = [] ->
  find (fun a => String.eqb (Admin.email a) email) (admins (db w)) = Some admin ->
  plainTimes (timeZone w) (now w) minutes ->
  steadyZone (timeZone w) (now w) minutes ->
  0 <= d < minutes * 60000 ->
  exists p,
    fst (createAdminVerification (Admin.id admin) minutes w)
    = Normal (MFAVerificationResult.mk true (Some p) (Some (now w + minutes * 60000))
                "MFA passcode generated successfully")
    /\ fst (verifyAdminPasscode email p
              (advance d (snd (createAdminVerification (Admin.id admin) minutes w))))
       = Normal (VerifyPasscodeResult.mk true (Some (Admin.id admin))
                   (Some (Admin.hotelId admin)) "Passcode verified successfully").
Proof. intros. apply create_then_verify_holds; assumption. Qed.

Lemma sample_plainTimes : plainTimes (timeZone sampleWorld) (now sampleWorld) 10.
Proof. unfold plainTimes, LocalTime, msPerDay. simpl. lia. Qed.

Lemma createAdminVerification_then_verify_witness :
  exists p,
    fst (createAdminVerification 1 10 sampleWorld)
    = Normal (MFAVerificationResult.mk true (Some p) (Some (now sampleWorld + 10 * 60000))
                "MFA passcode generated successfully")
    /\ fst (verifyAdminPasscode "a@hotel.com" p
              (advance 599999 (snd (createAdminVerification 1 10 sampleWorld))))
       = Normal (VerifyPasscodeResult.mk true (Some 1) (Some 7)
                   "Passcode verified successfully").
Proof.
  apply (createAdminVerification_then_verify sampleWorld "a@hotel.com"
           (Admin.mk 1 "Ann" "a@hotel.com" "555" 7) 10 599999).
  - reflexivity.
  - reflexivity.
  - exact sample_plainTimes.
  - reflexivity.
  - lia.
Defined.

(** ** findOrCreateGuest under faults, and the store invariants *)

(** Every run of [findOrCreateGuest], under every fault plan. *)
Lemma findOrCreateGuest_run (w : World) (email name : string) :
  let failed := Normal (GuestResult.mk false None "Failed to find or create guest") in
  let logged := snd (console_error "Error finding/creating guest:" w) in
  findOrCreateGuest email name w
  = if faulty GuestFindUnique w then (failed, logged)
    else
      match guestByEmail email (db w) with
      | None =>
          if faulty GuestCreate w then (failed, logged)
          else
            (Normal (GuestResult.mk true (Some (nextGuestId (db w)))
                       "Guest created successfully"),
             setDb w (setGuests (db w)
                        (guests (db w) ++ [Guest.mk (nextGuestId (db w)) name email])
                        (nextGuestId (db w) + 1)))
      | Some g =>
          if truthyString name && negb (String.eqb (Guest.name g) name)
          then
            if faulty GuestUpdate w then (failed, logged)
            else
              (Normal (GuestResult.mk true (Some (Guest.id g)) "Guest found"),
               setDb w (setGuests (db w)
                          (map (fun x => if Guest.id x =? Guest.id g
                                         then Guest.setName x name else x)
                             (guests (db w)))
                          (nextGuestId (db w))))
          else (Normal (GuestResult.mk true (Some (Guest.id g)) "Guest found"), w)
      end.
Proof.
  intros failed logged. subst failed logged.
  unfold guestByEmail, findOrCreateGuest, tryCatch, bind, ret,
    prisma_guest.findUnique_email, prisma_guest.create, prisma_guest.update_name.
  destruct (faulty GuestFindUnique w) eqn:F1.
  { rewrite prisma_fault by exact F1. reflexivity. }
  rewrite prisma_not_faulty by exact F1. simpl. rewrite setDb_same.
  destruct (find (fun g => String.eqb (Guest.email g) email) (guests (db w)))
    as [g|] eqn:Hg.
  - destruct (truthyString name && negb (String.eqb (Guest.name g) name)).
    + destruct (faulty GuestUpdate w) eqn:F3.
      { rewrite prisma_fault by exact F3. reflexivity. }
      rewrite prisma_not_faulty by exact F3. simpl.
      destruct (find_some_id g (guests (db w)) _ Hg) as [g' Hg'].
      rewrite Hg'. simpl.
      apply find_some in Hg' as [_ Hid]. apply Z.eqb_eq in Hid. simpl in Hid.
      rewrite Hid. reflexivity.
    + reflexivity.
  - destruct (faulty GuestCreate w) eqn:F2.
    { rewrite prisma_fault by exact F2. reflexivity. }
    rewrite prisma_not_faulty by exact F2. simpl.
    rewrite (find_none_existsb _ _ Hg). reflexivity.
Qed.

(** X7. [findOrCreateGuest] never throws.  When it reports success, the
    guest stored under the email afterwards has the returned id and,
    for a non-empty name, the given name.  When it does not, the store
    is unchanged.  This holds under every fault plan. *)
Theorem findOrCreateGuest_effect (w : World) (email name : string) :
  exists r,
    fst (findOrCreateGuest email name w) = Normal r
    /\ (GuestResult.success r = false ->
        GuestResult.guestId r = None
        /\ db (snd (findOrCreateGuest email name w)) = db w)
    /\ (GuestResult.success r = true ->
        exists g,
          guestByEmail email (db (snd (findOrCreateGuest email name w))) = Some g
          /\ GuestResult.guestId r = Some (Guest.id g)
          /\ Guest.email g = email
          /\ (name <> "" -> Guest.name g = name)).
Proof.
  rewrite findOrCreateGuest_run. cbv zeta.
  destruct (faulty GuestFindUnique w).
  { eexists. split; [reflexivity|]. split; [auto | discriminate]. }
  destruct (guestByEmail email (db w)) as [g|] eqn:Hg.
  - assert (Hmail : Guest.email g = email).
    { unfold guestByEmail in Hg. apply find_some in Hg as [_ H].
      apply String.eqb_eq in H. exact H. }
    destruct (truthyString name && negb (String.eqb (Guest.name g) name)) eqn:E.
    + destruct (faulty GuestUpdate w).
      { eexists. split; [reflexivity|]. split; [auto | discriminate]. }
      eexists. split; [reflexivity|]. split; [discriminate|]. intros _.
      exists (Guest.setName g name). simpl. split.
      * unfold guestByEmail. simpl. apply guestByEmail_rename. exact Hg.
      * auto.
    + eexists. split; [reflexivity|]. split; [discriminate|]. intros _.
      exists g. simpl. split; [exact Hg|]. split; [reflexivity|]. split; [exact Hmail|].
      intros Hne. apply andb_false_iff in E as [E | E].
      * unfold truthyString in E. apply negb_false_iff in E.
        apply String.eqb_eq in E. contradiction.
      * apply negb_false_iff in E. apply String.eqb_eq in E. exact E.
  - destruct (faulty GuestCreate w).
    { eexists. split; [reflexivity|]. split; [auto | discriminate]. }
    eexists. split; [reflexivity|]. split; [discriminate|]. intros _.
    exists (Guest.mk (nextGuestId (db w)) name email). simpl. split.
    + unfold guestByEmail. simpl. apply find_app_None; [exact Hg|].
      simpl. apply String.eqb_refl.
    + auto.
Qed.

Lemma filter_keeps_unique_keys {A} (key : A -> Z) (keep : A -> bool) (rows : list A) :
  NoDup (map key rows) -> NoDup (map key (filter keep rows)).
Proof.
  intros Hnd. induction rows as [|r rows IH]; simpl; [constructor|].
  simpl in Hnd. inversion Hnd as [|? ? Hfresh Hrest]; subst.
  destruct (keep r); simpl; [|auto].
  constructor; [|auto].
  intros Hin. apply Hfresh. apply in_map_iff in Hin as [x [Hx Hin]].
  apply filter_In in Hin as [Hin _]. rewrite <- Hx. apply in_map. exact Hin.
Qed.

Lemma NoDup_snoc {A} (l : list A) (x : A) :
  NoDup l -> ~ In x l -> NoDup (l ++ [x]).
Proof.
  induction l as [|a l IH]; simpl; intros Hnd Hx.
  - constructor; [intros [] | constructor].
  - inversion Hnd as [|? ? Hnotin Hnd']; subst. constructor.
    + intros Hin. apply in_app_or in Hin as [Hin | [<- | []]]; auto.
    + apply IH; auto.
Qed.

Lemma NoDup_map_snoc {A} (key : A -> Z) (l : list A) (x : A) (bound : Z) :
  NoDup (map key l) -> (forall a, In a l -> key a < bound) -> key x = bound ->
  NoDup (map key (l ++ [x])).
Proof.
  intros Hnd Hlt Hx. rewrite map_app. simpl. apply NoDup_snoc; [exact Hnd|].
  intros Hin. apply in_map_iff in Hin as [a [Ha Hin]].
  specialize (Hlt a Hin). lia.
Qed.

Lemma map_id_marked (vid : Z) (rows : list AdminVerification.t) :
  map AdminVerification.id
    (map (fun v => if AdminVerification.id v =? vid
                   then AdminVerification.setUsed v true else v) rows)
  = map AdminVerification.id rows.
Proof.
  induction rows as [|r rows IH]; simpl; [reflexivity|].
  rewrite IH. destruct (AdminVerification.id r =? vid); reflexivity.
Qed.

Lemma map_keys_renamed (gid : Z) (name : string) (gs : list Guest.t) :
  map Guest.id (map (fun x => if Guest.id x =? gid then Guest.setName x name else x) gs)
  = map Guest.id gs
  /\ map Guest.email (map (fun x => if Guest.id x =? gid then Guest.setName x name else x) gs)
     = map Guest.email gs.
Proof.
  induction gs as [|g gs [IH1 IH2]]; simpl; [auto|].
  rewrite IH1, IH2. destruct (Guest.id g =? gid); auto.
Qed.

Lemma wfVerifications_rewritten (d : Db) (rows' : list AdminVerification.t) :
  wfVerifications d ->
  NoDup (map AdminVerification.id rows') ->
  (forall x, In x rows' ->
     exists r, In r (adminVerifications d)
               /\ (x = r \/ x = AdminVerification.setUsed r true)) ->
  wfVerifications (setVerifications d rows' (nextVerificationId d)).
Proof.
  intros [Hnd [Hlt Hfk]] Hnd' Hsub. unfold wfVerifications. simpl.
  split; [exact Hnd'|]. split.
  - intros x Hx. destruct (Hsub x Hx) as [r [Hr [-> | ->]]]; simpl; auto.
  - intros x Hx. destruct (Hsub x Hx) as [r [Hr [-> | ->]]]; simpl; auto.
Qed.

Lemma guestByEmail_None_fresh (email : string) (d : Db) :
  guestByEmail email d = None -> ~ In email (map Guest.email (guests d)).
Proof.
  unfold guestByEmail. intros Hnone Hin.
  apply in_map_iff in Hin as [g [Hg Hin]].
  pose proof (find_none _ _ Hnone g Hin) as H. simpl in H.
  rewrite Hg, String.eqb_refl in H. discriminate.
Qed.

(** X8. The helpers that write keep the store well formed, under every
    fault plan: primary keys stay unique and below their sequence, no
    two guests share an email, and every verification record belongs to
    a stored admin. *)
Theorem writers_keep_store_wellformed (w : World) :
  wfDb (db w) ->
  (forall adminId minutes,
      wfDb (db (snd (createAdminVerification adminId minutes w))))
  /\ (forall email passcode,
      wfDb (db (snd (verifyAdminPasscode email passcode w))))
  /\ (forall email name,
      wfDb (db (snd (findOrCreateGuest email name w)))).
Proof.
  intros Hwf. split; [|split].
  - intros adminId minutes. rewrite createAdminVerification_run. cbv zeta.
    destruct (faulty AdminFindUnique w); [exact Hwf|].
    destruct (find _ (admins (db w))) as [a|] eqn:Ha; [|exact Hwf].
    destruct (expiryDate (timeZone w) (now w) minutes) as [expiresAt|]; [|exact Hwf].
    destruct (faulty AdminVerificationCreate w); [exact Hwf|].
    destruct Hwf as [Hg [Hnd [Hlt Hfk]]]. split; [exact Hg|].
    unfold wfVerifications. simpl. split; [|split].
    + apply NoDup_map_snoc with (bound := nextVerificationId (db w)); auto.
    + intros v Hv. apply in_app_or in Hv as [Hv | [<- | []]].
      * specialize (Hlt v Hv). lia.
      * simpl. lia.
    + intros v Hv. apply in_app_or in Hv as [Hv | [<- | []]]; [auto|].
      simpl. apply find_some in Ha as [Hin Hid]. apply Z.eqb_eq in Hid. eauto.
  - intros email passcode. rewrite verifyAdminPasscode_run. cbv zeta.
    destruct (faulty AdminFindUnique w); [exact Hwf|].
    destruct (find _ (admins (db w))) as [admin|]; [|exact Hwf].
    destruct (faulty AdminVerificationFindFirst w); [exact Hwf|].
    destruct (prisma_adminVerification.newest _) as [v|]; [|exact Hwf].
    destruct (faulty AdminVerificationUpdate w); [exact Hwf|].
    destruct Hwf as [Hg Hv].
    destruct (faulty AdminVerificationDeleteMany w).
    + split; [exact Hg|]. simpl.
      apply wfVerifications_rewritten; [exact Hv | |].
      * rewrite map_id_marked. exact (proj1 Hv).
      * intros x Hx. eapply marked_rows_origin; eassumption.
    + split; [exact Hg|]. simpl.
      apply wfVerifications_rewritten; [exact Hv | |].
      * unfold afterMarkAndCleanup. apply filter_keeps_unique_keys.
        rewrite map_id_marked. exact (proj1 Hv).
      * intros x Hx. unfold afterMarkAndCleanup in Hx.
        apply filter_In in Hx as [Hx _]. eapply marked_rows_origin; eassumption.
  - intros email name. rewrite findOrCreateGuest_run. cbv zeta.
    destruct (faulty GuestFindUnique w); [exact Hwf|].
    destruct Hwf as [[Hid [Hmail Hlt]] Hv].
    destruct (guestByEmail email (db w)) as [g|] eqn:Hg.
    + destruct (truthyString name && negb (String.eqb (Guest.name g) name));
        [|split; [split; [|split]|]; assumption].
      destruct (faulty GuestUpdate w); [split; [split; [|split]|]; assumption|].
      split; [|exact Hv]. unfold wfGuests. simpl.
      destruct (map_keys_renamed (Guest.id g) name (guests (db w))) as [E1 E2].
      rewrite E1, E2. split; [exact Hid|]. split; [exact Hmail|].
      intros x Hx. apply in_map_iff in Hx as [y [Hy Hin]].
      specialize (Hlt y Hin).
      destruct (Guest.id y =? Guest.id g); subst x; simpl; exact Hlt.
    + destruct (faulty GuestCreate w); [split; [split; [|split]|]; assumption|].
      split; [|exact Hv]. unfold wfGuests. simpl. split; [|split].
      * apply NoDup_map_snoc with (bound := nextGuestId (db w)); auto.
      * rewrite map_app. simpl. apply NoDup_snoc; [exact Hmail|].
        apply guestByEmail_None_fresh. exact Hg.
      * intros x Hx. apply in_app_or in Hx as [Hx | [<- | []]].
        -- specialize (Hlt x Hx). lia.
        -- simpl. lia.
Qed.

Lemma sampleDb_wellformed : wfDb sampleDb.
Proof.
  split.
  - unfold wfGuests. simpl. split; [|split].
    + constructor; [intros [] | constructor].
    + constructor; [intros [] | constructor].
    + intros g [<- | []]. simpl. lia.
  - unfold wfVerifications. simpl. split; [|split].
    + constructor; [intros [] | constructor].
    + intros v [<- | []]. simpl. lia.
    + intros v [<- | []]. eexists. split; [left; reflexivity | reflexivity].
Defined.

Lemma writers_keep_store_wellformed_witness :
  (forall adminId minutes,
      wfDb (db (snd (createAdminVerification adminId minutes sampleWorld))))
  /\ (forall email passcode,
      wfDb (db (snd (verifyAdminPasscode email passcode sampleWorld))))
  /\ (forall email name,
      wfDb (db (snd (findOrCreateGuest email name sampleWorld)))).
Proof.
  exact (writers_keep_store_wellformed sampleWorld sampleDb_wellformed).
Defined.

(** ** validateAdminEmail and the functions that only read *)

Lemma validateAdminEmail_holds (w : World) (email : string) :
  exists r,
    validateAdminEmail email w
    = (Normal r,
       if faulty AdminFindUnique w
       then snd (console_error "Error validating admin email:" w) else w)
    /\ (faulty AdminFindUnique w = true -> VerifyPasscodeResult.success r = false)
    /\ (faulty AdminFindUnique w = false ->
        match find (fun a => String.eqb (Admin.email a) email) (admins (db w)) with
        | Some admin =>
            r = VerifyPasscodeResult.mk true (Some (Admin.id admin))
                  (Some (Admin.hotelId admin)) "Admin email validated"
            /\ forall minutes expiresAt,
                 faulty AdminVerificationCreate w = false ->
                 expiryDate (timeZone w) (now w) minutes = Some expiresAt ->
                 exists c,
                   fst (createAdminVerification (Admin.id admin) minutes w) = Normal c
                   /\ MFAVerificationResult.success c = true
        | None =>
            r = VerifyPasscodeResult.mk false None None "Admin not found with this email"
        end).
Proof.
  unfold validateAdminEmail, tryCatch, bind, ret, prisma_admin.findUnique_email.
  destruct (faulty AdminFindUnique w) eqn:F1.
  - rewrite prisma_fault by exact F1. eexists. split; [reflexivity|].
    split; [reflexivity | discriminate].
  - rewrite prisma_not_faulty by exact F1. simpl. rewrite setDb_same.
    destruct (find (fun a => String.eqb (Admin.email a) email) (admins (db w)))
      as [admin|] eqn:Ha.
    + eexists. split; [reflexivity|]. split; [discriminate|]. intros _.
      split; [reflexivity|]. intros minutes expiresAt F2 He.
      rewrite createAdminVerification_run. cbv zeta. rewrite F1, F2, He.
      pose proof (find_some _ _ Ha) as [Hin _].
      destruct (find_some_exists (fun a => Admin.id a =? Admin.id admin) _ admin Hin
                  (Z.eqb_refl _)) as [a' Ha'].
      rewrite Ha'. eexists. split; reflexivity.
    + eexists. split; [reflexivity|]. split; [discriminate|]. intros _. reflexivity.
Qed.

(** X9. [validateAdminEmail] never throws and writes nothing.  While
    the repository answers it reports success exactly for an email
    stored for an admin, with that admin's id and hotel; with the id it
    returns [createAdminVerification] then succeeds whenever the store
    accepts the insertion and the date of expiry is a valid one.  When
    the lookup rejects it reports failure. *)
Theorem validateAdminEmail_spec (w : World) (email : string) :
  exists r,
    validateAdminEmail email w
    = (Normal r,
       if faulty AdminFindUnique w
       then snd (console_error "Error validating admin email:" w) else w)
    /\ (faulty AdminFindUnique w = true -> VerifyPasscodeResult.success r = false)
    /\ (faulty AdminFindUnique w = false ->
        match find (fun a => String.eqb (Admin.email a) email) (admins (db w)) with
        | Some admin =>
            r = VerifyPasscodeResult.mk true (Some (Admin.id admin))
                  (Some (Admin.hotelId admin)) "Admin email validated"
            /\ forall minutes expiresAt,
                 faulty AdminVerificationCreate w = false ->
                 expiryDate (timeZone w) (now w) minutes = Some expiresAt ->
                 exists c,
                   fst (createAdminVerification (Admin.id admin) minutes w) = Normal c
                   /\ MFAVerificationResult.success c = true
        | None =>
            r = VerifyPasscodeResult.mk false None None "Admin not found with this email"
        end).
Proof. intros. apply validateAdminEmail_holds; assumption. Qed.

Lemma keepsDb_ret {A} (a : A) : keepsDb (ret a).
Proof. intros w. reflexivity. Qed.

Lemma keepsDb_throw {A} (e : JsError) : keepsDb (@throw A e).
Proof. intros w. reflexivity. Qed.

Lemma keepsDb_console_error (line : string) : keepsDb (console_error line).
Proof. intros w. reflexivity. Qed.

Lemma keepsDb_query {A} (op : PrismaOp) (q : Db -> Completion A) :
  keepsDb (prisma op (fun d => (q d, d))).
Proof.
  intros w. unfold prisma. destruct (faulty op w); [reflexivity|].
  simpl. reflexivity.
Qed.

Lemma keepsDb_clock {A} (f : Z -> Completion A) : keepsDb (fun w => (f (now w), w)).
Proof. intros w. reflexivity. Qed.

Lemma keepsDb_bind {A B} (m : Js A) (k : A -> Js B) :
  keepsDb m -> (forall a, keepsDb (k a)) -> keepsDb (bind m k).
Proof.
  intros Hm Hk w. unfold bind. specialize (Hm w).
  destruct (m w) as [[a|e] w']; simpl in *.
  - rewrite Hk. exact Hm.
  - exact Hm.
Qed.

Lemma keepsDb_tryCatch {A} (m : Js A) (h : JsError -> Js A) :
  keepsDb m -> (forall e, keepsDb (h e)) -> keepsDb (tryCatch m h).
Proof.
  intros Hm Hh w. unfold tryCatch. specialize (Hm w).
  destruct (m w) as [[a|e] w']; simpl in *.
  - exact Hm.
  - rewrite Hh. exact Hm.
Qed.

Create HintDb reads.
#[local] Hint Resolve keepsDb_ret keepsDb_throw keepsDb_console_error
  keepsDb_query keepsDb_clock : reads.

Ltac keeps_db :=
  repeat first
    [ apply keepsDb_tryCatch
    | apply keepsDb_bind
    | apply keepsDb_query
    | progress (auto with reads)
    | match goal with
      | |- forall _, _ => intro
      | |- keepsDb (match ?x with _ => _ end) => destruct x
      | |- keepsDb (let (_, _) := ?x in _) => destruct x
      end ].

Lemma keepsDb_getAdminById (adminId : Z) : keepsDb (getAdminById adminId).
Proof. unfold getAdminById, prisma_admin.findUnique_id. keeps_db. Qed.

Lemma keepsDb_getGuestById (guestId : Z) : keepsDb (getGuestById guestId).
Proof. unfold getGuestById, prisma_guest.findUnique_id. keeps_db. Qed.

Lemma keepsDb_verifyAdminHotelAccess (adminId hotelId : Z) :
  keepsDb (verifyAdminHotelAccess adminId hotelId).
Proof. unfold verifyAdminHotelAccess, prisma_admin.findUnique_id. keeps_db. Qed.

Lemma keepsDb_verifyGuestHotelAccess (guestId hotelId : Z) :
  keepsDb (verifyGuestHotelAccess guestId hotelId).
Proof. unfold verifyGuestHotelAccess, prisma_order.findFirst. keeps_db. Qed.

Lemma keepsDb_verifyToken (jwt : Jsonwebtoken) (env : ProcessEnv) (token : string) :
  keepsDb (verifyToken jwt env token).
Proof. intros w. exact (proj1 (proj2 (verifyToken_run jwt env token w))). Qed.

Lemma keepsDb_complete {A} (c : Completion A) : keepsDb (complete c).
Proof. intros w. reflexivity. Qed.

Lemma keepsDb_adminHotelAccess (adminId : Z) (hotelId : Number) :
  keepsDb (adminHotelAccess adminId hotelId).
Proof.
  destruct hotelId; simpl; [| |apply keepsDb_verifyAdminHotelAccess];
    unfold prisma_admin.findUnique_id; keeps_db.
Qed.

Lemma keepsDb_guestHotelAccess (guestId : Z) (hotelId : Number) :
  keepsDb (guestHotelAccess guestId hotelId).
Proof.
  destruct hotelId; simpl; [| |apply keepsDb_verifyGuestHotelAccess]; keeps_db.
Qed.

#[local] Hint Resolve keepsDb_getAdminById keepsDb_getGuestById
  keepsDb_verifyAdminHotelAccess keepsDb_verifyGuestHotelAccess keepsDb_verifyToken
  keepsDb_complete keepsDb_adminHotelAccess keepsDb_guestHotelAccess : reads.

(** X10. The lookups, the access predicates and every guard of the
    middleware only read: whatever the token library, the request and
    the fault plan, the store after the call is the store before it. *)
Theorem guards_and_lookups_never_write
  (jwt : Jsonwebtoken) (env : ProcessEnv) (req : Request.t) (w : World) :
  (forall email, db (snd (validateAdminEmail email w)) = db w)
  /\ (forall id, db (snd (getAdminById id w)) = db w)
  /\ (forall id, db (snd (getGuestById id w)) = db w)
  /\ (forall a h, db (snd (verifyAdminHotelAccess a h w)) = db w)
  /\ (forall g h, db (snd (verifyGuestHotelAccess g h w)) = db w)
  /\ db (snd (authenticateAdmin jwt env req w)) = db w
  /\ db (snd (authenticateGuest jwt env req w)) = db w
  /\ db (snd (authenticateUser jwt env req w)) = db w
  /\ db (snd (authorizeAdminHotel req w)) = db w
  /\ db (snd (authorizeGuestHotel req w)) = db w.
Proof.
  repeat split.
  - intros email. revert w. change (keepsDb (validateAdminEmail email)).
    unfold validateAdminEmail, prisma_admin.findUnique_email. keeps_db.
  - intros id. apply keepsDb_getAdminById.
  - intros id. apply keepsDb_getGuestById.
  - intros a h. apply keepsDb_verifyAdminHotelAccess.
  - intros g h. apply keepsDb_verifyGuestHotelAccess.
  - revert w. change (keepsDb (authenticateAdmin jwt env req)).
    unfold authenticateAdmin. keeps_db.
  - revert w. change (keepsDb (authenticateGuest jwt env req)).
    unfold authenticateGuest. keeps_db.
  - revert w. change (keepsDb (authenticateUser jwt env req)).
    unfold authenticateUser. keeps_db.
  - revert w. change (keepsDb (authorizeAdminHotel req)).
    unfold authorizeAdminHotel. keeps_db.
  - revert w. change (keepsDb (authorizeGuestHotel req)).
    unfold authorizeGuestHotel. keeps_db.
Qed.

(** ** extractTokenFromHeader *)

Lemma substring_whole (s : string) : String.substring 0 (String.length s) s = s.
Proof. induction s as [|c s IH]; simpl; [reflexivity | rewrite IH; reflexivity]. Qed.

(** X11. Both header forms carry the token: a header made of "Bearer "
    followed by a token yields that token, whatever the token; a
    non-empty header without that prefix is the token itself; an absent
    or empty header yields none. *)
Theorem extractTokenFromHeader_forms :
  (forall token, extractTokenFromHeader (Some (String.append "Bearer " token)) = Some token)
  /\ (forall header,
        header <> "" -> String.prefix "Bearer " header = false ->
        extractTokenFromHeader (Some header) = Some header)
  /\ extractTokenFromHeader None = None
  /\ extractTokenFromHeader (Some "") = None.
Proof.
  split; [|split; [|split; reflexivity]].
  - intros token. unfold extractTokenFromHeader. simpl.
    replace (String.prefix "" token) with true by (destruct token; reflexivity).
    rewrite Nat.sub_0_r. rewrite substring_whole. reflexivity.
  - intros header Hne Hpre. unfold extractTokenFromHeader. rewrite Hpre.
    unfold truthyString.
    destruct (String.eqb header "") eqn:E; [|reflexivity].
    apply String.eqb_eq in E. contradiction.
Qed.

(** ** Hotel ids written as numerals *)

Lemma parseDigits_digitsOf (fuel : nat) :
  forall (n : Z) (acc : string) (a : option Z),
    0 <= n < 2 ^ Z.of_nat (S fuel) ->
    match a with Some x => x | None => 0 end = 0 ->
    parseDigits (digitsOf (S fuel) n acc) a = parseDigits acc (Some n).
Proof.
  induction fuel as [|fuel IH]; intros n acc a Hn Ha.
  - change (2 ^ Z.of_nat 1) with 2 in Hn.
    cbn [digitsOf].
    replace (n / 10 =? 0) with true
      by (symmetry; apply Z.eqb_eq; Z.div_mod_to_equations; lia).
    cbn [parseDigits].
    destruct (digitChar_spec (n mod 10) (Z.mod_pos_bound n 10 eq_refl)) as [D1 [D2 _]].
    rewrite D1, D2, Ha. f_equal. f_equal. Z.div_mod_to_equations. lia.
  - assert (P : 2 ^ Z.of_nat (S (S fuel)) = 2 * 2 ^ Z.of_nat (S fuel)).
    { rewrite (Nat2Z.inj_succ (S fuel)). rewrite Z.pow_succ_r by lia. reflexivity. }
    change (digitsOf (S (S fuel)) n acc)
      with (if n / 10 =? 0 then String (digitChar (n mod 10)) acc
            else digitsOf (S fuel) (n / 10) (String (digitChar (n mod 10)) acc)).
    destruct (digitChar_spec (n mod 10) (Z.mod_pos_bound n 10 eq_refl)) as [D1 [D2 _]].
    destruct (n / 10 =? 0) eqn:E.
    + apply Z.eqb_eq in E. cbn [parseDigits]. rewrite D1, D2, Ha.
      f_equal. f_equal. Z.div_mod_to_equations. lia.
    + rewrite IH; [| |exact Ha].
      * cbn [parseDigits]. rewrite D1, D2. f_equal. f_equal.
        Z.div_mod_to_equations. lia.
      * assert (0 < 2 ^ Z.of_nat (S fuel)) by (apply Z.pow_pos_nonneg; lia).
        Z.div_mod_to_equations. lia.
Qed.

Lemma digitsOf_head (fuel : nat) :
  forall (n : Z) (acc : string),
    exists d rest, 0 <= d < 10 /\ digitsOf (S fuel) n acc = String (digitChar d) rest.
Proof.
  induction fuel as [|fuel IH]; intros n acc.
  - cbn [digitsOf]. exists (n mod 10).
    destruct (n / 10 =? 0); eexists; (split; [apply Z.mod_pos_bound; lia | reflexivity]).
  - change (digitsOf (S (S fuel)) n acc)
      with (if n / 10 =? 0 then String (digitChar (n mod 10)) acc
            else digitsOf (S fuel) (n / 10) (String (digitChar (n mod 10)) acc)).
    destruct (n / 10 =? 0).
    + exists (n mod 10). eexists. split; [apply Z.mod_pos_bound; lia | reflexivity].
    + apply IH.
Qed.

Lemma append_assoc (a b c : string) :
  String.append (String.append a b) c = String.append a (String.append b c).
Proof. induction a as [|x a IH]; simpl; [reflexivity | rewrite IH; reflexivity]. Qed.

Lemma digitsOf_acc (fuel : nat) :
  forall (n : Z) (acc : string),
    digitsOf fuel n acc = String.append (digitsOf fuel n "") acc.
Proof.
  induction fuel as [|fuel IH]; intros n acc; [reflexivity|].
  cbn [digitsOf]. destruct (n / 10 =? 0); [reflexivity|].
  rewrite IH. rewrite (IH (n / 10) (String (digitChar (n mod 10)) "")).
  rewrite append_assoc. reflexivity.
Qed.

Lemma log2_fuel (n : Z) : 0 <= n -> 0 <= n < 2 ^ Z.of_nat (S (Z.to_nat (Z.log2 n))).
Proof.
  intros Hn. split; [exact Hn|].
  rewrite Nat2Z.inj_succ, Z2Nat.id by apply Z.log2_nonneg.
  destruct (Z.eq_dec n 0) as [-> | Hz]; [reflexivity|].
  apply Z.log2_spec. lia.
Qed.

Lemma parseDigits_stop (rest : string) (a : option Z) :
  endsNumeral rest = true -> parseDigits rest a = a.
Proof.
  destruct rest as [|c rest]; simpl; [reflexivity|].
  intros H. apply negb_true_iff in H. rewrite H. reflexivity.
Qed.

(** [parseInt] reads the numeral of an integer as the Number nearest to
    it, and ignores what follows the numeral. *)
Lemma parseInt_decimal (n : Z) (rest : string) :
  endsNumeral rest = true ->
  parseInt (String.append (decimal n) rest) = roundToNumber n.
Proof.
  intros Hrest. unfold decimal.
  destruct (n <? 0) eqn:E.
  - apply Z.ltb_lt in E. cbn [String.append].
    unfold parseInt. cbn [trimStart].
    change (isStrWhiteSpace "-") with false.
    change (byte "-" <? 128) with true. cbv iota.
    rewrite <- digitsOf_acc.
    rewrite parseDigits_digitsOf; [| apply log2_fuel; lia | reflexivity].
    rewrite parseDigits_stop by exact Hrest. unfold numberOf.
    f_equal. lia.
  - apply Z.ltb_ge in E. rewrite <- digitsOf_acc.
    destruct (digitsOf_head (Z.to_nat (Z.log2 n)) n rest) as [d [tl [Hd Hhead]]].
    rewrite Hhead. rewrite parseInt_digit_first by exact Hd. rewrite <- Hhead.
    rewrite parseDigits_digitsOf; [| apply log2_fuel; lia | reflexivity].
    rewrite parseDigits_stop by exact Hrest. reflexivity.
Qed.

Lemma decimal_truthy (n : Z) (rest : string) :
  truthyString (String.append (decimal n) rest) = true.
Proof.
  unfold decimal. destruct (n <? 0); [reflexivity|].
  destruct (digitsOf_head (Z.to_nat (Z.log2 n)) n "") as [d [tl [_ H]]].
  rewrite H. reflexivity.
Qed.

Lemma append_empty (s : string) : String.append s "" = s.
Proof. induction s as [|c s IH]; simpl; [reflexivity | rewrite IH; reflexivity]. Qed.

(** The Number nearest to an integer other than 0 is not 0. *)
Lemma roundToNumber_truthy (n : Z) :
  truthyNumber (roundToNumber n) = negb (n =? 0)
  /\ roundToNumber n <> NaN.
Proof.
  unfold roundToNumber. cbv zeta.
  destruct (Z.abs n <=? 2 ^ 53) eqn:E; [split; [reflexivity | discriminate]|].
  apply Z.leb_gt in E. rewrite pow53 in E.
  set (a := Z.abs n) in *.
  set (ulp := 2 ^ (Z.log2 a - 52)).
  assert (La : 53 <= Z.log2 a).
  { change 53 with (Z.log2 9007199254740992). apply Z.log2_le_mono. lia. }
  assert (Hulp : 0 < ulp) by (apply Z.pow_pos_nonneg; lia).
  assert (Hle : ulp <= a).
  { transitivity (2 ^ Z.log2 a); [apply Z.pow_le_mono_r; lia|].
    apply Z.log2_spec. lia. }
  assert (Hq : 1 <= a / ulp).
  { apply Z.div_le_lower_bound; lia. }
  set (sig := if 2 * (a mod ulp) <? ulp then a / ulp
              else if ulp <? 2 * (a mod ulp) then a / ulp + 1
                   else if Z.even (a / ulp) then a / ulp else a / ulp + 1).
  assert (Hsig : 1 <= sig).
  { unfold sig. destruct (2 * (a mod ulp) <? ulp); [lia|].
    destruct (ulp <? 2 * (a mod ulp)); [lia|].
    destruct (Z.even (a / ulp)); lia. }
  replace (n =? 0) with false by (symmetry; apply Z.eqb_neq; lia).
  destruct (2 ^ 1024 <=? sig * ulp); [split; [reflexivity | discriminate]|].
  split; [|discriminate]. simpl. apply negb_true_iff. apply Z.eqb_neq.
  assert (0 < sig * ulp) by nia.
  destruct (Z.sgn_spec n) as [[? ->] | [[? ->] | [? ->]]]; lia.
Qed.

(** X12. A hotel id written as a decimal numeral is read as the Number
    nearest to the integer it denotes, and text after the numeral that
    does not start with a digit is ignored: a route parameter made of
    the numeral of [n] resolves to that Number, which is [n] itself up
    to [2 ^ 53]; so does a numeric [n] up to [2 ^ 53] in the body when
    the route has no such parameter.  [requireHotelId] then passes with
    [req.hotelId] set to it unless [n] is 0, which it answers with 400
    like a missing id. *)
Theorem hotel_id_numerals (req : Request.t) (n : Z) (rest : string) :
  endsNumeral rest = true ->
  (Request.params_hotelId req = JsString (String.append (decimal n) rest) ->
   requestedHotelId req = Normal (Some (roundToNumber n))
   /\ requireHotelId req
      = Normal (if n =? 0 then (req, Responded 400 "Valid hotel ID required")
                else (Request.setHotelId req (roundToNumber n), Next)))
  /\ (Z.abs n <= 2 ^ 53 -> roundToNumber n = Finite n)
  /\ (truthy (Request.params_hotelId req) = false ->
      Request.body_hotelId req = Some (JsNumber (Finite n)) ->
      n <> 0 -> Z.abs n <= 2 ^ 53 ->
      requestedHotelId req = Normal (Some (Finite n))
      /\ requireHotelId req = Normal (Request.setHotelId req (Finite n), Next)).
Proof.
  intros Hrest. split; [|split; [apply roundToNumber_safe|]].
  - intros Hp.
    assert (R : requestedHotelId req = Normal (Some (roundToNumber n))).
    { unfold requestedHotelId, parseIntOf. rewrite Hp. cbn [truthy ToString].
      rewrite decimal_truthy. rewrite parseInt_decimal by exact Hrest.
      reflexivity. }
    split; [exact R|]. unfold requireHotelId. rewrite R.
    destruct (roundToNumber_truthy n) as [T N].
    unfold truthyHotelId, isNaN. rewrite T.
    destruct (n =? 0); [reflexivity|]. cbn [negb].
    destruct (roundToNumber n); [contradiction | reflexivity | reflexivity].
  - intros Hp Hb Hn Hsafe.
    assert (R : requestedHotelId req = Normal (Some (Finite n))).
    { unfold requestedHotelId, parseIntOf. rewrite Hp, Hb. cbn [truthy truthyNumber ToString].
      replace (n =? 0) with false by (symmetry; apply Z.eqb_neq; exact Hn).
      cbn [negb]. rewrite Number_toString_safe by exact Hsafe.
      rewrite <- (append_empty (decimal n)).
      rewrite (parseInt_decimal n "" eq_refl).
      rewrite roundToNumber_safe by exact Hsafe. reflexivity. }
    split; [exact R|]. unfold requireHotelId. rewrite R.
    unfold truthyHotelId, isNaN, truthyNumber.
    replace (n =? 0) with false by (symmetry; apply Z.eqb_neq; exact Hn).
    reflexivity.
Qed.

Lemma hotel_id_numerals_witness :
  (requestedHotelId (asGuest (JsString "7abc") JsUndefined JsUndefined)
   = Normal (Some (roundToNumber 7))
   /\ requireHotelId (asGuest (JsString "7abc") JsUndefined JsUndefined)
      = Normal (Request.setHotelId (asGuest (JsString "7abc") JsUndefined JsUndefined)
                  (roundToNumber 7), Next))
  /\ (requestedHotelId (asGuest JsUndefined (JsNumber (Finite 8)) JsUndefined)
      = Normal (Some (Finite 8))
      /\ requireHotelId (asGuest JsUndefined (JsNumber (Finite 8)) JsUndefined)
         = Normal (Request.setHotelId
                     (asGuest JsUndefined (JsNumber (Finite 8)) JsUndefined) (Finite 8),
                   Next)).
Proof.
  split.
  - exact (proj1 (hotel_id_numerals (asGuest (JsString "7abc") JsUndefined JsUndefined)
                    7 "abc" eq_refl) eq_refl).
  - apply (proj2 (proj2 (hotel_id_numerals
                           (asGuest JsUndefined (JsNumber (Finite 8)) JsUndefined)
                           8 "" eq_refl))).
    + reflexivity.
    + reflexivity.
    + discriminate.
    + rewrite pow53. simpl. lia.
Defined.

Example hotel_id_edge_cases :
  requireHotelId (asGuest (JsString "7abc") JsUndefined JsUndefined)
  = Normal (Request.setHotelId (asGuest (JsString "7abc") JsUndefined JsUndefined)
              (Finite 7), Next)
  /\ requireHotelId (asGuest (JsString "-3") JsUndefined JsUndefined)
     = Normal (Request.setHotelId (asGuest (JsString "-3") JsUndefined JsUndefined)
                 (Finite (-3)), Next)
  /\ requireHotelId (asGuest (JsString "0") (JsNumber (Finite 8)) JsUndefined)
     = Normal (asGuest (JsString "0") (JsNumber (Finite 8)) JsUndefined,
               Responded 400 "Valid hotel ID required")
  /\ requireHotelId (asGuest JsUndefined (JsNumber (Finite 0)) (JsString "9"))
     = Normal (Request.setHotelId
                 (asGuest JsUndefined (JsNumber (Finite 0)) (JsString "9")) (Finite 9), Next)
  /\ requireHotelId (asGuest (JsString "9007199254740993") JsUndefined JsUndefined)
     = Normal (Request.setHotelId
                 (asGuest (JsString "9007199254740993") JsUndefined JsUndefined)
                 (Finite 9007199254740992), Next)
  /\ requireHotelId (asGuest (JsString (decimal (10 ^ 309))) JsUndefined JsUndefined)
     = Normal (Request.setHotelId
                 (asGuest (JsString (decimal (10 ^ 309))) JsUndefined JsUndefined)
                 (Infinity false), Next)
  /\ requireHotelId (withoutBody (asGuest JsUndefined JsUndefined (JsString "9")))
     = Throw (OtherError "TypeError").
Proof. vm_compute. repeat split. Qed.

(** ** The guards *)

Lemma getAdminById_run (w : World) (adminId : Z) :
  fst (getAdminById adminId w)
  = Normal (if faulty AdminFindUnique w then None
            else find (fun a => Admin.id a =? adminId) (admins (db w))).
Proof.
  unfold getAdminById, tryCatch, bind, ret, prisma_admin.findUnique_id, prisma.
  destruct (faulty AdminFindUnique w); reflexivity.
Qed.

Lemma getGuestById_run (w : World) (guestId : Z) :
  fst (getGuestById guestId w)
  = Normal (if faulty GuestFindUnique w then None
            else find (fun g => Guest.id g =? guestId) (guests (db w))).
Proof.
  unfold getGuestById, tryCatch, bind, ret, prisma_guest.findUnique_id, prisma.
  destruct (faulty GuestFindUnique w); reflexivity.
Qed.

Lemma truthyString_nonempty (s : string) : truthyString s = true -> s <> "".
Proof. unfold truthyString. intros H ->. discriminate. Qed.

Lemma verifyToken_bind {B}
  (jwt : Jsonwebtoken) (env : ProcessEnv) (token : string)
  (k : option AuthPayload -> Js B) (w : World) :
  bind (verifyToken jwt env token) k w
  = k (match jwt_verify jwt token (JWT_SECRET env) "zapmenu" (now w) with
       | Normal p => Some p
       | Throw _ => None
       end) (snd (verifyToken jwt env token w)).
Proof.
  unfold bind. destruct (verifyToken_run jwt env token w) as [Hv _].
  destruct (verifyToken jwt env token w) as [r w1]. simpl in Hv. subst r. reflexivity.
Qed.

Lemma getAdminById_bind {B} (adminId : Z) (k : option Admin.t -> Js B) (w : World) :
  bind (getAdminById adminId) k w
  = k (if faulty AdminFindUnique w then None
       else find (fun a => Admin.id a =? adminId) (admins (db w)))
      (snd (getAdminById adminId w)).
Proof.
  unfold bind. pose proof (getAdminById_run w adminId) as H.
  destruct (getAdminById adminId w) as [r w1]. simpl in H. subst r. reflexivity.
Qed.

Lemma getGuestById_bind {B} (guestId : Z) (k : option Guest.t -> Js B) (w : World) :
  bind (getGuestById guestId) k w
  = k (if faulty GuestFindUnique w then None
       else find (fun g => Guest.id g =? guestId) (guests (db w)))
      (snd (getGuestById guestId w)).
Proof.
  unfold bind. pose proof (getGuestById_run w guestId) as H.
  destruct (getGuestById guestId w) as [r w1]. simpl in H. subst r. reflexivity.
Qed.

(** Every run of the three authenticating guards once a non-empty
    token has been extracted. *)
Lemma authenticate_with_token
  (jwt : Jsonwebtoken) (env : ProcessEnv) (req : Request.t) (w : World) (token : string) :
  extractTokenFromHeader (Request.authorization req) = Some token ->
  truthyString token = true ->
  let lookupAdmin id :=
    if faulty AdminFindUnique w then None
    else find (fun a => Admin.id a =? id) (admins (db w)) in
  let lookupGuest id :=
    if faulty GuestFindUnique w then None
    else find (fun g => Guest.id g =? id) (guests (db w)) in
  let asAdminOf adminId hotelId email :=
    match lookupAdmin adminId with
    | None => (req, Responded 401 "Admin not found")
    | Some admin =>
        (Request.setAdmin req
           (AdminPrincipal.mk adminId hotelId email (Admin.id admin)
              (Admin.name admin) (Admin.phone admin)) hotelId, Next)
    end in
  let asGuestOf guestId email :=
    match lookupGuest guestId with
    | None => (req, Responded 401 "Guest not found")
    | Some guest =>
        (Request.setGuest req
           (GuestPrincipal.mk guestId email (Guest.id guest) (Guest.name guest)), Next)
    end in
  fst (authenticateAdmin jwt env req w)
  = Normal (match jwt_verify jwt token (JWT_SECRET env) "zapmenu" (now w) with
            | Normal (AdminAuthPayload adminId hotelId email) =>
                asAdminOf adminId hotelId email
            | _ => (req, Responded 401 "Invalid token or not an admin token")
            end)
  /\ fst (authenticateGuest jwt env req w)
     = Normal (match jwt_verify jwt token (JWT_SECRET env) "zapmenu" (now w) with
               | Normal (GuestAuthPayload guestId email) => asGuestOf guestId email
               | _ => (req, Responded 401 "Invalid token or not a guest token")
               end)
  /\ fst (authenticateUser jwt env req w)
     = Normal (match jwt_verify jwt token (JWT_SECRET env) "zapmenu" (now w) with
               | Normal (AdminAuthPayload adminId hotelId email) =>
                   asAdminOf adminId hotelId email
               | Normal (GuestAuthPayload guestId email) => asGuestOf guestId email
               | Normal (UntypedPayload _) => (req, Responded 401 "Invalid token type")
               | Throw _ => (req, Responded 401 "Invalid token")
               end).
Proof.
  intros Htok Ht lookupAdmin lookupGuest asAdminOf asGuestOf.
  subst asAdminOf asGuestOf lookupAdmin lookupGuest.
  destruct (verifyToken_run jwt env token w) as [_ [Hdb Hfl]].
  assert (Hfa : forall op, faulty op (snd (verifyToken jwt env token w)) = faulty op w).
  { intros op. unfold faulty. rewrite Hfl. reflexivity. }
  split; [|split].
  - unfold authenticateAdmin, tryCatch. rewrite Htok, Ht. change (negb true) with false. cbv iota.
    rewrite verifyToken_bind.
    destruct (jwt_verify jwt token (JWT_SECRET env) "zapmenu" (now w)) as [p|e];
      [|reflexivity].
    destruct p as [adminId hotelId email | guestId email | ty]; try reflexivity.
    rewrite getAdminById_bind. rewrite Hfa, Hdb.
    destruct (if faulty AdminFindUnique w then None else _); reflexivity.
  - unfold authenticateGuest, tryCatch. rewrite Htok, Ht. change (negb true) with false. cbv iota.
    rewrite verifyToken_bind.
    destruct (jwt_verify jwt token (JWT_SECRET env) "zapmenu" (now w)) as [p|e];
      [|reflexivity].
    destruct p as [adminId hotelId email | guestId email | ty]; try reflexivity.
    rewrite getGuestById_bind. rewrite Hfa, Hdb.
    destruct (if faulty GuestFindUnique w then None else _); reflexivity.
  - unfold authenticateUser, tryCatch. rewrite Htok, Ht. change (negb true) with false. cbv iota.
    rewrite verifyToken_bind.
    destruct (jwt_verify jwt token (JWT_SECRET env) "zapmenu" (now w)) as [p|e];
      [|reflexivity].
    destruct p as [adminId hotelId email | guestId email | ty]; try reflexivity.
    + rewrite getAdminById_bind. rewrite Hfa, Hdb.
      destruct (if faulty AdminFindUnique w then None else _); reflexivity.
    + rewrite getGuestById_bind. rewrite Hfa, Hdb.
      destruct (if faulty GuestFindUnique w then None else _); reflexivity.
Qed.

Lemma authenticate_without_token
  (jwt : Jsonwebtoken) (env : ProcessEnv) (req : Request.t) (w : World) :
  match extractTokenFromHeader (Request.authorization req) with
  | Some token => truthyString token = false
  | None => True
  end ->
  fst (authenticateAdmin jwt env req w) = Normal (req, Responded 401 "Authentication required")
  /\ fst (authenticateGuest jwt env req w)
     = Normal (req, Responded 401 "Authentication required")
  /\ fst (authenticateUser jwt env req w)
     = Normal (req, Responded 401 "Authentication required").
Proof.
  unfold authenticateAdmin, authenticateGuest, authenticateUser, tryCatch.
  destruct (extractTokenFromHeader (Request.authorization req)) as [token|].
  - intros ->. repeat split; reflexivity.
  - intros _. repeat split; reflexivity.
Qed.

Lemma authenticateAdmin_holds
  (jwt : Jsonwebtoken) (env : ProcessEnv) (req : Request.t) (w : World) :
  exists req' o,
    fst (authenticateAdmin jwt env req w) = Normal (req', o)
    /\ (forall s e, o = Responded s e -> s = 401 /\ req' = req)
    /\ (o = Next ->
        exists token adminId hotelId email admin,
          extractTokenFromHeader (Request.authorization req) = Some token
          /\ token <> ""
          /\ jwt_verify jwt token (JWT_SECRET env) "zapmenu" (now w)
             = Normal (AdminAuthPayload adminId hotelId email)
          /\ In admin (admins (db w))
          /\ Admin.id admin = adminId
          /\ req' = Request.setAdmin req
                      (AdminPrincipal.mk adminId hotelId email adminId
                         (Admin.name admin) (Admin.phone admin)) hotelId).
Proof.
  destruct (extractTokenFromHeader (Request.authorization req)) as [token|] eqn:Htok.
  2:{ destruct (authenticate_without_token jwt env req w) as [H _];
        [rewrite Htok; exact I|].
      rewrite H. eexists. eexists. split; [reflexivity|].
      split; [intros s e [= <- _]; auto | discriminate]. }
  destruct (truthyString token) eqn:Ht.
  2:{ destruct (authenticate_without_token jwt env req w) as [H _];
        [rewrite Htok; exact Ht|].
      rewrite H. eexists. eexists. split; [reflexivity|].
      split; [intros s e [= <- _]; auto | discriminate]. }
  destruct (authenticate_with_token jwt env req w token Htok Ht) as [H _].
  rewrite H. clear H.
  destruct (jwt_verify jwt token (JWT_SECRET env) "zapmenu" (now w)) as [p|e] eqn:Hv.
  2:{ eexists. eexists. split; [reflexivity|].
      split; [intros s e' [= <- _]; auto | discriminate]. }
  destruct p as [adminId hotelId email | guestId email | ty];
    try (eexists; eexists; split; [reflexivity|];
         split; [intros s e' [= <- _]; auto | discriminate]).
  destruct (if faulty AdminFindUnique w then None
            else find (fun a => Admin.id a =? adminId) (admins (db w)))
    as [admin|] eqn:Ha.
  2:{ eexists. eexists. split; [reflexivity|].
      split; [intros s e' [= <- _]; auto | discriminate]. }
  eexists. eexists. split; [reflexivity|]. split; [discriminate|]. intros _.
  destruct (faulty AdminFindUnique w); [discriminate|].
  apply find_some in Ha as [Hin Hid]. apply Z.eqb_eq in Hid.
  exists token, adminId, hotelId, email, admin.
  repeat split; auto.
  - apply truthyString_nonempty. exact Ht.
  - rewrite Hid. reflexivity.
Qed.

(** X13. [authenticateAdmin] never throws and never answers 500.  It
    calls [next()] only for a non-empty token that [jwt.verify] accepts
    with an admin payload whose [adminId] is the id of a stored admin,
    and then attaches the token's claims with that admin's stored name
    and phone.  In every other case it answers 401 and leaves the
    request as it was. *)
Theorem authenticateAdmin_sound
  (jwt : Jsonwebtoken) (env : ProcessEnv) (req : Request.t) (w : World) :
  exists req' o,
    fst (authenticateAdmin jwt env req w) = Normal (req', o)
    /\ (forall s e, o = Responded s e -> s = 401 /\ req' = req)
    /\ (o = Next ->
        exists token adminId hotelId email admin,
          extractTokenFromHeader (Request.authorization req) = Some token
          /\ token <> ""
          /\ jwt_verify jwt token (JWT_SECRET env) "zapmenu" (now w)
             = Normal (AdminAuthPayload adminId hotelId email)
          /\ In admin (admins (db w))
          /\ Admin.id admin = adminId
          /\ req' = Request.setAdmin req
                      (AdminPrincipal.mk adminId hotelId email adminId
                         (Admin.name admin) (Admin.phone admin)) hotelId).
Proof. intros. apply authenticateAdmin_holds; assumption. Qed.

Lemma authenticateGuest_holds
  (jwt : Jsonwebtoken) (env : ProcessEnv) (req : Request.t) (w : World) :
  exists req' o,
    fst (authenticateGuest jwt env req w) = Normal (req', o)
    /\ (forall s e, o = Responded s e -> s = 401 /\ req' = req)
    /\ (o = Next ->
        exists token guestId email guest,
          extractTokenFromHeader (Request.authorization req) = Some token
          /\ token <> ""
          /\ jwt_verify jwt token (JWT_SECRET env) "zapmenu" (now w)
             = Normal (GuestAuthPayload guestId email)
          /\ In guest (guests (db w))
          /\ Guest.id guest = guestId
          /\ req' = Request.setGuest req
                      (GuestPrincipal.mk guestId email guestId (Guest.name guest))).
Proof.
  destruct (extractTokenFromHeader (Request.authorization req)) as [token|] eqn:Htok.
  2:{ destruct (authenticate_without_token jwt env req w) as [_ [H _]];
        [rewrite Htok; exact I|].
      rewrite H. eexists. eexists. split; [reflexivity|].
      split; [intros s e [= <- _]; auto | discriminate]. }
  destruct (truthyString token) eqn:Ht.
  2:{ destruct (authenticate_without_token jwt env req w) as [_ [H _]];
        [rewrite Htok; exact Ht|].
      rewrite H. eexists. eexists. split; [reflexivity|].
      split; [intros s e [= <- _]; auto | discriminate]. }
  destruct (authenticate_with_token jwt env req w token Htok Ht) as [_ [H _]].
  rewrite H. clear H.
  destruct (jwt_verify jwt token (JWT_SECRET env) "zapmenu" (now w)) as [p|e] eqn:Hv.
  2:{ eexists. eexists. split; [reflexivity|].
      split; [intros s e' [= <- _]; auto | discriminate]. }
  destruct p as [adminId hotelId email | guestId email | ty];
    try (eexists; eexists; split; [reflexivity|];
         split; [intros s e' [= <- _]; auto | discriminate]).
  destruct (if faulty GuestFindUnique w then None
            else find (fun g => Guest.id g =? guestId) (guests (db w)))
    as [guest|] eqn:Hg.
  2:{ eexists. eexists. split; [reflexivity|].
      split; [intros s e' [= <- _]; auto | discriminate]. }
  eexists. eexists. split; [reflexivity|]. split; [discriminate|]. intros _.
  destruct (faulty GuestFindUnique w); [discriminate|].
  apply find_some in Hg as [Hin Hid]. apply Z.eqb_eq in Hid.
  exists token, guestId, email, guest.
  repeat split; auto.
  - apply truthyString_nonempty. exact Ht.
  - rewrite Hid. reflexivity.
Qed.

(** X14. [authenticateGuest] never throws and never answers 500.  It
    calls [next()] only for a non-empty token that [jwt.verify] accepts
    with a guest payload whose [guestId] is the id of a stored guest,
    and then attaches the token's claims with that guest's stored name.
    In every other case it answers 401 and leaves the request as it
    was. *)
Theorem authenticateGuest_sound
  (jwt : Jsonwebtoken) (env : ProcessEnv) (req : Request.t) (w : World) :
  exists req' o,
    fst (authenticateGuest jwt env req w) = Normal (req', o)
    /\ (forall s e, o = Responded s e -> s = 401 /\ req' = req)
    /\ (o = Next ->
        exists token guestId email guest,
          extractTokenFromHeader (Request.authorization req) = Some token
          /\ token <> ""
          /\ jwt_verify jwt token (JWT_SECRET env) "zapmenu" (now w)
             = Normal (GuestAuthPayload guestId email)
          /\ In guest (guests (db w))
          /\ Guest.id guest = guestId
          /\ req' = Request.setGuest req
                      (GuestPrincipal.mk guestId email guestId (Guest.name guest))).
Proof. intros. apply authenticateGuest_holds; assumption. Qed.

(** X15. [authenticateUser] decides as the specific guard of the
    token's kind: on a token verified as an admin token it answers as
    [authenticateAdmin], on one verified as a guest token as
    [authenticateGuest]; a token of another type, a token [jwt.verify]
    rejects and a missing token are answered with 401, the request
    unchanged. *)
Theorem authenticateUser_dispatch
  (jwt : Jsonwebtoken) (env : ProcessEnv) (req : Request.t) (w : World) :
  match extractTokenFromHeader (Request.authorization req) with
  | Some token =>
      if truthyString token
      then
        match jwt_verify jwt token (JWT_SECRET env) "zapmenu" (now w) with
        | Normal (AdminAuthPayload _ _ _) =>
            fst (authenticateUser jwt env req w) = fst (authenticateAdmin jwt env req w)
        | Normal (GuestAuthPayload _ _) =>
            fst (authenticateUser jwt env req w) = fst (authenticateGuest jwt env req w)
        | Normal (UntypedPayload _) =>
            fst (authenticateUser jwt env req w)
            = Normal (req, Responded 401 "Invalid token type")
        | Throw _ =>
            fst (authenticateUser jwt env req w) = Normal (req, Responded 401 "Invalid token")
        end
      else fst (authenticateUser jwt env req w)
           = Normal (req, Responded 401 "Authentication required")
  | None =>
      fst (authenticateUser jwt env req w)
      = Normal (req, Responded 401 "Authentication required")
  end.
Proof.
  destruct (extractTokenFromHeader (Request.authorization req)) as [token|] eqn:Htok.
  2:{ destruct (authenticate_without_token jwt env req w) as [_ [_ H]];
        [rewrite Htok; exact I | exact H]. }
  destruct (truthyString token) eqn:Ht.
  2:{ destruct (authenticate_without_token jwt env req w) as [_ [_ H]];
        [rewrite Htok; exact Ht | exact H]. }
  destruct (authenticate_with_token jwt env req w token Htok Ht) as [HA [HG HU]].
  rewrite HA, HG, HU.
  destruct (jwt_verify jwt token (JWT_SECRET env) "zapmenu" (now w)) as [p|e];
    [|reflexivity].
  destruct p; reflexivity.
Qed.

(** X16. The hotel-scoping guards never throw.  [authorizeAdminHotel]
    calls [next()] only with [req.hotelId] set to the hotel stored for
    the authenticated admin, whatever hotel the request or the token
    names; [authorizeGuestHotel] calls [next()] only with [req.hotelId]
    set to a non-zero hotel at which an order of the authenticated guest
    is stored.  Otherwise they answer 401, 400, 403 or 500 and leave the
    request as it was; the answer is 500 exactly when a principal is
    attached and reading the hotel id throws. *)
Theorem hotel_scoping_sound (req : Request.t) (w : World) :
  (exists req' o,
      fst (authorizeAdminHotel req w) = Normal (req', o)
      /\ (forall s e, o = Responded s e -> (s = 401 \/ s = 403 \/ s = 500) /\ req' = req)
      /\ ((exists e, o = Responded 500 e)
          <-> Request.admin req <> None /\ exists err, requestedHotelId req = Throw err)
      /\ (o = Next ->
          exists principal admin,
            Request.admin req = Some principal
            /\ In admin (admins (db w))
            /\ Admin.id admin = AdminPrincipal.adminId principal
            /\ req' = Request.setHotelId req (Finite (Admin.hotelId admin))))
  /\ (exists req' o,
      fst (authorizeGuestHotel req w) = Normal (req', o)
      /\ (forall s e, o = Responded s e ->
                      (s = 401 \/ s = 400 \/ s = 403 \/ s = 500) /\ req' = req)
      /\ ((exists e, o = Responded 500 e)
          <-> Request.guest req <> None /\ exists err, requestedHotelId req = Throw err)
      /\ (o = Next ->
          exists principal order,
            Request.guest req = Some principal
            /\ In order (orders (db w))
            /\ Order.guestId order = GuestPrincipal.guestId principal
            /\ Order.hotelId order <> 0
            /\ req' = Request.setHotelId req (Finite (Order.hotelId order)))).
Proof.
  split.
  - destruct (Request.admin req) as [principal|] eqn:Hp.
    2:{ unfold authorizeAdminHotel, tryCatch. rewrite Hp. simpl.
        eexists. eexists. split; [reflexivity|].
        split; [intros s e [= <- _]; auto|].
        split; [|discriminate].
        split; [intros [e [=]] | intros [H _]; contradiction]. }
    destruct (requestedHotelId req) as [hotelId|err] eqn:Hr.
    2:{ rewrite (proj1 (authorize_hotel_throws req w err Hr) principal Hp).
        eexists. eexists. split; [reflexivity|].
        split; [intros s e [= <- _]; auto|].
        split; [|discriminate].
        split; [intros _; split; [discriminate | eauto] | intros _; eauto]. }
    pose proof (authorizeAdminHotel_run req w principal hotelId Hp Hr) as R.
    assert (No500 : forall m,
               (exists e, Responded 403 m = Responded 500 e)
               <-> Some principal <> None /\ exists err, Normal hotelId = Throw err).
    { intros m. split; [intros [e [=]] | intros [_ [err [=]]]]. }
    destruct (orElse hotelId (AdminPrincipal.hotelId principal)) as [|sgn|target].
    + rewrite R. eexists. eexists. split; [reflexivity|].
      split; [intros s e [= <- _]; auto|]. split; [apply No500 | discriminate].
    + rewrite R. eexists. eexists. split; [reflexivity|].
      split; [intros s e [= <- _]; auto|]. split; [apply No500 | discriminate].
    + destruct R as [b [Hb Hres]]. rewrite Hres.
      rewrite verifyAdminHotelAccess_run in Hb. injection Hb as Hb.
      destruct b.
      * eexists. eexists. split; [reflexivity|]. split; [discriminate|].
        split; [split; [intros [e [=]] | intros [_ [err [=]]]]|]. intros _.
        destruct (faulty AdminFindUnique w); [discriminate|].
        destruct (find _ (admins (db w))) as [admin|] eqn:Ha; [|discriminate].
        apply find_some in Ha as [Hin Hid]. apply Z.eqb_eq in Hid.
        apply Z.eqb_eq in Hb.
        exists principal, admin. repeat split; auto. rewrite Hb. reflexivity.
      * eexists. eexists. split; [reflexivity|].
        split; [intros s e [= <- _]; auto|]. split; [apply No500 | discriminate].
  - destruct (Request.guest req) as [principal|] eqn:Hp.
    2:{ unfold authorizeGuestHotel, tryCatch. rewrite Hp. simpl.
        eexists. eexists. split; [reflexivity|].
        split; [intros s e [= <- _]; auto|].
        split; [|discriminate].
        split; [intros [e [=]] | intros [H _]; contradiction]. }
    destruct (requestedHotelId req) as [hotelId|err] eqn:Hr.
    2:{ rewrite (proj2 (authorize_hotel_throws req w err Hr) principal Hp).
        eexists. eexists. split; [reflexivity|].
        split; [intros s e [= <- _]; auto 6|].
        split; [|discriminate].
        split; [intros _; split; [discriminate | eauto] | intros _; eauto]. }
    pose proof (authorizeGuestHotel_run req w principal hotelId Hp Hr) as R.
    assert (No500 : forall c m, c <> 500 ->
               (exists e, Responded c m = Responded 500 e)
               <-> Some principal <> None /\ exists err, Normal hotelId = Throw err).
    { intros c m Hc. split; [intros [e [= E]]; contradiction | intros [_ [err [=]]]]. }
    destruct (truthyHotelId hotelId) as [[|sgn|target]|] eqn:Hh.
    + rewrite R. eexists. eexists. split; [reflexivity|].
      split; [intros s e [= <- _]; auto 6|].
      split; [apply No500; discriminate | discriminate].
    + rewrite R. eexists. eexists. split; [reflexivity|].
      split; [intros s e [= <- _]; auto 6|].
      split; [apply No500; discriminate | discriminate].
    + destruct R as [b [Hb Hres]]. rewrite Hres.
      rewrite verifyGuestHotelAccess_run in Hb. injection Hb as Hb.
      destruct b.
      * eexists. eexists. split; [reflexivity|]. split; [discriminate|].
        split; [split; [intros [e [=]] | intros [_ [err [=]]]]|]. intros _.
        destruct (faulty OrderFindFirst w); [discriminate|].
        apply existsb_exists in Hb as [order [Hin Ho]].
        apply andb_true_iff in Ho as [Hg Hho].
        apply Z.eqb_eq in Hg. apply Z.eqb_eq in Hho.
        exists principal, order. repeat split; auto.
        -- rewrite Hho. unfold truthyHotelId in Hh.
           destruct hotelId as [n|]; [|discriminate].
           destruct (truthyNumber n) eqn:T; [|discriminate].
           injection Hh as ->. simpl in T. apply negb_true_iff in T.
           apply Z.eqb_neq. exact T.
        -- rewrite Hho. reflexivity.
      * eexists. eexists. split; [reflexivity|].
        split; [intros s e [= <- _]; auto 6|].
        split; [apply No500; discriminate | discriminate].
    + rewrite R. eexists. eexists. split; [reflexivity|].
      split; [intros s e [= <- _]; auto 6|].
      split; [apply No500; discriminate | discriminate].
Qed.

Lemma andThen_sync
  (first : Request.t -> Js (Request.t * Outcome))
  (second : Request.t -> Request.t * Outcome) (req : Request.t) (w : World) :
  fst (andThen first (fun r => ret (second r)) req w)
  = match fst (first req w) with
    | Normal (req', Next) => Normal (second req')
    | Normal (req', Responded s e) => Normal (req', Responded s e)
    | Throw e => Throw e
    end.
Proof.
  unfold andThen, bind, ret.
  destruct (first req w) as [[[req' [|s e]]|e] w']; reflexivity.
Qed.

(** X17. On a request that carries no principal yet, [authenticateUser]
    followed by [requireAdmin] lets through exactly what
    [authenticateAdmin] lets through, with the same request, and
    [authenticateUser] followed by [requireGuest] exactly what
    [authenticateGuest] lets through. *)
Theorem authenticateUser_then_require
  (jwt : Jsonwebtoken) (env : ProcessEnv) (req : Request.t) (w : World) (req' : Request.t) :
  Request.admin req = None ->
  Request.guest req = None ->
  (fst (andThen (authenticateUser jwt env) (fun r => ret (requireAdmin r)) req w)
   = Normal (req', Next)
   <-> fst (authenticateAdmin jwt env req w) = Normal (req', Next))
  /\ (fst (andThen (authenticateUser jwt env) (fun r => ret (requireGuest r)) req w)
      = Normal (req', Next)
      <-> fst (authenticateGuest jwt env req w) = Normal (req', Next)).
Proof.
  intros HA0 HG0. rewrite !andThen_sync.
  destruct (extractTokenFromHeader (Request.authorization req)) as [token|] eqn:Htok.
  2:{ destruct (authenticate_without_token jwt env req w) as [H1 [H2 H3]];
        [rewrite Htok; exact I|].
      rewrite H1, H2, H3. split; split; discriminate. }
  destruct (truthyString token) eqn:Ht.
  2:{ destruct (authenticate_without_token jwt env req w) as [H1 [H2 H3]];
        [rewrite Htok; exact Ht|].
      rewrite H1, H2, H3. split; split; discriminate. }
  destruct (authenticate_with_token jwt env req w token Htok Ht) as [H1 [H2 H3]].
  rewrite H1, H2, H3. clear H1 H2 H3.
  destruct (jwt_verify jwt token (JWT_SECRET env) "zapmenu" (now w)) as [p|e].
  2:{ split; split; discriminate. }
  destruct p as [adminId hotelId email | guestId email | ty].
  - destruct (if faulty AdminFindUnique w then None else _) as [admin|].
    + unfold requireAdmin, requireGuest. simpl. rewrite HG0.
      split; split; try discriminate; auto.
    + split; split; discriminate.
  - destruct (if faulty GuestFindUnique w then None else _) as [guest|].
    + unfold requireAdmin, requireGuest. simpl. rewrite HA0.
      split; split; try discriminate; auto.
    + split; split; discriminate.
  - split; split; discriminate.
Qed.

Lemma authenticateUser_then_require_witness :
  (fst (andThen (authenticateUser sampleJwt sampleEnv) (fun r => ret (requireAdmin r))
          (bearer "admin-1") sampleWorld)
   = Normal (Request.setAdmin (bearer "admin-1")
               (AdminPrincipal.mk 1 7 "a@hotel.com" 1 "Ann" "555") 7, Next)
   <-> fst (authenticateAdmin sampleJwt sampleEnv (bearer "admin-1") sampleWorld)
       = Normal (Request.setAdmin (bearer "admin-1")
                   (AdminPrincipal.mk 1 7 "a@hotel.com" 1 "Ann" "555") 7, Next))
  /\ (fst (andThen (authenticateUser sampleJwt sampleEnv) (fun r => ret (requireGuest r))
             (bearer "admin-1") sampleWorld)
      = Normal (Request.setAdmin (bearer "admin-1")
                  (AdminPrincipal.mk 1 7 "a@hotel.com" 1 "Ann" "555") 7, Next)
      <-> fst (authenticateGuest sampleJwt sampleEnv (bearer "admin-1") sampleWorld)
          = Normal (Request.setAdmin (bearer "admin-1")
                      (AdminPrincipal.mk 1 7 "a@hotel.com" 1 "Ann" "555") 7, Next)).
Proof.
  exact (authenticateUser_then_require sampleJwt sampleEnv (bearer "admin-1") sampleWorld
           (Request.setAdmin (bearer "admin-1")
              (AdminPrincipal.mk 1 7 "a@hotel.com" 1 "Ann" "555") 7)
           eq_refl eq_refl).
Defined.

(** ** The routes *)

Lemma bind_Normal {A B} (m : Js A) (k : A -> Js B) (w w' : World) (a : A) :
  m w = (Normal a, w') -> bind m k w = k a w'.
Proof. intros H. unfold bind. rewrite H. reflexivity. Qed.

Lemma pair_eta {A B} (p : A * B) (a : A) : fst p = a -> p = (a, snd p).
Proof. destruct p. simpl. intros ->. reflexivity. Qed.

Lemma verifyAdminPasscode_now (w : World) (email passcode : string) :
  now (snd (verifyAdminPasscode email passcode w)) = now w.
Proof.
  rewrite verifyAdminPasscode_run. cbv zeta.
  repeat match goal with
         | |- context [if ?b then _ else _] => destruct b
         | |- context [match ?x with _ => _ end] => destruct x
         end; reflexivity.
Qed.

Lemma present_Some (s : string) : s <> "" -> present (Some s) = Some s.
Proof.
  intros H. unfold present, truthyString.
  destruct (String.eqb s "") eqn:E; [|reflexivity].
  apply String.eqb_eq in E. contradiction.
Qed.

Lemma sixDigits_nonempty (s : string) : sixDigits s = true -> s <> "".
Proof. intros H ->. discriminate. Qed.

(** X18. The admin login through the routes, with a fault-free
    repository, times within [plainTimes] and no change of the clocks
    in the next ten minutes.  For the email of a stored admin,
    [POST /admin/request-verification] answers 200 with a six-digit
    passcode expiring in ten minutes; [POST /admin/verify] with that
    email and passcode, at any time before the expiry, answers 200 with
    the token signed for that admin's id and hotel and the email of the
    request, and 500 when signing throws. *)
Theorem admin_login_routes
  (jwt : Jsonwebtoken) (env : ProcessEnv) (w : World) (email : string) (admin : Admin.t)
  (d : Z) :
  faults w = [] ->
  email <> "" ->
  find (fun a => String.eqb (Admin.email a) email) (admins (db w)) = Some admin ->
  plainTimes (timeZone w) (now w) 10 ->
  steadyZone (timeZone w) (now w) 10 ->
  0 <= d < 600000 ->
  exists p,
    sixDigits p = true
    /\ fst (requestVerificationRoute (AuthBody.mk (Some email) None None) w)
       = Normal (mkResponse 200
                   (VerificationJson "Verification code sent" (Some p)
                      (Some (now w + 600000))))
    /\ let w1 := advance d
                   (snd (requestVerificationRoute (AuthBody.mk (Some email) None None) w)) in
       fst (verifyRoute jwt env (AuthBody.mk (Some email) (Some p) None) w1)
       = Normal
           match jwt_sign jwt (AdminAuthPayload (Admin.id admin) (Admin.hotelId admin) email)
                   (JWT_SECRET env)
                   (mkSignOptions (JWT_EXPIRES_IN env) "zapmenu"
                      (String.append "admin:" (Number_toString (Admin.id admin))))
                   (now w + d) with
           | Normal token =>
               mkResponse 200
                 (AdminSessionJson "Authentication successful" token
                    (Some (Admin.id admin)) (Some (Admin.hotelId admin)))
           | Throw _ => mkResponse 500 (ErrorJson "Failed to verify passcode")
           end.
Proof.
  intros Hf Hne Ha Hplain Hsteady Hd.
  assert (F : forall op, faulty op w = false) by (intros op; unfold faulty; rewrite Hf; reflexivity).
  (* the first route *)
  destruct (validateAdminEmail_holds w email) as [r [Hr [_ Hok]]].
  rewrite (F AdminFindUnique) in Hr. specialize (Hok (F AdminFindUnique)).
  rewrite Ha in Hok. destruct Hok as [-> _].
  pose proof (createAdminVerification_run w (Admin.id admin) 10) as Hc. cbv zeta in Hc.
  rewrite !F in Hc.
  pose proof (find_some _ _ Ha) as [Hin _].
  destruct (find_some_exists (fun a => Admin.id a =? Admin.id admin) _ admin Hin
              (Z.eqb_refl _)) as [a' Ha'].
  rewrite Ha' in Hc. rewrite (expiryDate_steady _ _ _ Hplain Hsteady) in Hc.
  set (p := AdminVerification.passcode
              (newVerification (Admin.id admin) (now w + 10 * 60000) w)) in *.
  assert (Hp : sixDigits p = true).
  { unfold p, newVerification. simpl. apply Number_toString_sixDigits.
    pose proof (randomInt_of_range 100000 999999 (entropy w (drawn w)) eq_refl). lia. }
  assert (R1 : requestVerificationRoute (AuthBody.mk (Some email) None None) w
               = (Normal (mkResponse 200
                            (VerificationJson "Verification code sent" (Some p)
                               (Some (now w + 10 * 60000)))),
                  snd (createAdminVerification (Admin.id admin) 10 w))).
  { unfold requestVerificationRoute, tryCatch. cbn [AuthBody.email].
    rewrite (present_Some email Hne).
    rewrite (bind_Normal _ _ _ _ _ Hr).
    cbn [negb VerifyPasscodeResult.success VerifyPasscodeResult.adminId].
    rewrite (bind_Normal _ _ _ _ _ Hc). rewrite Hc. reflexivity. }
  exists p. split; [exact Hp|]. rewrite R1. split; [reflexivity|].
  cbn [snd]. cbv zeta.
  (* the second route *)
  set (w1 := advance d (snd (createAdminVerification (Admin.id admin) 10 w))).
  destruct (create_then_verify_holds w email admin 10 d Hf Ha Hplain Hsteady)
    as [p' [Hp' Hv]]; [lia|].
  rewrite Hc in Hp'. simpl in Hp'. injection Hp' as Hp'. fold p in Hp'. subst p'.
  fold w1 in Hv.
  pose proof (verifyAdminPasscode_now w1 email p) as Hnow.
  apply pair_eta in Hv.
  unfold verifyRoute, tryCatch. cbn [AuthBody.email AuthBody.passcode].
  rewrite (present_Some email Hne).
  rewrite (present_Some p (sixDigits_nonempty p Hp)).
  rewrite (bind_Normal _ _ _ _ _ Hv).
  cbn [negb VerifyPasscodeResult.success VerifyPasscodeResult.adminId
         VerifyPasscodeResult.hotelId].
  unfold bind, generateAdminToken, ret. rewrite Hnow.
  replace (now w1) with (now w + d).
  2:{ unfold w1. rewrite Hc. reflexivity. }
  destruct (jwt_sign jwt _ _ _ _); reflexivity.
Qed.

Lemma admin_login_routes_witness :
  exists p,
    sixDigits p = true
    /\ fst (requestVerificationRoute (AuthBody.mk (Some "a@hotel.com") None None) sampleWorld)
       = Normal (mkResponse 200
                   (VerificationJson "Verification code sent" (Some p)
                      (Some (now sampleWorld + 600000))))
    /\ let w1 := advance 1000
                   (snd (requestVerificationRoute
                           (AuthBody.mk (Some "a@hotel.com") None None) sampleWorld)) in
       fst (verifyRoute sampleJwt sampleEnv
              (AuthBody.mk (Some "a@hotel.com") (Some p) None) w1)
       = Normal
           match jwt_sign sampleJwt (AdminAuthPayload 1 7 "a@hotel.com")
                   (JWT_SECRET sampleEnv)
                   (mkSignOptions (JWT_EXPIRES_IN sampleEnv) "zapmenu"
                      (String.append "admin:" (Number_toString 1)))
                   (now sampleWorld + 1000) with
           | Normal token =>
               mkResponse 200
                 (AdminSessionJson "Authentication successful" token (Some 1) (Some 7))
           | Throw _ => mkResponse 500 (ErrorJson "Failed to verify passcode")
           end.
Proof.
  apply (admin_login_routes sampleJwt sampleEnv sampleWorld "a@hotel.com"
           (Admin.mk 1 "Ann" "a@hotel.com" "555" 7) 1000).
  - reflexivity.
  - discriminate.
  - reflexivity.
  - exact sample_plainTimes.
  - reflexivity.
  - lia.
Defined.



Lemma findOrCreateGuest_now (w : World) (email name : string) :
  now (snd (findOrCreateGuest email name w)) = now w.
Proof.
  rewrite findOrCreateGuest_run. cbv zeta.
  repeat match goal with
         | |- context [if ?b then _ else _] => destruct b
         | |- context [match ?x with _ => _ end] => destruct x
         end; reflexivity.
Qed.

(** X20. [POST /guest/login] with a fault-free repository, a non-empty
    email and a non-empty name: afterwards the guest stored under the
    email carries the given name, and the route answers 200 with that
    guest's id and the token signed for it; when signing throws it
    answers 500 although the guest has been stored. *)
Theorem guestLoginRoute_upserts
  (jwt : Jsonwebtoken) (env : ProcessEnv) (w : World) (email name : string) :
  faults w = [] ->
  email <> "" ->
  name <> "" ->
  let out := guestLoginRoute jwt env (AuthBody.mk (Some email) None (Some name)) w in
  exists gid,
    guestByEmail email (db (snd out)) = Some (Guest.mk gid name email)
    /\ gid = match guestByEmail email (db w) with
             | Some g => Guest.id g
             | None => nextGuestId (db w)
             end
    /\ fst out
       = Normal
           match jwt_sign jwt (GuestAuthPayload gid email) (JWT_SECRET env)
                   (mkSignOptions (JWT_EXPIRES_IN env) "zapmenu"
                      (String.append "guest:" (Number_toString gid)))
                   (now w) with
           | Normal token =>
               mkResponse 200
                 (GuestSessionJson "Authentication successful" token (Some gid))
           | Throw _ => mkResponse 500 (ErrorJson "Failed to authenticate guest")
           end.
Proof.
  intros Hf He Hn out. subst out.
  assert (F : forall op, faulty op w = false)
    by (intros op; unfold faulty; rewrite Hf; reflexivity).
  pose proof (findOrCreateGuest_run w email name) as Hrun. cbv zeta in Hrun.
  rewrite !F in Hrun.
  pose proof (findOrCreateGuest_now w email name) as Hnow.
  unfold guestLoginRoute, tryCatch. cbn [AuthBody.email AuthBody.name].
  rewrite (present_Some email He), (present_Some name Hn).
  destruct (guestByEmail email (db w)) as [g|] eqn:Hg.
  - assert (Hmail : Guest.email g = email).
    { unfold guestByEmail in Hg. apply find_some in Hg as [_ H].
      apply String.eqb_eq in H. exact H. }
    exists (Guest.id g).
    assert (Hstored : guestByEmail email (db (snd (findOrCreateGuest email name w)))
                      = Some (Guest.mk (Guest.id g) name email)).
    { rewrite Hrun.
      destruct (truthyString name && negb (String.eqb (Guest.name g) name)) eqn:E.
      - simpl. unfold guestByEmail. simpl.
        rewrite (guestByEmail_rename email name g _ Hg).
        unfold Guest.setName. rewrite Hmail. reflexivity.
      - simpl. rewrite Hg. f_equal.
        apply andb_false_iff in E as [E | E].
        + unfold truthyString in E. apply negb_false_iff in E.
          apply String.eqb_eq in E. contradiction.
        + apply negb_false_iff in E. apply String.eqb_eq in E.
          destruct g; simpl in *. subst. reflexivity. }
    assert (Hres : fst (findOrCreateGuest email name w)
                   = Normal (GuestResult.mk true (Some (Guest.id g)) "Guest found")).
    { rewrite Hrun.
      destruct (truthyString name && negb (String.eqb (Guest.name g) name)); reflexivity. }
    apply pair_eta in Hres. rewrite (bind_Normal _ _ _ _ _ Hres).
    cbn [negb GuestResult.success GuestResult.guestId].
    unfold bind, generateGuestToken, ret. rewrite Hnow.
    destruct (jwt_sign jwt _ _ _ _); (split; [exact Hstored | split; reflexivity]).
  - exists (nextGuestId (db w)).
    assert (Hstored : guestByEmail email (db (snd (findOrCreateGuest email name w)))
                      = Some (Guest.mk (nextGuestId (db w)) name email)).
    { rewrite Hrun. simpl. unfold guestByEmail. simpl.
      apply find_app_None; [exact Hg | apply String.eqb_refl]. }
    assert (Hres : fst (findOrCreateGuest email name w)
                   = Normal (GuestResult.mk true (Some (nextGuestId (db w)))
                               "Guest created successfully")).
    { rewrite Hrun. reflexivity. }
    apply pair_eta in Hres. rewrite (bind_Normal _ _ _ _ _ Hres).
    cbn [negb GuestResult.success GuestResult.guestId].
    unfold bind, generateGuestToken, ret. rewrite Hnow.
    destruct (jwt_sign jwt _ _ _ _); (split; [exact Hstored | split; reflexivity]).
Qed.

Lemma guestLoginRoute_upserts_witness :
  let out := guestLoginRoute sampleJwt sampleEnv
               (AuthBody.mk (Some "g@x.com") None (Some "Alicia")) sampleWorld in
  exists gid,
    guestByEmail "g@x.com" (db (snd out)) = Some (Guest.mk gid "Alicia" "g@x.com")
    /\ gid = match guestByEmail "g@x.com" (db sampleWorld) with
             | Some g => Guest.id g
             | None => nextGuestId (db sampleWorld)
             end
    /\ fst out
       = Normal
           match jwt_sign sampleJwt (GuestAuthPayload gid "g@x.com") (JWT_SECRET sampleEnv)
                   (mkSignOptions (JWT_EXPIRES_IN sampleEnv) "zapmenu"
                      (String.append "guest:" (Number_toString gid)))
                   (now sampleWorld) with
           | Normal token =>
               mkResponse 200
                 (GuestSessionJson "Authentication successful" token (Some gid))
           | Throw _ => mkResponse 500 (ErrorJson "Failed to authenticate guest")
           end.
Proof.
  apply (guestLoginRoute_upserts sampleJwt sampleEnv sampleWorld "g@x.com" "Alicia").
  - reflexivity.
  - discriminate.
  - discriminate.
Defined.

(** X21. [GET /admin/me] and [GET /guest/me] never throw and answer 200
    or 401 only.  On 200 the profile is that of the stored principal
    the verified token names: its id and stored name (and phone), with
    the email (and hotel id) taken from the token's claims. *)
Theorem me_routes_answer
  (jwt : Jsonwebtoken) (env : ProcessEnv) (req : Request.t) (w : World) :
  (exists resp,
      fst (adminMeRoute jwt env req w) = Normal resp
      /\ (status resp = 200 \/ status resp = 401)
      /\ (status resp = 200 ->
          exists token adminId hotelId email admin,
            extractTokenFromHeader (Request.authorization req) = Some token
            /\ jwt_verify jwt token (JWT_SECRET env) "zapmenu" (now w)
               = Normal (AdminAuthPayload adminId hotelId email)
            /\ In admin (admins (db w))
            /\ Admin.id admin = adminId
            /\ body resp = AdminProfileJson adminId (Admin.name admin) email
                             (Admin.phone admin) hotelId))
  /\ (exists resp,
      fst (guestMeRoute jwt env req w) = Normal resp
      /\ (status resp = 200 \/ status resp = 401)
      /\ (status resp = 200 ->
          exists token guestId email guest,
            extractTokenFromHeader (Request.authorization req) = Some token
            /\ jwt_verify jwt token (JWT_SECRET env) "zapmenu" (now w)
               = Normal (GuestAuthPayload guestId email)
            /\ In guest (guests (db w))
            /\ Guest.id guest = guestId
            /\ body resp = GuestProfileJson guestId (Guest.name guest) email)).
Proof.
  split.
  - destruct (authenticateAdmin_holds jwt env req w) as [req' [o [H [Hresp Hnext]]]].
    apply pair_eta in H. unfold adminMeRoute, guarded.
    rewrite (bind_Normal _ _ _ _ _ H).
    destruct o as [|s e].
    + destruct (Hnext eq_refl)
        as [token [adminId [hotelId [email [admin [Ht [_ [Hv [Hin [Hid ->]]]]]]]]]].
      eexists. split; [reflexivity|]. simpl. split; [auto|]. intros _.
      exists token, adminId, hotelId, email, admin. auto.
    + destruct (Hresp s e eq_refl) as [-> _].
      eexists. split; [reflexivity|]. simpl. split; [auto | discriminate].
  - destruct (authenticateGuest_holds jwt env req w) as [req' [o [H [Hresp Hnext]]]].
    apply pair_eta in H. unfold guestMeRoute, guarded.
    rewrite (bind_Normal _ _ _ _ _ H).
    destruct o as [|s e].
    + destruct (Hnext eq_refl)
        as [token [guestId [email [guest [Ht [_ [Hv [Hin [Hid ->]]]]]]]]].
      eexists. split; [reflexivity|]. simpl. split; [auto|]. intros _.
      exists token, guestId, email, guest. auto.
    + destruct (Hresp s e eq_refl) as [-> _].
      eexists. split; [reflexivity|]. simpl. split; [auto | discriminate].
Qed.

(** X22. Asking for a new passcode revokes nothing: a passcode that
    [verifyAdminPasscode] would accept is still accepted after any call
    of [createAdminVerification], for any admin, made at the same
    instant with a fault-free repository. *)
Theorem createAdminVerification_keeps_earlier_passcodes
  (w : World) (email passcode : string) (admin : Admin.t) (adminId minutes : Z) :
  faults w = [] ->
  find (fun a => String.eqb (Admin.email a) email) (admins (db w)) = Some admin ->
  filter (prisma_adminVerification.unusedUnexpired (Admin.id admin) passcode (now w))
    (adminVerifications (db w)) <> [] ->
  fst (verifyAdminPasscode email passcode w)
  = Normal (VerifyPasscodeResult.mk true (Some (Admin.id admin))
              (Some (Admin.hotelId admin)) "Passcode verified successfully")
  /\ fst (verifyAdminPasscode email passcode
            (snd (createAdminVerification adminId minutes w)))
     = Normal (VerifyPasscodeResult.mk true (Some (Admin.id admin))
                 (Some (Admin.hotelId admin)) "Passcode verified successfully").
Proof.
  intros Hf Ha Hne.
  assert (Accept : forall w0 : World,
            faults w0 = [] -> now w0 = now w -> admins (db w0) = admins (db w) ->
            (forall v, In v (adminVerifications (db w)) ->
                       In v (adminVerifications (db w0))) ->
            fst (verifyAdminPasscode email passcode w0)
            = Normal (VerifyPasscodeResult.mk true (Some (Admin.id admin))
                        (Some (Admin.hotelId admin)) "Passcode verified successfully")).
  { intros w0 Hf0 Hn0 Had0 Hsub.
    destruct (prisma_adminVerification.newest
                (filter (prisma_adminVerification.unusedUnexpired (Admin.id admin)
                           passcode (now w0)) (adminVerifications (db w0))))
      as [v|] eqn:Hv.
    - rewrite (verifyAdminPasscode_match w0 email passcode admin v Hf0); auto.
      rewrite Had0. exact Ha.
    - exfalso. apply newest_None in Hv.
      destruct (filter _ (adminVerifications (db w))) as [|x xs] eqn:E;
        [apply Hne; reflexivity|].
      assert (Hx : In x (x :: xs)) by (left; reflexivity).
      rewrite <- E in Hx. apply filter_In in Hx as [Hx Hvalid].
      assert (Hx0 : In x (filter (prisma_adminVerification.unusedUnexpired
                                    (Admin.id admin) passcode (now w0))
                            (adminVerifications (db w0)))).
      { apply filter_In. split; [apply Hsub; exact Hx | rewrite Hn0; exact Hvalid]. }
      rewrite Hv in Hx0. contradiction. }
  split.
  - apply Accept; auto.
  - rewrite createAdminVerification_run. cbv zeta.
    unfold faulty. rewrite Hf. simpl existsb. cbv iota.
    destruct (find (fun a => Admin.id a =? adminId) (admins (db w))).
    + destruct (expiryDate (timeZone w) (now w) minutes).
      * apply Accept; auto. intros v Hv. simpl. apply in_or_app. left. exact Hv.
      * apply Accept; auto.
    + apply Accept; auto.
Qed.

Lemma createAdminVerification_keeps_earlier_passcodes_witness :
  fst (verifyAdminPasscode "a@hotel.com" "123456" sampleWorld)
  = Normal (VerifyPasscodeResult.mk true (Some 1) (Some 7) "Passcode verified successfully")
  /\ fst (verifyAdminPasscode "a@hotel.com" "123456"
            (snd (createAdminVerification 1 10 sampleWorld)))
     = Normal (VerifyPasscodeResult.mk true (Some 1) (Some 7)
                 "Passcode verified successfully").
Proof.
  apply (createAdminVerification_keeps_earlier_passcodes sampleWorld "a@hotel.com" "123456"
           (Admin.mk 1 "Ann" "a@hotel.com" "555" 7) 1 10).
  - reflexivity.
  - reflexivity.
  - discriminate.
Defined.


